(** * zebra/zebra_vty.c: static route configuration and route table display

    A shallow embedding of the static route normalizer
    ([zebra_static_route]), the route table walk of [do_show_ip_route],
    the age rendering of [vty_show_ip_route], the address and prefix
    lookups ([show_ip_route_addr], [show_ip_route_prefix]) and the two
    route summaries ([vty_show_ip_route_summary],
    [vty_show_ip_route_summary_prefix]), followed by the commands around
    them: [ip mroute], [show ip route], [show ip rpf], the lookups and
    the multicast display over all VRFs, the configuration switches with
    [config_write_protocol], [ip import-table] and [static_config].

    Conventions
    - C integers are [Z]; the [u_int32_t] counters wrap modulo 2^32.
    - C strings are [string]; the end of the string plays the terminating
      NUL.
    - The vty is a list of output items in the order they are written.
    - Early [return]s are threaded through the [vty_res] monad.
    - Constants, macros and functions that live in headers and libraries
      outside this file are fields of [zebra_consts] and [zebra_env]. *)

From Stdlib Require Import ZArith List Bool Lia String Ascii DecimalString.
Import ListNotations.
Open Scope Z_scope.

(* ================================================================== *)
(** * Part I. Definitions *)
(* ================================================================== *)

(** ** Basic enumerations *)

Inductive cmd_ret : Type :=
| CMD_SUCCESS
| CMD_WARNING
| CMD_WARNING_CONFIG_FAILED.

Inductive afi_t : Type := AFI_IP | AFI_IP6 | AFI_L2VPN.

Inductive safi_t : Type := SAFI_UNICAST | SAFI_MULTICAST.

Inductive family_t : Type := AF_UNSPEC | AF_INET | AF_INET6.

Inductive static_type : Type :=
| STATIC_IFINDEX
| STATIC_IPV4_GATEWAY
| STATIC_IPV4_GATEWAY_IFINDEX
| STATIC_BLACKHOLE
| STATIC_IPV6_GATEWAY
| STATIC_IPV6_GATEWAY_IFINDEX.

Definition family_eqb (f g : family_t) : bool :=
  match f, g with
  | AF_UNSPEC, AF_UNSPEC | AF_INET, AF_INET | AF_INET6, AF_INET6 => true
  | _, _ => false
  end.

(** ** Constants of the headers this file includes

    [lib/zebra.h], [lib/route_types.h], [lib/nexthop.h], [lib/if.h],
    [lib/vrf.h], [lib/mpls.h], [zebra/rib.h] and [zebra/zebra_static.h]
    are not part of this file: their constants are taken as parameters,
    together with the few facts about them the proofs rely on. *)

Class zebra_consts : Type := {
  ZEBRA_ROUTE_STATIC : Z;
  ZEBRA_ROUTE_RIP : Z;
  ZEBRA_ROUTE_OSPF : Z;
  ZEBRA_ROUTE_ISIS : Z;
  ZEBRA_ROUTE_BGP : Z;
  ZEBRA_ROUTE_NHRP : Z;
  ZEBRA_ROUTE_TABLE : Z;
  ZEBRA_ROUTE_MAX : Z;
  ZEBRA_FLAG_BLACKHOLE : Z;
  ZEBRA_FLAG_IBGP : Z;
  ZEBRA_FLAG_SELECTED : Z;
  ZEBRA_FLAG_REJECT : Z;
  NEXTHOP_FLAG_FIB : Z;
  ROUTE_ENTRY_SELECTED_FIB : Z;
  IFINDEX_DELETED : Z;
  ZEBRA_STATIC_DISTANCE_DEFAULT : Z;
  VRF_DEFAULT : Z;
  VRF_UNKNOWN : Z;
  MPLS_MIN_RESERVED_LABEL : Z;
  MPLS_MAX_RESERVED_LABEL : Z;
  MPLS_MAX_LABELS : Z;
  SHOW_ROUTE_V4_HEADER : string;
  SHOW_ROUTE_V6_HEADER : string;
  zebra_route_string : Z -> string;
  (* route types index the counter arrays below ZEBRA_ROUTE_MAX *)
  route_bgp_range : 0 <= ZEBRA_ROUTE_BGP < ZEBRA_ROUTE_MAX;
  (* the two discard flags are distinct, non-empty bit masks *)
  flag_blackhole_nonzero : ZEBRA_FLAG_BLACKHOLE <> 0;
  flag_reject_nonzero : ZEBRA_FLAG_REJECT <> 0;
  flag_blackhole_reject : Z.land ZEBRA_FLAG_BLACKHOLE ZEBRA_FLAG_REJECT = 0
}.

(** [CHECK_FLAG(V,F)] is [(V) & (F)], used as a truth value;
    [SET_FLAG(V,F)] is [(V) |= (F)]. *)
Definition CHECK_FLAG (v f : Z) : bool := negb (Z.land v f =? 0).
Definition SET_FLAG (v f : Z) : Z := Z.lor v f.

(** ** Data model *)

(** [struct prefix]. [p_addr] is the address read as a big-endian
    number, so that for IPv4 it is the value [ntohl] returns. *)
Record prefix : Type := {
  family : family_t;
  prefixlen : Z;
  p_addr : Z
}.

(** [struct nexthop], restricted to the field the summaries read. *)
Record nexthop : Type := {
  nh_flags : Z
}.

(** [struct route_entry]; [re_nexthop] is the [next]-linked list that
    starts at [re->nexthop]. *)
Record route_entry : Type := {
  re_type : Z;
  re_instance : Z;
  re_flags : Z;
  re_status : Z;
  re_tag : Z;
  re_uptime : Z;
  re_nexthop : list nexthop
}.

(** [struct route_node]: a prefix and, when [rn->info] is set, the
    entries hanging off it. *)
Record route_node : Type := {
  rn_p : prefix;
  rn_info : option (list route_entry)
}.

(** [RNODE_FOREACH_RE]: no iteration when [rn->info] is NULL. *)
Definition rnode_entries (rn : route_node) : list route_entry :=
  match rn_info rn with
  | Some l => l
  | None => []
  end.

(** [struct route_table]: the nodes in the order [route_top] /
    [route_next] visit them, and the name of the owning VRF. *)
Record route_table : Type := {
  rt_zvrf_name : string;
  rt_nodes : list route_node
}.

Record zebra_vrf : Type := {
  zvrf_id : Z;
  zvrf_name : string
}.

Record interface : Type := {
  ifp_ifindex : Z
}.

Record static_nh_label : Type := {
  num_labels : Z;
  label : list Z
}.

(** ** The vty and early returns *)

(** What a command does to the vty. [Json members] is the [vty_out] of
    the JSON document of the route display: [members] are its
    [json_object_object_add] calls in order, each the array of the
    entries rendered for one prefix. *)
Inductive vty_item : Type :=
| Text (s : string)                          (* vty_out *)
| Route (rn : route_node) (re : route_entry) (* vty_show_ip_route *)
| Detail (rn : route_node) (mcast : Z)       (* vty_show_ip_route_detail *)
| Json (members : list (route_node * list route_entry)).

Inductive vty_res (A : Type) : Type :=
| Continue (a : A) (out : list vty_item)
| Return (r : cmd_ret) (out : list vty_item).

Arguments Continue {A} a out.
Arguments Return {A} r out.

Definition vty_bind {A B : Type} (m : vty_res A) (k : A -> vty_res B)
  : vty_res B :=
  match m with
  | Continue a o =>
      match k a with
      | Continue b o' => Continue b (o ++ o')
      | Return r o' => Return r (o ++ o')
      end
  | Return r o => Return r o
  end.

Definition pass {A : Type} (a : A) : vty_res A := Continue a [].
Definition vty_out (s : string) : vty_res unit := Continue tt [Text s].
Definition leave {A : Type} (r : cmd_ret) : vty_res A := Return r [].

Notation "x <- m ;; k" := (vty_bind m (fun x => k))
  (at level 61, m at next level, right associativity).
Notation "m ;;; k" := (vty_bind m (fun _ => k))
  (at level 61, right associativity).

(** ** Text helpers: the printf conversions the file uses *)

Definition nl : string := String (ascii_of_nat 10) EmptyString.

(** [%d] *)
Definition fmt_d (n : Z) : string := NilZero.string_of_int (Z.to_int n).

Fixpoint spaces (n : nat) : string :=
  match n with
  | O => EmptyString
  | S k => String " " (spaces k)
  end.

(** [%-20s] and, after [fmt_d], [%-20d] *)
Definition pad20 (s : string) : string :=
  (s ++ spaces (20 - String.length s))%string.

(** [%02d] *)
Definition fmt_02d (n : Z) : string :=
  let s := fmt_d n in
  if (String.length s <? 2)%nat then ("0" ++ s)%string else s.

(** ** Environment: library functions and global state

    [str2prefix], [inet_aton], [ip_masklen], [apply_mask], [inet_pton],
    [afi2family], [mpls_str2label], [if_lookup_by_name],
    [zebra_vrf_lookup_by_name], [zebra_vrf_table], [str2prefix_ipv4],
    the [VRF_GET_ID] macro and the [mpls_enabled] global are defined
    elsewhere in the tree. A parser that reports failure ([ret <= 0],
    [ret == 0], [!= 1]) is [None]. *)

Class zebra_env : Type := {
  str2prefix : string -> option prefix;
  inet_aton : string -> option Z;
  ip_masklen : Z -> Z;
  apply_mask : prefix -> prefix;
  atoi : string -> Z;
  strtoul : string -> Z;
  zebra_vrf_lookup_by_name : option string -> option zebra_vrf;
  mpls_enabled : bool;
  mpls_str2label : string -> Z * static_nh_label;
  afi2family : afi_t -> family_t;
  inet_pton : family_t -> string -> option Z;
  if_lookup_by_name : string -> Z -> option interface;
  zebra_vrf_table : afi_t -> safi_t -> Z -> option route_table;
  str2prefix_ipv4 : string -> option prefix;
  VRF_GET_ID : string -> vty_res Z
}.

(** ** C string functions *)

(** [tolower] in the C locale, as a character code. *)
Definition tolower (c : ascii) : Z :=
  let n := Z.of_N (N_of_ascii c) in
  if (65 <=? n) && (n <=? 90) then n + 32 else n.

Definition strlen (s : string) : nat := String.length s.

(** [strncasecmp (s1, s2, n)]: compares at most [n] characters, folded to
    lower case, and stops at the first difference or at the end of
    [s1]. The result is the difference of the two character codes. *)
Fixpoint strncasecmp (s1 s2 : string) (n : nat) : Z :=
  match n with
  | O => 0
  | S n' =>
      match s1, s2 with
      | EmptyString, EmptyString => 0
      | EmptyString, String c2 _ => 0 - tolower c2
      | String c1 _, EmptyString => tolower c1 - 0
      | String c1 t1, String c2 t2 =>
          let r := tolower c1 - tolower c2 in
          if r =? 0 then strncasecmp t1 t2 n' else r
      end
  end.

(** ** Static route configuration: [zebra_static_route] *)

Record static_args : Type := {
  afi : afi_t;
  safi : safi_t;
  negate : option string;
  dest_str : string;
  mask_str : option string;
  src_str : option string;
  gate_str : option string;
  ifname : option string;
  flag_str : option string;
  tag_str : option string;
  distance_str : option string;
  vrf_id_str : option string;
  label_str : option string
}.

(** The two requests the function can send to the RIB, with the
    arguments of the calls at lines 238-242. *)
Inductive rib_request : Type :=
| static_add_route (afi : afi_t) (safi : safi_t) (type : static_type)
    (p : prefix) (src_p : option prefix) (gatep : option Z) (ifindex : Z)
    (ifname : option string) (flag : Z) (tag : Z) (distance : Z)
    (zvrf : zebra_vrf) (snh_label : static_nh_label)
| static_delete_route (afi : afi_t) (safi : safi_t) (type : static_type)
    (p : prefix) (src_p : option prefix) (gatep : option Z) (ifindex : Z)
    (tag : Z) (distance : Z) (zvrf : zebra_vrf)
    (snh_label : static_nh_label).

(** What lines 87-170 leave in the locals. *)
Record validated : Type := {
  v_p : prefix;
  v_src_p : option prefix;
  v_distance : Z;
  v_tag : Z;
  v_zvrf : zebra_vrf;
  v_snh_label : static_nh_label
}.

(** What lines 172-235 leave in the locals. *)
Record nexthop_info : Type := {
  n_flag : Z;
  n_ifname : option string;
  n_gatep : option Z;
  n_ifindex : Z;
  n_type : static_type
}.

Definition config_failed {A : Type} (msg : string) : vty_res A :=
  vty_out msg ;;; leave CMD_WARNING_CONFIG_FAILED.

Section StaticRoute.
Context {K : zebra_consts} {E : zebra_env}.

Definition msg_malformed_address : string :=
  ("% Malformed address" ++ nl)%string.
Definition msg_malformed_source : string :=
  ("% Malformed source address" ++ nl)%string.
Definition msg_vrf_undefined (v : option string) : string :=
  ("% vrf " ++ match v with Some s => s | None => "(null)" end
     ++ " is not defined" ++ nl)%string.
Definition msg_mpls_off : string :=
  ("% MPLS not turned on in kernel, ignoring command" ++ nl)%string.
Definition msg_malformed_label : string :=
  ("% Malformed label(s)" ++ nl)%string.
Definition msg_reserved_label : string :=
  ("% Cannot use reserved label(s) (" ++ fmt_d MPLS_MIN_RESERVED_LABEL ++ "-"
     ++ fmt_d MPLS_MAX_RESERVED_LABEL ++ ")" ++ nl)%string.
Definition msg_too_many_labels : string :=
  ("% Too many labels. Enter " ++ fmt_d MPLS_MAX_LABELS ++ " or fewer"
     ++ nl)%string.
Definition msg_null0_flag (f : string) : string :=
  ("% can not have flag " ++ f ++ " with Null0" ++ nl)%string.
Definition msg_malformed_flag (f : string) : string :=
  ("% Malformed flag " ++ f ++ " " ++ nl)%string.
Definition msg_malformed_nexthop (g : string) : string :=
  ("% Malformed nexthop address " ++ g ++ nl)%string.
Definition msg_malformed_ifname (n : string) : string :=
  ("% Malformed Interface name " ++ n ++ nl)%string.

Definition set_prefixlen (p : prefix) (l : Z) : prefix :=
  {| family := family p; prefixlen := l; p_addr := p_addr p |}.

(** [switch (afi)], lines 93-118. *)
Definition static_afi_switch (a : static_args) (p : prefix)
  : vty_res (prefix * option prefix) :=
  match afi a with
  | AFI_IP =>
      match mask_str a with
      | Some m =>
          match inet_aton m with
          | None => config_failed msg_malformed_address
          | Some mask => pass (set_prefixlen p (ip_masklen mask), None)
          end
      | None => pass (p, None)
      end
  | AFI_IP6 =>
      match src_str a with
      | Some s =>
          match str2prefix s with
          | None => config_failed msg_malformed_source
          | Some src =>
              if family_eqb (family src) AF_INET6
              then pass (p, Some src)
              else config_failed msg_malformed_source
          end
      | None => pass (p, None)
      end
  | AFI_L2VPN => pass (p, None)
  end.

(** Labels, lines 142-170. A negative [rc] other than -1, -2, -3 prints
    nothing and still fails. *)
Definition static_labels (a : static_args) : vty_res static_nh_label :=
  match label_str a with
  | Some l =>
      if negb mpls_enabled then config_failed msg_mpls_off
      else
        let '(rc, snh) := mpls_str2label l in
        if rc <? 0 then
          (if rc =? -1 then vty_out msg_malformed_label
           else if rc =? -2 then vty_out msg_reserved_label
           else if rc =? -3 then vty_out msg_too_many_labels
           else pass tt) ;;;
          leave CMD_WARNING_CONFIG_FAILED
        else pass snh
  | None => pass {| num_labels := 0; label := [] |}
  end.

(** Lines 87-170: destination, mask or source, distance, tag, VRF and
    labels. [distance] is a [u_char] and [tag] a 32-bit [route_tag_t]. *)
Definition static_route_validate (a : static_args) : vty_res validated :=
  p <- match str2prefix (dest_str a) with
       | None => config_failed msg_malformed_address
       | Some p => pass p
       end ;;
  ps <- static_afi_switch a p ;;
  let p := apply_mask (fst ps) in
  let distance := match distance_str a with
                  | Some d => (atoi d) mod 256
                  | None => ZEBRA_STATIC_DISTANCE_DEFAULT
                  end in
  let tag := match tag_str a with
             | Some t => (strtoul t) mod 2 ^ 32
             | None => 0
             end in
  zvrf <- match zebra_vrf_lookup_by_name (vrf_id_str a) with
          | None => config_failed (msg_vrf_undefined (vrf_id_str a))
          | Some z => pass z
          end ;;
  snh <- static_labels a ;;
  pass {| v_p := p; v_src_p := snd ps; v_distance := distance; v_tag := tag;
          v_zvrf := zvrf; v_snh_label := snh |}.

(** The test of line 173-174. *)
Definition null0_test (name : string) : bool :=
  strncasecmp name "Null0" (strlen name) =? 0.

(** Null0 static route, lines 172-182: yields the flag word and the
    interface name that the rest of the function sees. *)
Definition static_null0 (ifname flag_str : option string)
  : vty_res (Z * option string) :=
  match ifname with
  | Some name =>
      if null0_test name then
        match flag_str with
        | Some f => config_failed (msg_null0_flag f)
        | None => pass (SET_FLAG 0 ZEBRA_FLAG_BLACKHOLE, None)
        end
      else pass (0, ifname)
  | None => pass (0, ifname)
  end.

(** Route flags, lines 184-199: [switch (flag_str[0])]. *)
Definition static_route_flags (flag : Z) (flag_str : option string)
  : vty_res Z :=
  match flag_str with
  | Some f =>
      match f with
      | String c _ =>
          if (Ascii.eqb c "r" || Ascii.eqb c "R")%bool
          then pass (SET_FLAG flag ZEBRA_FLAG_REJECT)
          else if (Ascii.eqb c "b" || Ascii.eqb c "B")%bool
          then pass (SET_FLAG flag ZEBRA_FLAG_BLACKHOLE)
          else config_failed (msg_malformed_flag f)
      | EmptyString => config_failed (msg_malformed_flag f)
      end
  | None => pass flag
  end.

(** Lines 221-235. *)
Definition static_type_of (afi : afi_t) (gate_str ifname : option string)
  : static_type :=
  match gate_str, ifname with
  | None, None => STATIC_BLACKHOLE
  | Some _, Some _ =>
      match afi with
      | AFI_IP => STATIC_IPV4_GATEWAY_IFINDEX
      | _ => STATIC_IPV6_GATEWAY_IFINDEX
      end
  | None, Some _ => STATIC_IFINDEX
  | Some _, None =>
      match afi with
      | AFI_IP => STATIC_IPV4_GATEWAY
      | _ => STATIC_IPV6_GATEWAY
      end
  end.

(** Lines 172-235: Null0, route flags, gateway, interface and type. *)
Definition static_route_nexthop (afi : afi_t)
    (gate_str ifname flag_str : option string) (zvrf : zebra_vrf)
  : vty_res nexthop_info :=
  fi <- static_null0 ifname flag_str ;;
  let ifname := snd fi in
  flag <- static_route_flags (fst fi) flag_str ;;
  gatep <- match gate_str with
           | Some g =>
               match inet_pton (afi2family afi) g with
               | None => config_failed (msg_malformed_nexthop g)
               | Some gate => pass (Some gate)
               end
           | None => pass None
           end ;;
  ifindex <- match ifname with
             | Some name =>
                 match if_lookup_by_name name (zvrf_id zvrf) with
                 | None =>
                     vty_out (msg_malformed_ifname name) ;;;
                     pass IFINDEX_DELETED
                 | Some ifp => pass (ifp_ifindex ifp)
                 end
             | None => pass 0
             end ;;
  pass {| n_flag := flag; n_ifname := ifname; n_gatep := gatep;
          n_ifindex := ifindex;
          n_type := static_type_of afi gate_str ifname |}.

(** Lines 237-242. *)
Definition static_request (a : static_args) (v : validated)
    (n : nexthop_info) : rib_request :=
  match negate a with
  | None =>
      static_add_route (afi a) (safi a) (n_type n) (v_p v) (v_src_p v)
        (n_gatep n) (n_ifindex n) (n_ifname n) (n_flag n) (v_tag v)
        (v_distance v) (v_zvrf v) (v_snh_label v)
  | Some _ =>
      static_delete_route (afi a) (safi a) (n_type n) (v_p v) (v_src_p v)
        (n_gatep n) (n_ifindex n) (v_tag v) (v_distance v) (v_zvrf v)
        (v_snh_label v)
  end.

(** Lines 87-242 in sequence. *)
Definition static_route_body (a : static_args) : vty_res rib_request :=
  v <- static_route_validate a ;;
  n <- static_route_nexthop (afi a) (gate_str a) (ifname a) (flag_str a)
         (v_zvrf v) ;;
  pass (static_request a v n).

(** The outcome of a call. *)
Record static_result : Type := {
  sr_ret : cmd_ret;
  sr_out : list vty_item;
  sr_rib : list rib_request     (* requests sent to the RIB, in order *)
}.

(** [zebra_static_route], lines 65-245: a call that reaches line 244
    has sent its one request and returns [CMD_SUCCESS]; a call that left
    earlier has sent none. *)
Definition zebra_static_route (a : static_args) : static_result :=
  match static_route_body a with
  | Continue rq o => {| sr_ret := CMD_SUCCESS; sr_out := o; sr_rib := [rq] |}
  | Return r o => {| sr_ret := r; sr_out := o; sr_rib := [] |}
  end.

End StaticRoute.

(** ** Prefix matching and table lookup (lib/prefix.c, lib/table.c) *)

Definition addr_bits (f : family_t) : Z :=
  match f with
  | AF_INET => 32
  | AF_INET6 => 128
  | AF_UNSPEC => 0
  end.

(** Modelled from the spec: [prefix_match] of lib/prefix.c is not in this
    file. "The requested reference prefix covers the entry's prefix
    (entry equal-or-longer)": [n] covers [p] when [n] is not longer than
    [p] and the two addresses agree on the first [prefixlen n] bits. *)
Definition prefix_match (n p : prefix) : bool :=
  if prefixlen p <? prefixlen n then false
  else
    let drop := addr_bits (family n) - prefixlen n in
    Z.shiftr (p_addr n) drop =? Z.shiftr (p_addr p) drop.

Definition has_info (rn : route_node) : bool :=
  match rn_info rn with
  | Some _ => true
  | None => false
  end.

(** Modelled from the spec: [route_node_match] of lib/table.c is not in
    this file. "Best/longest match": among the nodes that carry routes
    and whose prefix covers [p], the one with the longest prefix (the
    first such in walk order); NULL when there is none. *)
Fixpoint route_node_match_from (best : option route_node)
    (nodes : list route_node) (p : prefix) : option route_node :=
  match nodes with
  | [] => best
  | rn :: rest =>
      let better :=
        match best with
        | None => true
        | Some b => prefixlen (rn_p b) <? prefixlen (rn_p rn)
        end in
      if has_info rn && prefix_match (rn_p rn) p && better
      then route_node_match_from (Some rn) rest p
      else route_node_match_from best rest p
  end.

Definition route_node_match (table : route_table) (p : prefix)
  : option route_node :=
  route_node_match_from None (rt_nodes table) p.

(** ** Route table display: [do_show_ip_route] *)

(** [IN_CLASSA], [IN_CLASSB], [IN_CLASSC] of <netinet/in.h>. *)
Definition IN_CLASSA (a : Z) : bool := Z.land a 0x80000000 =? 0.
Definition IN_CLASSB (a : Z) : bool := Z.land a 0xc0000000 =? 0x80000000.
Definition IN_CLASSC (a : Z) : bool := Z.land a 0xe0000000 =? 0xc0000000.

(** [ntohl(rn->p.u.prefix4.s_addr)]: the first four bytes of the address
    as a 32-bit number. *)
Definition prefix4_host (p : prefix) : Z :=
  match family p with
  | AF_INET6 => (p_addr p / 2 ^ 96) mod 2 ^ 32
  | _ => p_addr p mod 2 ^ 32
  end.

(** Lines 952-963: [true] when one of the three [continue]s is taken. *)
Definition supernet_skip (rn : route_node) : bool :=
  let addr := prefix4_host (rn_p rn) in
  let len := prefixlen (rn_p rn) in
  if IN_CLASSC addr && (24 <=? len) then true
  else if IN_CLASSB addr && (16 <=? len) then true
  else if IN_CLASSA addr && (8 <=? len) then true
  else false.

Definition finish (m : vty_res unit) : cmd_ret * list vty_item :=
  match m with
  | Continue _ o => (CMD_SUCCESS, o)
  | Return r o => (r, o)
  end.

Definition emit (i : vty_item) : vty_res unit := Continue tt [i].

Section ShowRoute.
Context {K : zebra_consts} {E : zebra_env}.

(** The filter of lines 939-971: [false] when a [continue] is taken. A
    zero [tag], [type] or [ospf_instance_id] and a NULL
    [longer_prefix_p] switch the corresponding test off. *)
Definition show_filter (use_fib : bool) (tag : Z)
    (longer_prefix_p : option prefix) (supernets_only : bool) (type : Z)
    (ospf_instance_id : Z) (rn : route_node) (re : route_entry) : bool :=
  if use_fib && negb (CHECK_FLAG (re_status re) ROUTE_ENTRY_SELECTED_FIB)
  then false
  else if negb (tag =? 0) && negb (re_tag re =? tag) then false
  else if match longer_prefix_p with
          | Some lp => negb (prefix_match lp (rn_p rn))
          | None => false
          end
  then false
  else if supernets_only && supernet_skip rn then false
  else if negb (type =? 0) && negb (re_type re =? type) then false
  else if negb (ospf_instance_id =? 0)
          && (negb (re_type re =? ZEBRA_ROUTE_OSPF)
              || negb (re_instance re =? ospf_instance_id))
  then false
  else true.

(** Lines 977-990: the header written before the first text entry. *)
Definition show_header (afi : afi_t) (zvrf : zebra_vrf) : list vty_item :=
  Text (match afi with
        | AFI_IP => SHOW_ROUTE_V4_HEADER
        | _ => SHOW_ROUTE_V6_HEADER
        end)
  :: (if zvrf_id zvrf =? VRF_DEFAULT then []
      else [Text (nl ++ "VRF " ++ zvrf_name zvrf ++ ":" ++ nl)%string]).

(** [RNODE_FOREACH_RE] of lines 937-994, threading [first]. A [Route]
    item is a call of the renderer: in text mode it writes the entry, in
    JSON mode it appends the object of the entry to [json_prefix] and
    writes nothing; the document is written after the walk. *)
Fixpoint show_entries (flt : route_node -> route_entry -> bool)
    (hdr : list vty_item) (use_json : bool) (rn : route_node)
    (res : list route_entry) (first : bool) : bool * list vty_item :=
  match res with
  | [] => (first, [])
  | re :: rest =>
      if flt rn re then
        let pre := if use_json then [] else if first then hdr else [] in
        let first' := if use_json then first else false in
        let '(f, o) := show_entries flt hdr use_json rn rest first' in
        (f, pre ++ Route rn re :: o)
      else show_entries flt hdr use_json rn rest first
  end.

(** The walk of lines 936-1001. *)
Fixpoint show_nodes (flt : route_node -> route_entry -> bool)
    (hdr : list vty_item) (use_json : bool) (nodes : list route_node)
    (first : bool) : list vty_item :=
  match nodes with
  | [] => []
  | rn :: rest =>
      let '(f, o) :=
        show_entries flt hdr use_json rn (rnode_entries rn) first in
      o ++ show_nodes flt hdr use_json rest f
  end.

(** [json_prefix] over the entries of one node, lines 973-975 and 993:
    the array is made for the first entry that passes the filter and
    every such entry is appended to it. *)
Fixpoint json_entries (flt : route_node -> route_entry -> bool)
    (rn : route_node) (res : list route_entry)
    (json_prefix : option (list route_entry))
  : option (list route_entry) :=
  match res with
  | [] => json_prefix
  | re :: rest =>
      if flt rn re then
        let arr := match json_prefix with
                   | None => []
                   | Some arr => arr
                   end in
        json_entries flt rn rest (Some (arr ++ [re]))
      else json_entries flt rn rest json_prefix
  end.

(** [json] over the walk, lines 996-1000: after the entries of a node
    its array, when there is one, is added under the node's prefix and
    [json_prefix] is reset. *)
Fixpoint json_nodes (flt : route_node -> route_entry -> bool)
    (nodes : list route_node) (json : list (route_node * list route_entry))
  : list (route_node * list route_entry) :=
  match nodes with
  | [] => json
  | rn :: rest =>
      json_nodes flt rest
        (match json_entries flt rn (rnode_entries rn) None with
         | Some arr => json ++ [(rn, arr)]
         | None => json
         end)
  end.

Definition do_show_ip_route (vrf_name : string) (afi : afi_t)
    (safi : safi_t) (use_fib use_json : bool) (tag : Z)
    (longer_prefix_p : option prefix) (supernets_only : bool) (type : Z)
    (ospf_instance_id : Z) : cmd_ret * list vty_item :=
  let empty := if use_json then [Text ("{}" ++ nl)%string] else [] in
  match zebra_vrf_lookup_by_name (Some vrf_name) with
  | None =>
      (CMD_SUCCESS,
       if use_json then [Text ("{}" ++ nl)%string]
       else [Text ("vrf " ++ vrf_name ++ " not defined" ++ nl)%string])
  | Some zvrf =>
      if zvrf_id zvrf =? VRF_UNKNOWN then
        (CMD_SUCCESS,
         if use_json then [Text ("{}" ++ nl)%string]
         else [Text ("vrf " ++ vrf_name ++ " inactive" ++ nl)%string])
      else
        match zebra_vrf_table afi safi (zvrf_id zvrf) with
        | None => (CMD_SUCCESS, empty)
        | Some table =>
            let flt := show_filter use_fib tag longer_prefix_p
                         supernets_only type ospf_instance_id in
            (CMD_SUCCESS,
             show_nodes flt (show_header afi zvrf) use_json
               (rt_nodes table) true
             ++ (if use_json then [Json (json_nodes flt (rt_nodes table) [])]
                 else []))
        end
  end.

(** ** Address and prefix lookups *)

Definition msg_malformed_ipv4 : string :=
  ("% Malformed IPv4 address" ++ nl)%string.
Definition msg_not_in_table : string := ("% Network not in table" ++ nl)%string.

(** [show ip route [vrf NAME] A.B.C.D], lines 1264-1306. *)
Definition show_ip_route_addr (vrf_arg : option string) (arg : string)
  : cmd_ret * list vty_item :=
  finish (
    vrf_id <- match vrf_arg with
              | Some name => VRF_GET_ID name
              | None => pass VRF_DEFAULT
              end ;;
    match str2prefix_ipv4 arg with
    | None => vty_out msg_malformed_ipv4 ;;; leave CMD_WARNING
    | Some p =>
        match zebra_vrf_table AFI_IP SAFI_UNICAST vrf_id with
        | None => leave CMD_SUCCESS
        | Some table =>
            match route_node_match table p with
            | None => vty_out msg_not_in_table ;;; leave CMD_WARNING
            | Some rn => emit (Detail rn 0)
            end
        end
    end).

(** [show ip route [vrf NAME] A.B.C.D/M], lines 1308-1350. *)
Definition show_ip_route_prefix (vrf_arg : option string) (arg : string)
  : cmd_ret * list vty_item :=
  finish (
    vrf_id <- match vrf_arg with
              | Some name => VRF_GET_ID name
              | None => pass VRF_DEFAULT
              end ;;
    match str2prefix_ipv4 arg with
    | None => vty_out msg_malformed_ipv4 ;;; leave CMD_WARNING
    | Some p =>
        match zebra_vrf_table AFI_IP SAFI_UNICAST vrf_id with
        | None => leave CMD_SUCCESS
        | Some table =>
            match route_node_match table p with
            | None => vty_out msg_not_in_table ;;; leave CMD_WARNING
            | Some rn =>
                if negb (prefixlen (rn_p rn) =? prefixlen p)
                then vty_out msg_not_in_table ;;; leave CMD_WARNING
                else emit (Detail rn 0)
            end
        end
    end).

End ShowRoute.

(** ** Age rendering *)

(** [ONE_DAY_SECOND] and [ONE_WEEK_SECOND], lines 58-59. *)
Definition ONE_DAY_SECOND : Z := 60 * 60 * 24.
Definition ONE_WEEK_SECOND : Z := 60 * 60 * 24 * 7.

(** The fields of [struct tm] the renderer reads. *)
Record tm : Type := {
  tm_sec : Z;
  tm_min : Z;
  tm_hour : Z;
  tm_yday : Z
}.

Definition is_leap (y : Z) : bool :=
  (y mod 4 =? 0) && (negb (y mod 100 =? 0) || (y mod 400 =? 0)).

Definition year_len (y : Z) : Z := if is_leap y then 366 else 365.

(** Day of the year of day number [d >= 0] counted from 1 January of
    year [y]. *)
Fixpoint yday_fwd (fuel : nat) (y d : Z) : Z :=
  if d <? year_len y then d
  else
    match fuel with
    | O => d
    | S f => yday_fwd f (y + 1) (d - year_len y)
    end.

(** The same for [d < 0], walking back from year [y]. *)
Fixpoint yday_bwd (fuel : nat) (y d : Z) : Z :=
  let d' := d + year_len (y - 1) in
  if 0 <=? d' then d'
  else
    match fuel with
    | O => d'
    | S f => yday_bwd f (y - 1) d'
    end.

(** libc's [gmtime]: seconds since 1 January 1970 00:00:00 UTC broken
    down into time of day and day of the year. *)
Definition gmtime (t : Z) : tm :=
  let days := t / 86400 in
  let rem := t mod 86400 in
  {| tm_sec := rem mod 60;
     tm_min := (rem mod 3600) / 60;
     tm_hour := rem / 3600;
     tm_yday := if 0 <=? days
                then yday_fwd (Z.to_nat (days / 365)) 1970 days
                else yday_bwd (Z.to_nat ((- days) / 365)) 1970 days |}.

(** The three-way format of lines 873-882 (and 455-464, 614-623). *)
Definition uptime_fmt (uptime : Z) : string :=
  let t := gmtime uptime in
  if uptime <? ONE_DAY_SECOND then
    (fmt_02d (tm_hour t) ++ ":" ++ fmt_02d (tm_min t) ++ ":"
       ++ fmt_02d (tm_sec t))%string
  else if uptime <? ONE_WEEK_SECOND then
    (fmt_d (tm_yday t) ++ "d" ++ fmt_02d (tm_hour t) ++ "h"
       ++ fmt_02d (tm_min t) ++ "m")%string
  else
    (fmt_02d (tm_yday t / 7) ++ "w"
       ++ fmt_d (tm_yday t - ((tm_yday t / 7) * 7)) ++ "d"
       ++ fmt_02d (tm_hour t) ++ "h")%string.

Section Age.
Context {K : zebra_consts}.




End Age.

(** ** Route summaries *)

(** [u_int32_t] arithmetic, and a [u_int32_t] printed with [%d]. *)
Definition u32 (x : Z) : Z := x mod 2 ^ 32.
Definition as_int (x : Z) : Z := if x <? 2 ^ 31 then x else x - 2 ^ 32.

(** A counter array, indexed by route type. *)
Definition cnt_array : Type := Z -> Z.

(** [memset (&cnt, 0, sizeof cnt)] *)
Definition zero_cnt : cnt_array := fun _ => 0.

(** [cnt[i]++] *)
Definition incr (a : cnt_array) (i : Z) : cnt_array :=
  fun j => if j =? i then u32 (a j + 1) else a j.

Record counters : Type := {
  rib_cnt : cnt_array;
  fib_cnt : cnt_array
}.

Definition zero_counters : counters :=
  {| rib_cnt := zero_cnt; fib_cnt := zero_cnt |}.

(** The rows of the two summaries: ["%-20s %-20d %-20d \n"]. *)
Definition summary_row (name : string) (rib fib : Z) : vty_item :=
  Text (pad20 name ++ " " ++ pad20 (fmt_d (as_int rib)) ++ " "
          ++ pad20 (fmt_d (as_int fib)) ++ " " ++ nl)%string.

(** ["%-20s %-20s %s  (vrf %s)\n"] *)
Definition summary_header (col : string) (vrf : string) : vty_item :=
  Text (pad20 "Route Source" ++ " " ++ pad20 col ++ " " ++ "FIB"
          ++ "  (vrf " ++ vrf ++ ")" ++ nl)%string.

Definition summary_footer (c : counters) (total : Z) : list vty_item :=
  [Text ("------" ++ nl)%string;
   summary_row "Totals" (rib_cnt c total) (fib_cnt c total);
   Text nl].

(** [for (i = 0; i < n; i++)] *)
Definition upto (n : Z) : list Z := map Z.of_nat (seq 0 (Z.to_nat n)).

(** The walk shared by the two summaries: every entry of every node. *)
Definition walk_entries (step : counters -> route_entry -> counters)
    (table : route_table) : counters :=
  fold_left (fun c rn => fold_left step (rnode_entries rn) c)
    (rt_nodes table) zero_counters.

Section Summary.
Context {K : zebra_consts}.

Definition ZEBRA_ROUTE_IBGP : Z := ZEBRA_ROUTE_MAX.
Definition ZEBRA_ROUTE_TOTAL : Z := ZEBRA_ROUTE_IBGP + 1.

(** The loop body of [vty_show_ip_route_summary], lines 1370-1386. *)
Definition summary_entry (c : counters) (re : route_entry) : counters :=
  let is_ibgp := (re_type re =? ZEBRA_ROUTE_BGP)
                 && CHECK_FLAG (re_flags re) ZEBRA_FLAG_IBGP in
  let rib := incr (rib_cnt c) ZEBRA_ROUTE_TOTAL in
  let rib := if is_ibgp then incr rib ZEBRA_ROUTE_IBGP
             else incr rib (re_type re) in
  let fib :=
    if CHECK_FLAG (re_flags re) ZEBRA_FLAG_SELECTED then
      let fib := incr (fib_cnt c) ZEBRA_ROUTE_TOTAL in
      if is_ibgp then incr fib ZEBRA_ROUTE_IBGP else incr fib (re_type re)
    else fib_cnt c in
  {| rib_cnt := rib; fib_cnt := fib |}.

Definition summary_count (table : route_table) : counters :=
  walk_entries summary_entry table.

(** Lines 1392-1407. *)
Definition summary_rows (c : counters) (i : Z) : list vty_item :=
  if (0 <? rib_cnt c i)
     || ((i =? ZEBRA_ROUTE_BGP) && (0 <? rib_cnt c ZEBRA_ROUTE_IBGP))
  then
    if i =? ZEBRA_ROUTE_BGP then
      [summary_row "ebgp" (rib_cnt c ZEBRA_ROUTE_BGP)
         (fib_cnt c ZEBRA_ROUTE_BGP);
       summary_row "ibgp" (rib_cnt c ZEBRA_ROUTE_IBGP)
         (fib_cnt c ZEBRA_ROUTE_IBGP)]
    else [summary_row (zebra_route_string i) (rib_cnt c i) (fib_cnt c i)]
  else [].

Definition vty_show_ip_route_summary (table : route_table)
  : list vty_item :=
  let c := summary_count table in
  summary_header "Routes" (rt_zvrf_name table)
  :: flat_map (summary_rows c) (upto ZEBRA_ROUTE_MAX)
  ++ summary_footer c ZEBRA_ROUTE_TOTAL.

(** The body of the nexthop loop of [vty_show_ip_route_summary_prefix],
    lines 1447-1461, without [cnt++]. *)
Definition prefix_nexthop_body (re : route_entry) (nh : nexthop)
    (c : counters) : counters :=
  let rib := incr (incr (rib_cnt c) ZEBRA_ROUTE_TOTAL) (re_type re) in
  let fib :=
    if CHECK_FLAG (nh_flags nh) NEXTHOP_FLAG_FIB
    then incr (incr (fib_cnt c) ZEBRA_ROUTE_TOTAL) (re_type re)
    else fib_cnt c in
  if (re_type re =? ZEBRA_ROUTE_BGP)
     && CHECK_FLAG (re_flags re) ZEBRA_FLAG_IBGP
  then
    {| rib_cnt := incr rib ZEBRA_ROUTE_IBGP;
       fib_cnt := if CHECK_FLAG (nh_flags nh) NEXTHOP_FLAG_FIB
                  then incr fib ZEBRA_ROUTE_IBGP else fib |}
  else {| rib_cnt := rib; fib_cnt := fib |}.

(** [for (nexthop = re->nexthop; (!cnt && nexthop);
         nexthop = nexthop->next)], lines 1445-1462. *)
Fixpoint prefix_nexthop_loop (re : route_entry) (cnt : Z)
    (nhs : list nexthop) (c : counters) : counters :=
  match nhs with
  | [] => c
  | nh :: rest =>
      if cnt =? 0
      then prefix_nexthop_loop re (cnt + 1) rest (prefix_nexthop_body re nh c)
      else c
  end.

(** Lines 1444-1462: [cnt = 0] and the nexthop loop. *)
Definition summary_prefix_entry (c : counters) (re : route_entry)
  : counters :=
  prefix_nexthop_loop re 0 (re_nexthop re) c.

Definition summary_prefix_count (table : route_table) : counters :=
  walk_entries summary_prefix_entry table.

(** Lines 1469-1485. *)
Definition summary_prefix_rows (c : counters) (i : Z) : list vty_item :=
  if 0 <? rib_cnt c i then
    if i =? ZEBRA_ROUTE_BGP then
      [summary_row "ebgp"
         (u32 (rib_cnt c ZEBRA_ROUTE_BGP - rib_cnt c ZEBRA_ROUTE_IBGP))
         (u32 (fib_cnt c ZEBRA_ROUTE_BGP - fib_cnt c ZEBRA_ROUTE_IBGP));
       summary_row "ibgp" (rib_cnt c ZEBRA_ROUTE_IBGP)
         (fib_cnt c ZEBRA_ROUTE_IBGP)]
    else [summary_row (zebra_route_string i) (rib_cnt c i) (fib_cnt c i)]
  else [].

Definition vty_show_ip_route_summary_prefix (table : route_table)
  : list vty_item :=
  let c := summary_prefix_count table in
  summary_header "Prefix Routes" (rt_zvrf_name table)
  :: flat_map (summary_prefix_rows c) (upto ZEBRA_ROUTE_MAX)
  ++ summary_footer c ZEBRA_ROUTE_TOTAL.

(** The numbers each summary prints on its "Totals" row. *)
Definition route_total (table : route_table) : Z :=
  as_int (rib_cnt (summary_count table) ZEBRA_ROUTE_TOTAL).
Definition fib_total (table : route_table) : Z :=
  as_int (fib_cnt (summary_count table) ZEBRA_ROUTE_TOTAL).
Definition prefix_route_total (table : route_table) : Z :=
  as_int (rib_cnt (summary_prefix_count table) ZEBRA_ROUTE_TOTAL).
Definition prefix_fib_total (table : route_table) : Z :=
  as_int (fib_cnt (summary_prefix_count table) ZEBRA_ROUTE_TOTAL).

End Summary.

(* ================================================================== *)
(** * Part II. The specification's vocabulary *)
(* ================================================================== *)

(** ** Summaries *)

(** All the entries a table walk visits. *)
Definition table_entries (table : route_table) : list route_entry :=
  flat_map rnode_entries (rt_nodes table).

(** "Any route entry in the table has two or more nexthops." *)
Definition has_multipath (table : route_table) : Prop :=
  exists re, In re (table_entries table)
             /\ (2 <= List.length (re_nexthop re))%nat.

Section SummaryVocabulary.
Context {K : zebra_consts}.

(** The summary invariant as the specification words it: per-route
    totals at least the per-prefix totals when some entry has two or more
    nexthops, equal otherwise, for the route count and the FIB count. *)
Definition summary_invariant (table : route_table) : Prop :=
  (has_multipath table ->
   prefix_route_total table <= route_total table
   /\ prefix_fib_total table <= fib_total table)
  /\ (~ has_multipath table ->
      route_total table = prefix_route_total table
      /\ fib_total table = prefix_fib_total table).

(** A route type that indexes the per-protocol part of the arrays. *)
Definition valid_type (re : route_entry) : Prop :=
  0 <= re_type re < ZEBRA_ROUTE_MAX.

(** Every entry of the table has such a type. *)
Definition all_valid (table : route_table) : Prop :=
  forall re, In re (table_entries table) -> valid_type re.

Definition is_selected (re : route_entry) : bool :=
  CHECK_FLAG (re_flags re) ZEBRA_FLAG_SELECTED.

(** The first nexthop exists and carries the FIB flag. *)
Definition first_nexthop_fib (re : route_entry) : bool :=
  match re_nexthop re with
  | nh :: _ => CHECK_FLAG (nh_flags nh) NEXTHOP_FLAG_FIB
  | [] => false
  end.

Definition has_nexthop (re : route_entry) : bool :=
  match re_nexthop re with
  | _ :: _ => true
  | [] => false
  end.

End SummaryVocabulary.

(** Number of elements of [l] that satisfy [f]. *)
Definition count {A : Type} (f : A -> bool) (l : list A) : Z :=
  Z.of_nat (List.length (filter f l)).

(** ** Static routes *)

(** The validation checks, by name. *)
Inductive check : Type :=
| ChkDestination      (* malformed destination *)
| ChkMask             (* malformed mask *)
| ChkSource           (* malformed IPv6 source *)
| ChkVrf              (* undefined VRF *)
| ChkMpls             (* labels requested while MPLS is off *)
| ChkLabels           (* malformed, reserved or too many labels *)
| ChkNull0Flag        (* flag token together with Null0 *)
| ChkFlag             (* malformed flag *)
| ChkNexthop.         (* malformed nexthop address *)

(** The order the specification gives. *)
Definition spec_order : list check :=
  [ChkDestination; ChkMask; ChkSource; ChkVrf; ChkMpls; ChkLabels;
   ChkFlag; ChkNexthop].

(** The same order with the Null0 check where the code has it. *)
Definition code_order : list check :=
  [ChkDestination; ChkMask; ChkSource; ChkVrf; ChkMpls; ChkLabels;
   ChkNull0Flag; ChkFlag; ChkNexthop].

(** The checks of lines 87-170 and those of lines 172-208. *)
Definition early_checks : list check :=
  [ChkDestination; ChkMask; ChkSource; ChkVrf; ChkMpls; ChkLabels].
Definition late_checks : list check := [ChkNull0Flag; ChkFlag; ChkNexthop].

Definition flag_letter_ok (f : string) : bool :=
  match f with
  | String c _ =>
      (Ascii.eqb c "r" || Ascii.eqb c "R" || Ascii.eqb c "b"
       || Ascii.eqb c "B")%bool
  | EmptyString => false
  end.

Definition with_ifname (a : static_args) (n : option string) : static_args :=
  {| afi := afi a; safi := safi a; negate := negate a;
     dest_str := dest_str a; mask_str := mask_str a; src_str := src_str a;
     gate_str := gate_str a; ifname := n; flag_str := flag_str a;
     tag_str := tag_str a; distance_str := distance_str a;
     vrf_id_str := vrf_id_str a; label_str := label_str a |}.

(** [s] is, up to case, a prefix of [t]. *)
Fixpoint ci_prefix (s t : string) : bool :=
  match s with
  | EmptyString => true
  | String c s' =>
      match t with
      | EmptyString => false
      | String d t' => (tolower c =? tolower d) && ci_prefix s' t'
      end
  end.

(** [s] and [t] are equal up to case. *)
Definition ci_equal (s t : string) : bool :=
  ci_prefix s t && (String.length s =? String.length t)%nat.

(** A C string holds no NUL character. *)
Fixpoint c_string (s : string) : Prop :=
  match s with
  | EmptyString => True
  | String c s' => c <> zero /\ c_string s'
  end.

Section StaticVocabulary.
Context {K : zebra_consts} {E : zebra_env}.

(** Whether a check, taken on its own, rejects the arguments. *)
Definition check_fails (a : static_args) (c : check) : bool :=
  match c with
  | ChkDestination =>
      match str2prefix (dest_str a) with None => true | Some _ => false end
  | ChkMask =>
      match afi a, mask_str a with
      | AFI_IP, Some m =>
          match inet_aton m with None => true | Some _ => false end
      | _, _ => false
      end
  | ChkSource =>
      match afi a, src_str a with
      | AFI_IP6, Some s =>
          match str2prefix s with
          | None => true
          | Some src => negb (family_eqb (family src) AF_INET6)
          end
      | _, _ => false
      end
  | ChkVrf =>
      match zebra_vrf_lookup_by_name (vrf_id_str a) with
      | None => true
      | Some _ => false
      end
  | ChkMpls =>
      match label_str a with
      | Some _ => negb mpls_enabled
      | None => false
      end
  | ChkLabels =>
      match label_str a with
      | Some l => fst (mpls_str2label l) <? 0
      | None => false
      end
  | ChkNull0Flag =>
      match ifname a, flag_str a with
      | Some n, Some _ => null0_test n
      | _, _ => false
      end
  | ChkFlag =>
      match flag_str a with
      | Some f => negb (flag_letter_ok f)
      | None => false
      end
  | ChkNexthop =>
      match gate_str a with
      | Some g =>
          match inet_pton (afi2family (afi a)) g with
          | None => true
          | Some _ => false
          end
      | None => false
      end
  end.

(** What a failed check writes to the vty. *)
Definition check_report (a : static_args) (c : check) : list vty_item :=
  match c with
  | ChkDestination | ChkMask => [Text msg_malformed_address]
  | ChkSource => [Text msg_malformed_source]
  | ChkVrf => [Text (msg_vrf_undefined (vrf_id_str a))]
  | ChkMpls => [Text msg_mpls_off]
  | ChkLabels =>
      match label_str a with
      | Some l =>
          let rc := fst (mpls_str2label l) in
          if rc =? -1 then [Text msg_malformed_label]
          else if rc =? -2 then [Text msg_reserved_label]
          else if rc =? -3 then [Text msg_too_many_labels]
          else []
      | None => []
      end
  | ChkNull0Flag =>
      match flag_str a with
      | Some f => [Text (msg_null0_flag f)]
      | None => []
      end
  | ChkFlag =>
      match flag_str a with
      | Some f => [Text (msg_malformed_flag f)]
      | None => []
      end
  | ChkNexthop =>
      match gate_str a with
      | Some g => [Text (msg_malformed_nexthop g)]
      | None => []
      end
  end.

(** The first check of [order] that rejects the arguments. *)
Definition first_failing (order : list check) (a : static_args)
  : option check :=
  find (check_fails a) order.

(** A failed configuration: the report of check [c], a config-failure
    result and nothing sent to the RIB. *)
Definition rejected_by (a : static_args) (c : check) : static_result :=
  {| sr_ret := CMD_WARNING_CONFIG_FAILED;
     sr_out := check_report a c;
     sr_rib := [] |}.

(** A step of the function that runs the checks [checks]: it leaves
    with the report of the first of them that fails, a config-failure
    result, and otherwise goes on. [silent_stage] moreover writes nothing
    when it goes on. *)
Definition stage {A : Type} (a : static_args) (checks : list check)
    (m : vty_res A) : Prop :=
  match first_failing checks a with
  | Some c => m = Return CMD_WARNING_CONFIG_FAILED (check_report a c)
  | None => exists x o, m = Continue x o
  end.

Definition silent_stage {A : Type} (a : static_args) (checks : list check)
    (m : vty_res A) : Prop :=
  match first_failing checks a with
  | Some c => m = Return CMD_WARNING_CONFIG_FAILED (check_report a c)
  | None => exists x, m = Continue x []
  end.

(** The arguments the commands of this file pass to the function. In
    the grammars of [ip route] (lines 360-366) and [ipv6 route] (lines
    1779-1784) the flag token is an alternative to the gateway and the
    interface name, and [ip mroute] (lines 259-261) passes no flag: no
    call has both a flag token and an interface name. *)
Definition command_args (a : static_args) : Prop :=
  flag_str a = None \/ ifname a = None.

End StaticVocabulary.

(** The canonical nexthop variants of the specification. *)
Inductive nexthop_class : Type :=
| NhGatewayOnly (v6 : bool)
| NhInterfaceOnly
| NhGatewayAndInterface (v6 : bool)
| NhBlackhole
| NhReject.

(** The AFI-specific variants: IPv4 for [AFI_IP], IPv6 otherwise. *)
Definition afi_v6 (afi : afi_t) : bool :=
  match afi with
  | AFI_IP => false
  | _ => true
  end.

Definition flag_class (f : string) : option nexthop_class :=
  match f with
  | String c _ =>
      if (Ascii.eqb c "r" || Ascii.eqb c "R")%bool then Some NhReject
      else if (Ascii.eqb c "b" || Ascii.eqb c "B")%bool then Some NhBlackhole
      else None
  | EmptyString => None
  end.

(** The classification rules, first match wins; [None] is a validation
    error. [is_null0] decides which interface names count as Null0. *)
Definition classify (is_null0 : string -> bool) (afi : afi_t)
    (gate ifname flag : option string) : option nexthop_class :=
  if match ifname with Some n => is_null0 n | None => false end then
    match flag with
    | Some _ => None
    | None => Some NhBlackhole
    end
  else
    match flag with
    | Some f => flag_class f
    | None =>
        match gate, ifname with
        | Some _, Some _ => Some (NhGatewayAndInterface (afi_v6 afi))
        | None, Some _ => Some NhInterfaceOnly
        | Some _, None => Some (NhGatewayOnly (afi_v6 afi))
        | None, None => Some NhBlackhole
        end
    end.

(** The rules as the specification states them: Null0 up to case. *)
Definition classify_spec : afi_t -> option string -> option string ->
                           option string -> option nexthop_class :=
  classify (fun n => ci_equal n "Null0").

Section ClassVocabulary.
Context {K : zebra_consts} {E : zebra_env}.

Definition gateway_parses (afi : afi_t) (gate : option string) : bool :=
  match gate with
  | Some g =>
      match inet_pton (afi2family afi) g with
      | Some _ => true
      | None => false
      end
  | None => true
  end.

Definition given {A : Type} (x : option A) : bool :=
  match x with
  | Some _ => true
  | None => false
  end.

(** The discard flag of a route: a flag token together with Null0 is an
    error, Null0 alone sets the blackhole flag, a flag token sets the
    flag of its first letter, and there is no flag otherwise. [None] is
    a validation error. *)
Definition rule_flag (null0 : bool) (flag : option string) : option Z :=
  if null0 then
    match flag with
    | Some _ => None
    | None => Some ZEBRA_FLAG_BLACKHOLE
    end
  else
    match flag with
    | Some f =>
        match flag_class f with
        | Some NhReject => Some ZEBRA_FLAG_REJECT
        | Some _ => Some ZEBRA_FLAG_BLACKHOLE
        | None => None
        end
    | None => Some 0
    end.

(** The static type from which of gateway and interface name are
    there. *)
Definition rule_type (afi : afi_t) (gate ifname : bool) : static_type :=
  match gate, ifname with
  | true, true =>
      if afi_v6 afi then STATIC_IPV6_GATEWAY_IFINDEX
      else STATIC_IPV4_GATEWAY_IFINDEX
  | false, true => STATIC_IFINDEX
  | true, false =>
      if afi_v6 afi then STATIC_IPV6_GATEWAY else STATIC_IPV4_GATEWAY
  | false, false => STATIC_BLACKHOLE
  end.

(** The rules as the code applies them, in terms of what is sent to the
    RIB: static type, flag word and interface name. Every
    case-insensitive prefix of "Null0" counts as Null0 and clears the
    interface name; a gateway text that does not parse is a validation
    error of its own; the type follows from the gateway and the
    interface name that is left, whatever the discard flag. [None] is a
    validation error. *)
Definition nexthop_rules (afi : afi_t) (gate ifname flag : option string)
  : option (static_type * Z * option string) :=
  let null0 := match ifname with
               | Some n => ci_prefix n "Null0"
               | None => false
               end in
  match rule_flag null0 flag with
  | Some w =>
      if gateway_parses afi gate then
        let kept := if null0 then None else ifname in
        Some (rule_type afi (given gate) (given kept), w, kept)
      else None
  | None => None
  end.

End ClassVocabulary.

(** ** Route display *)

(** The classful natural boundary of a 32-bit address: 8 for class A
    (first octet below 128), 16 for class B (below 192), 24 for class C
    (below 224); none for classes D and E. *)
Definition natural_boundary (a : Z) : option Z :=
  if a <? 128 * 2 ^ 24 then Some 8
  else if a <? 192 * 2 ^ 24 then Some 16
  else if a <? 224 * 2 ^ 24 then Some 24
  else None.

(** "Prefix length strictly shorter than the classful natural boundary
    for the address's class." *)
Definition is_supernet (p : prefix) : Prop :=
  forall b, natural_boundary (prefix4_host p) = Some b -> prefixlen p < b.

Section ShowVocabulary.
Context {K : zebra_consts} {E : zebra_env}.

Definition fib_installed (re : route_entry) : bool :=
  CHECK_FLAG (re_status re) ROUTE_ENTRY_SELECTED_FIB.

(** "Every supplied filter criterion holds": a criterion is supplied
    when its argument is set (non-zero, non-NULL or true). *)
Definition criteria_hold (use_fib : bool) (tag : Z)
    (longer_prefix_p : option prefix) (supernets_only : bool) (type : Z)
    (ospf_instance_id : Z) (rn : route_node) (re : route_entry) : Prop :=
  (use_fib = true -> fib_installed re = true)
  /\ (tag <> 0 -> re_tag re = tag)
  /\ (forall lp, longer_prefix_p = Some lp ->
                 prefix_match lp (rn_p rn) = true)
  /\ (supernets_only = true -> is_supernet (rn_p rn))
  /\ (type <> 0 -> re_type re = type)
  /\ (ospf_instance_id <> 0 ->
      re_type re = ZEBRA_ROUTE_OSPF /\ re_instance re = ospf_instance_id).

(** The VRF argument of a lookup command resolves to [id]. *)
Definition vrf_resolves (vrf_arg : option string) (id : Z) : Prop :=
  match vrf_arg with
  | Some name => VRF_GET_ID name = Continue id []
  | None => id = VRF_DEFAULT
  end.

End ShowVocabulary.

(** [rn] is in the table, carries routes and covers [p]. *)
Definition covers (table : route_table) (p : prefix) (rn : route_node)
  : Prop :=
  In rn (rt_nodes table) /\ has_info rn = true
  /\ prefix_match (rn_p rn) p = true.

(** [rn] is a longest such node. *)
Definition longest_match (table : route_table) (p : prefix)
    (rn : route_node) : Prop :=
  covers table p rn
  /\ forall rn', covers table p rn' ->
                 prefixlen (rn_p rn') <= prefixlen (rn_p rn).

Section LookupVocabulary.
Context {K : zebra_consts} {E : zebra_env}.

(** "The command renders the detail record of the best/longest matching
    table node; when there is none it reports the network as not in the
    table with a warning result", for a lookup command [show]. *)
Definition renders_longest_match
    (show : option string -> string -> cmd_ret * list vty_item) : Prop :=
  forall vrf_arg arg id p table,
    vrf_resolves vrf_arg id ->
    str2prefix_ipv4 arg = Some p ->
    zebra_vrf_table AFI_IP SAFI_UNICAST id = Some table ->
    ((exists rn, longest_match table p rn) ->
     exists rn, longest_match table p rn
                /\ show vrf_arg arg = (CMD_SUCCESS, [Detail rn 0]))
    /\ ((forall rn, ~ covers table p rn) ->
        show vrf_arg arg = (CMD_WARNING, [Text msg_not_in_table])).

(** The same with an exact match in place of the longest one: the
    detail record is rendered when a node that carries routes covers the
    queried prefix with the queried length, and the network is reported
    as not in the table otherwise. *)
Definition renders_exact_match
    (show : option string -> string -> cmd_ret * list vty_item) : Prop :=
  forall vrf_arg arg id p table,
    vrf_resolves vrf_arg id ->
    str2prefix_ipv4 arg = Some p ->
    zebra_vrf_table AFI_IP SAFI_UNICAST id = Some table ->
    ((exists rn, covers table p rn /\ prefixlen (rn_p rn) = prefixlen p) ->
     exists rn, longest_match table p rn
                /\ prefixlen (rn_p rn) = prefixlen p
                /\ show vrf_arg arg = (CMD_SUCCESS, [Detail rn 0]))
    /\ ((forall rn, covers table p rn ->
                    prefixlen (rn_p rn) <> prefixlen p) ->
        show vrf_arg arg = (CMD_WARNING, [Text msg_not_in_table])).

End LookupVocabulary.

(** ** Age *)

(** The character of a decimal digit. *)
Definition digit (d : Z) : ascii := ascii_of_nat (48 + Z.to_nat d).

Definition one_digit (n : Z) : string := String (digit n) EmptyString.

Definition two_digits (n : Z) : string :=
  String (digit (n / 10)) (String (digit (n mod 10)) EmptyString).

(* ================================================================== *)
(** * Part III. Sample data *)
(* ================================================================== *)

(** A sample assignment of the header constants, in the style of
    lib/route_types.h and lib/zebra.h. *)
Definition sample_route_string (t : Z) : string :=
  if t =? 1 then "kernel" else if t =? 2 then "connected"
  else if t =? 3 then "static" else if t =? 4 then "rip"
  else if t =? 6 then "ospf" else if t =? 8 then "isis"
  else if t =? 9 then "bgp" else "other".

Definition sample_consts : zebra_consts :=
  {| ZEBRA_ROUTE_STATIC := 3;
     ZEBRA_ROUTE_RIP := 4;
     ZEBRA_ROUTE_OSPF := 6;
     ZEBRA_ROUTE_ISIS := 8;
     ZEBRA_ROUTE_BGP := 9;
     ZEBRA_ROUTE_NHRP := 12;
     ZEBRA_ROUTE_TABLE := 15;
     ZEBRA_ROUTE_MAX := 24;
     ZEBRA_FLAG_BLACKHOLE := 4;
     ZEBRA_FLAG_IBGP := 8;
     ZEBRA_FLAG_SELECTED := 16;
     ZEBRA_FLAG_REJECT := 128;
     NEXTHOP_FLAG_FIB := 2;
     ROUTE_ENTRY_SELECTED_FIB := 16;
     IFINDEX_DELETED := 2147483647;
     ZEBRA_STATIC_DISTANCE_DEFAULT := 1;
     VRF_DEFAULT := 0;
     VRF_UNKNOWN := 65535;
     MPLS_MIN_RESERVED_LABEL := 0;
     MPLS_MAX_RESERVED_LABEL := 15;
     MPLS_MAX_LABELS := 16;
     SHOW_ROUTE_V4_HEADER := "Codes: K - kernel route, C - connected";
     SHOW_ROUTE_V6_HEADER := "Codes: K - kernel route, C - connected";
     zebra_route_string := sample_route_string;
     route_bgp_range := ltac:(lia);
     flag_blackhole_nonzero := ltac:(discriminate);
     flag_reject_nonzero := ltac:(discriminate);
     flag_blackhole_reject := eq_refl |}.

(** 10.0.0.0/8, 10.1.0.0/16 and the host 10.1.2.3. *)
Definition net10 : prefix :=
  {| family := AF_INET; prefixlen := 8; p_addr := 10 * 2 ^ 24 |}.
Definition net10_1 : prefix :=
  {| family := AF_INET; prefixlen := 16; p_addr := 10 * 2 ^ 24 + 2 ^ 16 |}.
Definition host10_1_2_3 : prefix :=
  {| family := AF_INET; prefixlen := 32;
     p_addr := 10 * 2 ^ 24 + 2 ^ 16 + 2 * 2 ^ 8 + 3 |}.

(** A static route, selected and installed, with one nexthop. *)
Definition sample_static : route_entry :=
  {| re_type := 3; re_instance := 0; re_flags := 16; re_status := 16;
     re_tag := 0; re_uptime := 0; re_nexthop := [{| nh_flags := 3 |}] |}.

(** A selected BGP route whose only nexthop is not in the FIB. *)
Definition sample_pending : route_entry :=
  {| re_type := 9; re_instance := 0; re_flags := 16; re_status := 0;
     re_tag := 0; re_uptime := 0; re_nexthop := [{| nh_flags := 1 |}] |}.

Definition node10 : route_node :=
  {| rn_p := net10; rn_info := Some [sample_static] |}.

Definition sample_table : route_table :=
  {| rt_zvrf_name := "default"; rt_nodes := [node10] |}.

Definition pending_table : route_table :=
  {| rt_zvrf_name := "default";
     rt_nodes := [{| rn_p := net10; rn_info := Some [sample_pending] |}] |}.

(** An entry that is not selected, with two nexthops of which the first
    is in the FIB. *)
Definition sample_unselected : route_entry :=
  {| re_type := 4; re_instance := 0; re_flags := 0; re_status := 0;
     re_tag := 0; re_uptime := 0;
     re_nexthop := [{| nh_flags := 3 |}; {| nh_flags := 1 |}] |}.

Definition multipath_table : route_table :=
  {| rt_zvrf_name := "default";
     rt_nodes := [{| rn_p := net10; rn_info := Some [sample_unselected] |}] |}.

(** An internal BGP route and an external one at the same node. *)
Definition sample_ibgp : route_entry :=
  {| re_type := 9; re_instance := 0; re_flags := 24; re_status := 16;
     re_tag := 0; re_uptime := 0; re_nexthop := [{| nh_flags := 3 |}] |}.

Definition bgp_table : route_table :=
  {| rt_zvrf_name := "default";
     rt_nodes := [{| rn_p := net10;
                     rn_info := Some [sample_ibgp; sample_pending] |}] |}.

(** An entry whose nexthop list is empty. *)
Definition sample_no_nexthop : route_entry :=
  {| re_type := 3; re_instance := 0; re_flags := 0; re_status := 0;
     re_tag := 0; re_uptime := 0; re_nexthop := [] |}.

(** An entry with two nexthops and one with none at one node, an
    internal and an external BGP route at another. *)
Definition ecmp_table : route_table :=
  {| rt_zvrf_name := "default";
     rt_nodes := [{| rn_p := net10;
                     rn_info := Some [sample_unselected;
                                      sample_no_nexthop] |};
                  {| rn_p := net10_1;
                     rn_info := Some [sample_ibgp; sample_pending] |}] |}.

Definition default_zvrf : zebra_vrf :=
  {| zvrf_id := 0; zvrf_name := "default" |}.

(** A small environment: one VRF, one interface, one table, and parsers
    that know a handful of texts. *)
Definition sample_str2prefix (s : string) : option prefix :=
  if String.eqb s "10.0.0.0/8" then Some net10
  else if String.eqb s "10.0.0.0" then Some net10
  else if String.eqb s "10.1.0.0/16" then Some net10_1
  else if String.eqb s "10.1.2.3" then Some host10_1_2_3
  else None.

Definition sample_env : zebra_env :=
  {| str2prefix := sample_str2prefix;
     inet_aton := fun s => if String.eqb s "255.0.0.0"
                           then Some (255 * 2 ^ 24) else None;
     ip_masklen := fun m => if m =? 255 * 2 ^ 24 then 8 else 0;
     apply_mask := fun p => p;
     atoi := fun _ => 1;
     strtoul := fun _ => 1;
     zebra_vrf_lookup_by_name :=
       fun v => match v with
                | None => Some default_zvrf
                | Some n => if String.eqb n "default"
                            then Some default_zvrf else None
                end;
     mpls_enabled := false;
     mpls_str2label := fun _ => (0, {| num_labels := 0; label := [] |});
     afi2family := fun a => match a with
                            | AFI_IP => AF_INET
                            | AFI_IP6 => AF_INET6
                            | AFI_L2VPN => AF_UNSPEC
                            end;
     inet_pton :=
       fun f s => match f with
                  | AF_INET => if String.eqb s "192.0.2.1"
                               then Some (192 * 2 ^ 24 + 2 * 2 ^ 8 + 1)
                               else None
                  | _ => None
                  end;
     if_lookup_by_name := fun n _ => if String.eqb n "eth0"
                                     then Some {| ifp_ifindex := 2 |}
                                     else None;
     zebra_vrf_table := fun a s id =>
                          match a, s with
                          | AFI_IP, SAFI_UNICAST =>
                              if id =? 0 then Some sample_table else None
                          | _, _ => None
                          end;
     str2prefix_ipv4 := sample_str2prefix;
     VRF_GET_ID :=
       fun n => if String.eqb n "default" then Continue 0 []
                else Return CMD_WARNING
                       [Text ("% VRF " ++ n ++ " not found" ++ nl)%string]
  |}.

(** [ip route 10.0.0.0/8 ...] in the default VRF. *)
Definition sample_args (gate ifn flag : option string) : static_args :=
  {| afi := AFI_IP; safi := SAFI_UNICAST; negate := None;
     dest_str := "10.0.0.0/8"; mask_str := None; src_str := None;
     gate_str := gate; ifname := ifn; flag_str := flag; tag_str := None;
     distance_str := None; vrf_id_str := None; label_str := None |}.

(* ================================================================== *)
(** * Part III, continued. The other commands of the file *)
(* ================================================================== *)

(** The commands below are the callers of the functions of Part I and
    the configuration commands around them: [ip mroute], [show ip route]
    and its VRF fan-out, [show ip rpf], the all-VRF lookups,
    [show ipv6 mroute], the multicast mode, nexthop tracking and external
    update switches with the configuration writer, [ip import-table] and
    the static route configuration writer. *)

(** ** Command line tokens *)

(** [struct cmd_token]: the text of the syntax element and the text the
    operator typed for it. *)
Record cmd_token : Type := {
  tok_text : string;
  tok_arg : string
}.

(** A keyword token: text and argument coincide. *)
Definition keyword (s : string) : cmd_token :=
  {| tok_text := s; tok_arg := s |}.

(** [argv[i]]. The commands index [argv] where their syntax guarantees a
    token; outside the vector the model yields the empty token. *)
Definition argv_at (argv : list cmd_token) (i : nat) : cmd_token :=
  nth i argv {| tok_text := EmptyString; tok_arg := EmptyString |}.

(** [strmatch (a, b)] is [!strcmp (a, b)]. *)
Definition strmatch (a b : string) : bool := String.eqb a b.

Definition char_code (c : ascii) : Z := Z.of_N (N_of_ascii c).

(** [strncmp (s1, s2, n)]: compares at most [n] characters and stops at
    the first difference or at the end of [s1]. *)
Fixpoint strncmp (s1 s2 : string) (n : nat) : Z :=
  match n with
  | O => 0
  | S n' =>
      match s1, s2 with
      | EmptyString, EmptyString => 0
      | EmptyString, String c2 _ => 0 - char_code c2
      | String c1 _, EmptyString => char_code c1 - 0
      | String c1 t1, String c2 t2 =>
          let r := char_code c1 - char_code c2 in
          if r =? 0 then strncmp t1 t2 n' else r
      end
  end.

(** [use_fib], lines 888-891: the [int] of [strncmp] read as a [bool]. *)
Definition use_fib (token : cmd_token) : bool :=
  negb (strncmp (tok_arg token) "route" (strlen (tok_arg token)) =? 0).

(** ** VRFs and their tables *)

(** [struct static_route], as the configuration writer reads it.
    [si_addr] is the [addr] union. *)
Record static_route : Type := {
  si_type : static_type;
  si_addr : Z;
  si_ifindex : Z;
  si_ifname : string;
  si_flags : Z;
  si_tag : Z;
  si_distance : Z;
  si_vrf_id : Z;
  si_snh_label : static_nh_label
}.

(** A node of a static route table: destination, source and the
    [next]-linked list of static routes at [rn->info]. *)
Record static_node : Type := {
  sn_p : prefix;
  sn_src_p : option prefix;
  sn_info : list static_route
}.

(** [struct zebra_vrf] with what the fan-out commands read: identity,
    the route tables [table[afi][safi]] and the static route tables
    [stable[afi][safi]] (nodes in walk order). *)
Record zebra_vrf_data : Type := {
  zd_zvrf : zebra_vrf;
  zd_table : afi_t -> safi_t -> option route_table;
  zd_stable : afi_t -> safi_t -> option (list static_node)
}.

(** [struct vrf]: [info] is NULL until zebra has set the VRF up. *)
Record vrf : Type := {
  vrf_name : string;
  vrf_info : option zebra_vrf_data
}.

(** ** Environment of the commands

    [vrfs_by_name] is the VRF tree in the order [RB_FOREACH] visits it.
    [argv_find (argv, argc, text, &idx)] is [Some i] when it returns 1
    and leaves [i] in [idx], [None] when it returns 0 and leaves [idx]
    alone; its third argument is the value of [idx] at the call.
    [vrf_lookup_by_id] is applied to an id [VRF_GET_ID] has produced.
    The others are functions, macros and constants of lib/ and zebra/
    named as in the source; [zebra_import_table_config] and
    [zebra_routemap_config_write_protocol] stand for what those writers
    return and print. *)
Class cli_env : Type := {
  VRF_DEFAULT_NAME : string;
  ZEBRA_TABLE_DISTANCE_DEFAULT : Z;
  vrfs_by_name : list vrf;
  argv_find : list cmd_token -> string -> nat -> option nat;
  use_json : list cmd_token -> bool;
  proto_redistnum : afi_t -> string -> Z;
  vrf_lookup_by_id : Z -> vrf;
  is_zebra_valid_kernel_table : Z -> bool;
  is_zebra_main_routing_table : Z -> bool;
  is_zebra_import_table_enabled : afi_t -> Z -> bool;
  zebra_import_table : afi_t -> Z -> Z -> option string -> Z -> cmd_ret;
  inet_ntoa : Z -> string;
  inet_ntop : family_t -> Z -> string;
  ifindex2ifname : Z -> Z -> string;
  mpls_label2str : Z -> list Z -> Z -> string;
  srcdest_rnode2str : static_node -> string;
  zebra_import_table_config : Z * list vty_item;
  zebra_routemap_config_write_protocol : list vty_item
}.

(** ** Static route commands *)

Section StaticCommands.
Context {K : zebra_consts} {E : zebra_env}.

(** The nexthop of [ip route] and [ipv6 route], lines 361-365 and
    1780-1784: a gateway, an interface name or both; the keyword
    [null0]; or one of the flag keywords. *)
Inductive route_nexthop_arg : Type :=
| ViaNexthop (gate ifname : option string)
| ViaNull0 (ifname : string)
| ViaFlag (flag : string).

Definition nexthop_arg_gate (nh : route_nexthop_arg) : option string :=
  match nh with
  | ViaNexthop gate _ => gate
  | _ => None
  end.

Definition nexthop_arg_ifname (nh : route_nexthop_arg) : option string :=
  match nh with
  | ViaNexthop _ ifname => ifname
  | ViaNull0 ifname => Some ifname
  | ViaFlag _ => None
  end.

Definition nexthop_arg_flag (nh : route_nexthop_arg) : option string :=
  match nh with
  | ViaFlag flag => Some flag
  | _ => None
  end.

(** The arguments of the call of [ip route], lines 389-391, and of
    [ipv6 route], lines 1808-1810. *)
Definition ip_route_args (no : option string) (prefix : string)
    (mask_str : option string) (nh : route_nexthop_arg)
    (tag_str distance_str vrf label : option string) : static_args :=
  {| afi := AFI_IP; safi := SAFI_UNICAST; negate := no;
     dest_str := prefix; mask_str := mask_str; src_str := None;
     gate_str := nexthop_arg_gate nh; ifname := nexthop_arg_ifname nh;
     flag_str := nexthop_arg_flag nh; tag_str := tag_str;
     distance_str := distance_str; vrf_id_str := vrf;
     label_str := label |}.

Definition ipv6_route_args (no : option string) (prefix_str : string)
    (from_str : option string) (nh : route_nexthop_arg)
    (tag_str distance_str vrf label : option string) : static_args :=
  {| afi := AFI_IP6; safi := SAFI_UNICAST; negate := no;
     dest_str := prefix_str; mask_str := None; src_str := from_str;
     gate_str := nexthop_arg_gate nh; ifname := nexthop_arg_ifname nh;
     flag_str := nexthop_arg_flag nh; tag_str := tag_str;
     distance_str := distance_str; vrf_id_str := vrf;
     label_str := label |}.

(** [ip route], lines 358-394. *)
Definition ip_route (no : option string) (prefix : string)
    (mask_str : option string) (nh : route_nexthop_arg)
    (tag_str distance_str vrf label : option string) : static_result :=
  zebra_static_route
    (ip_route_args no prefix mask_str nh tag_str distance_str vrf label).

(** [ipv6 route], lines 1777-1811. *)
Definition ipv6_route (no : option string) (prefix_str : string)
    (from_str : option string) (nh : route_nexthop_arg)
    (tag_str distance_str vrf label : option string) : static_result :=
  zebra_static_route
    (ipv6_route_args no prefix_str from_str nh tag_str distance_str vrf
       label).

(** [ip mroute], lines 248-262. *)
Definition ip_mroute_dist (no : option string) (prefix_str : string)
    (gate ifn distance : option string) : static_result :=
  zebra_static_route
    {| afi := AFI_IP; safi := SAFI_MULTICAST; negate := no;
       dest_str := prefix_str; mask_str := None; src_str := None;
       gate_str := gate; ifname := ifn; flag_str := None; tag_str := None;
       distance_str := distance; vrf_id_str := None; label_str := None |}.

End StaticCommands.

(** [ip route 10.0.0.0/8 192.0.2.1 vrf red label 16]. *)
Definition sample_route_red : static_args :=
  ip_route_args None "10.0.0.0/8" None
    (ViaNexthop (Some "192.0.2.1"%string) None) None None
    (Some "red"%string) (Some "16"%string).

(** ** Display commands *)

(** What lines 1172-1240 of [show ip route] leave in the locals. *)
Record show_request : Type := {
  sq_vrf_all : bool;
  sq_vrf_id : Z;
  sq_tag : Z;
  sq_longer : option prefix;       (* longer_prefixes ? &p : NULL *)
  sq_supernets_only : bool;
  sq_type : Z;
  sq_ospf_instance_id : Z
}.

(** The protocol keywords in the order lines 1206-1231 try them. *)
Definition ip_route_types : list string :=
  ["kernel"; "babel"; "connected"; "static"; "rip"; "ospf"; "isis"; "bgp";
   "pim"; "eigrp"; "nhrp"; "table"; "vnc"]%string.

Section ShowCommands.
Context {K : zebra_consts} {E : zebra_env} {C : cli_env}.

(** [show ip rpf], lines 314-325. *)
Definition show_ip_rpf (argv : list cmd_token) : cmd_ret * list vty_item :=
  do_show_ip_route VRF_DEFAULT_NAME AFI_IP SAFI_MULTICAST false
    (use_json argv) 0 None false (-1) 0.

(** The [else if] chain of lines 1206-1231: the first keyword of [names]
    that [argv_find] finds gives the type; [idx] moves to it. *)
Fixpoint find_route_type (afi : afi_t) (argv : list cmd_token)
    (names : list string) (idx : nat) : Z * nat :=
  match names with
  | [] => (0, idx)
  | name :: rest =>
      match argv_find argv name idx with
      | Some i => (proto_redistnum afi (tok_text (argv_at argv i)), i)
      | None => find_route_type afi argv rest idx
      end
  end.

Definition msg_unknown_route_type : string :=
  ("Unknown route type" ++ nl)%string.

(** Lines 1187-1192: the [vrf] keyword. Yields [vrf_all], [vrf_id] and
    [idx]. *)
Definition show_route_vrf (argv : list cmd_token)
  : vty_res (bool * Z * nat) :=
  match argv_find argv "vrf" 0%nat with
  | Some i =>
      if strmatch (tok_arg (argv_at argv (i + 1))) "all"
      then pass (true, VRF_DEFAULT, i)
      else
        vrf_id <- VRF_GET_ID (tok_arg (argv_at argv (i + 1))) ;;
        pass (false, vrf_id, i)
  | None => pass (false, VRF_DEFAULT, 0%nat)
  end.

(** Lines 1187-1240 of [show ip route]. [tag] is a 32-bit [route_tag_t]
    and [ospf_instance_id] a [u_short]; [p0] is what the local [p] holds
    when [str2prefix] fails and leaves it alone. *)
Definition show_ip_route_args (argv : list cmd_token) (p0 : prefix)
  : vty_res show_request :=
  vi <- show_route_vrf argv ;;
  let vrf_all := fst (fst vi) in
  let vrf_id := snd (fst vi) in
  let idx := snd vi in
  match argv_find argv "tag" idx with
  | Some i =>
      pass {| sq_vrf_all := vrf_all; sq_vrf_id := vrf_id;
              sq_tag := u32 (strtoul (tok_arg (argv_at argv (i + 1))));
              sq_longer := None; sq_supernets_only := false;
              sq_type := 0; sq_ospf_instance_id := 0 |}
  | None =>
      match argv_find argv "A.B.C.D/M" idx with
      | Some i =>
          let p := match str2prefix (tok_arg (argv_at argv i)) with
                   | Some p => p
                   | None => p0
                   end in
          pass {| sq_vrf_all := vrf_all; sq_vrf_id := vrf_id; sq_tag := 0;
                  sq_longer := Some p; sq_supernets_only := false;
                  sq_type := 0; sq_ospf_instance_id := 0 |}
      | None =>
          match argv_find argv "supernets_only" idx with
          | Some _ =>
              pass {| sq_vrf_all := vrf_all; sq_vrf_id := vrf_id;
                      sq_tag := 0; sq_longer := None;
                      sq_supernets_only := true; sq_type := 0;
                      sq_ospf_instance_id := 0 |}
          | None =>
              let ti := find_route_type AFI_IP argv ip_route_types idx in
              let ospf :=
                match argv_find argv "(1-65535)" (snd ti) with
                | Some i => (strtoul (tok_arg (argv_at argv i))) mod 2 ^ 16
                | None => 0
                end in
              if fst ti <? 0
              then vty_out msg_unknown_route_type ;;; leave CMD_WARNING
              else
                pass {| sq_vrf_all := vrf_all; sq_vrf_id := vrf_id;
                        sq_tag := 0; sq_longer := None;
                        sq_supernets_only := false; sq_type := fst ti;
                        sq_ospf_instance_id := ospf |}
          end
      end
  end.

(** One call of [do_show_ip_route] with the request of the command. *)
Definition show_route_call (vrf_name : string) (afi : afi_t) (uf uj : bool)
    (q : show_request) : list vty_item :=
  snd (do_show_ip_route vrf_name afi SAFI_UNICAST uf uj (sq_tag q)
         (sq_longer q) (sq_supernets_only q) (sq_type q)
         (sq_ospf_instance_id q)).

(** [RB_FOREACH] of lines 1243-1254. *)
Fixpoint show_route_vrfs (afi : afi_t) (uf uj : bool) (q : show_request)
    (vrfs : list vrf) : list vty_item :=
  match vrfs with
  | [] => []
  | v :: rest =>
      match vrf_info v with
      | None => show_route_vrfs afi uf uj q rest
      | Some zvrf =>
          match zd_table zvrf afi SAFI_UNICAST with
          | None => show_route_vrfs afi uf uj q rest
          | Some _ =>
              show_route_call (zvrf_name (zd_zvrf zvrf)) afi uf uj q
              ++ show_route_vrfs afi uf uj q rest
          end
      end
  end.

(** [show ip <fib|route> ...], lines 1154-1262. *)
Definition show_ip_route (argv : list cmd_token) (p0 : prefix)
  : cmd_ret * list vty_item :=
  let uf := use_fib (argv_at argv 2) in
  let uj := use_json argv in
  finish (
    q <- show_ip_route_args argv p0 ;;
    Continue tt
      (if sq_vrf_all q
       then show_route_vrfs AFI_IP uf uj q vrfs_by_name
       else show_route_call (vrf_name (vrf_lookup_by_id (sq_vrf_id q)))
              AFI_IP uf uj q)).

(** [RB_FOREACH] of lines 1568-1581. *)
Fixpoint vrf_all_addr (p : prefix) (vrfs : list vrf) : list vty_item :=
  match vrfs with
  | [] => []
  | v :: rest =>
      match vrf_info v with
      | None => vrf_all_addr p rest
      | Some zvrf =>
          match zd_table zvrf AFI_IP SAFI_UNICAST with
          | None => vrf_all_addr p rest
          | Some table =>
              match route_node_match table p with
              | None => vrf_all_addr p rest
              | Some rn => Detail rn 0 :: vrf_all_addr p rest
              end
          end
      end
  end.

(** [show ip route vrf all A.B.C.D], lines 1545-1584. *)
Definition show_ip_route_vrf_all_addr (argv : list cmd_token)
  : cmd_ret * list vty_item :=
  finish (
    match str2prefix_ipv4 (tok_arg (argv_at argv 5)) with
    | None => vty_out msg_malformed_ipv4 ;;; leave CMD_WARNING
    | Some p => Continue tt (vrf_all_addr p vrfs_by_name)
    end).

(** [RB_FOREACH] of lines 1609-1626. *)
Fixpoint vrf_all_prefix (p : prefix) (vrfs : list vrf) : list vty_item :=
  match vrfs with
  | [] => []
  | v :: rest =>
      match vrf_info v with
      | None => vrf_all_prefix p rest
      | Some zvrf =>
          match zd_table zvrf AFI_IP SAFI_UNICAST with
          | None => vrf_all_prefix p rest
          | Some table =>
              match route_node_match table p with
              | None => vrf_all_prefix p rest
              | Some rn =>
                  if negb (prefixlen (rn_p rn) =? prefixlen p)
                  then vrf_all_prefix p rest
                  else Detail rn 0 :: vrf_all_prefix p rest
              end
          end
      end
  end.

(** [show ip route vrf all A.B.C.D/M], lines 1586-1629. *)
Definition show_ip_route_vrf_all_prefix (argv : list cmd_token)
  : cmd_ret * list vty_item :=
  finish (
    match str2prefix_ipv4 (tok_arg (argv_at argv 5)) with
    | None => vty_out msg_malformed_ipv4 ;;; leave CMD_WARNING
    | Some p => Continue tt (vrf_all_prefix p vrfs_by_name)
    end).

(** [RNODE_FOREACH_RE] of lines 2077-2084 and 2217-2224, threading
    [first]: every entry goes to the entry renderer. *)
Fixpoint mroute_entries (rn : route_node) (res : list route_entry)
    (first : bool) : bool * list vty_item :=
  match res with
  | [] => (first, [])
  | re :: rest =>
      let pre := if first then [Text SHOW_ROUTE_V6_HEADER] else [] in
      let '(f, o) := mroute_entries rn rest false in
      (f, pre ++ Route rn re :: o)
  end.

(** The node walk of lines 2076-2084 and 2216-2224. *)
Fixpoint mroute_nodes (nodes : list route_node) (first : bool)
  : bool * list vty_item :=
  match nodes with
  | [] => (first, [])
  | rn :: rest =>
      let '(f, o) := mroute_entries rn (rnode_entries rn) first in
      let '(f', o') := mroute_nodes rest f in
      (f', o ++ o')
  end.

(** [show ipv6 mroute [vrf NAME]], lines 2054-2086. *)
Definition show_ipv6_mroute (vrf_arg : option string)
  : cmd_ret * list vty_item :=
  finish (
    vrf_id <- match vrf_arg with
              | Some name => VRF_GET_ID name
              | None => pass VRF_DEFAULT
              end ;;
    match zebra_vrf_table AFI_IP6 SAFI_MULTICAST vrf_id with
    | None => leave CMD_SUCCESS
    | Some table => Continue tt (snd (mroute_nodes (rt_nodes table) true))
    end).

(** [RB_FOREACH] of lines 2209-2225; [first] is declared outside the
    loop. *)
Fixpoint mroute_vrfs (vrfs : list vrf) (first : bool)
  : bool * list vty_item :=
  match vrfs with
  | [] => (first, [])
  | v :: rest =>
      match vrf_info v with
      | None => mroute_vrfs rest first
      | Some zvrf =>
          match zd_table zvrf AFI_IP6 SAFI_MULTICAST with
          | None => mroute_vrfs rest first
          | Some table =>
              let '(f, o) := mroute_nodes (rt_nodes table) first in
              let '(f', o') := mroute_vrfs rest f in
              (f', o ++ o')
          end
      end
  end.

(** [show ipv6 mroute vrf all], lines 2194-2227. *)
Definition show_ipv6_mroute_vrf_all : cmd_ret * list vty_item :=
  (CMD_SUCCESS, snd (mroute_vrfs vrfs_by_name true)).

End ShowCommands.

(** ** Configuration switches and their writer *)

(** [enum multicast_mode] of zebra/rib.h. *)
Inductive multicast_mode : Type :=
| MCAST_NO_CONFIG
| MCAST_MRIB_ONLY
| MCAST_URIB_ONLY
| MCAST_MIX_MRIB_FIRST
| MCAST_MIX_DISTANCE
| MCAST_MIX_PFXLEN.

(** The globals the switches write: [allow_delete],
    [zebra_rnh_ip_default_route], [zebra_rnh_ipv6_default_route] and the
    multicast lookup mode. *)
Record zebra_globals : Type := {
  allow_delete : Z;
  zebra_rnh_ip_default_route : Z;
  zebra_rnh_ipv6_default_route : Z;
  ipv4_multicast_mode : multicast_mode
}.

(** Calls into the rest of zebra that change its state. The nexthop
    tracking re-evaluation is always called with [RNH_NEXTHOP_TYPE] and a
    NULL prefix. *)
Inductive zebra_call : Type :=
| zebra_evaluate_rnh (vrfid : Z) (family : family_t) (force : Z)
| zebra_import_table_call (afi : afi_t) (table_id : Z) (distance : Z)
    (rmap : option string) (add : Z).

(** The outcome of a configuration command. *)
Record cfg_result : Type := {
  cf_ret : cmd_ret;
  cf_out : list vty_item;
  cf_globals : zebra_globals;
  cf_calls : list zebra_call
}.

(** Modelled from the spec: [multicast_mode_ipv4_set] and
    [multicast_mode_ipv4_get] of zebra/zebra_rib.c are not in this file.
    The RPF mode is "global mutable configuration": the setter stores the
    mode and the getter reads it back. *)
Definition multicast_mode_ipv4_set (m : multicast_mode) (g : zebra_globals)
  : zebra_globals :=
  {| allow_delete := allow_delete g;
     zebra_rnh_ip_default_route := zebra_rnh_ip_default_route g;
     zebra_rnh_ipv6_default_route := zebra_rnh_ipv6_default_route g;
     ipv4_multicast_mode := m |}.

Definition multicast_mode_ipv4_get (g : zebra_globals) : multicast_mode :=
  ipv4_multicast_mode g.

Definition cfg_done (g : zebra_globals) : cfg_result :=
  {| cf_ret := CMD_SUCCESS; cf_out := []; cf_globals := g; cf_calls := [] |}.

Definition msg_invalid_mode : string := ("Invalid mode specified" ++ nl)%string.

(** [ip multicast rpf-lookup-mode ...], lines 264-294. *)
Definition ip_multicast_mode (argv : list cmd_token) (g : zebra_globals)
  : cfg_result :=
  let mode := tok_text (argv_at argv 3) in
  if strmatch mode "urib-only"
  then cfg_done (multicast_mode_ipv4_set MCAST_URIB_ONLY g)
  else if strmatch mode "mrib-only"
  then cfg_done (multicast_mode_ipv4_set MCAST_MRIB_ONLY g)
  else if strmatch mode "mrib-then-urib"
  then cfg_done (multicast_mode_ipv4_set MCAST_MIX_MRIB_FIRST g)
  else if strmatch mode "lower-distance"
  then cfg_done (multicast_mode_ipv4_set MCAST_MIX_DISTANCE g)
  else if strmatch mode "longer-prefix"
  then cfg_done (multicast_mode_ipv4_set MCAST_MIX_PFXLEN g)
  else {| cf_ret := CMD_WARNING_CONFIG_FAILED;
          cf_out := [Text msg_invalid_mode];
          cf_globals := g; cf_calls := [] |}.

(** [no ip multicast rpf-lookup-mode ...], lines 296-311. *)
Definition no_ip_multicast_mode (g : zebra_globals) : cfg_result :=
  cfg_done (multicast_mode_ipv4_set MCAST_NO_CONFIG g).

Definition set_ip_default_route (v : Z) (g : zebra_globals)
  : zebra_globals :=
  {| allow_delete := allow_delete g;
     zebra_rnh_ip_default_route := v;
     zebra_rnh_ipv6_default_route := zebra_rnh_ipv6_default_route g;
     ipv4_multicast_mode := ipv4_multicast_mode g |}.

Definition set_ipv6_default_route (v : Z) (g : zebra_globals)
  : zebra_globals :=
  {| allow_delete := allow_delete g;
     zebra_rnh_ip_default_route := zebra_rnh_ip_default_route g;
     zebra_rnh_ipv6_default_route := v;
     ipv4_multicast_mode := ipv4_multicast_mode g |}.

Definition set_allow_delete (v : Z) (g : zebra_globals) : zebra_globals :=
  {| allow_delete := v;
     zebra_rnh_ip_default_route := zebra_rnh_ip_default_route g;
     zebra_rnh_ipv6_default_route := zebra_rnh_ipv6_default_route g;
     ipv4_multicast_mode := ipv4_multicast_mode g |}.

(** [ip nht resolve-via-default], lines 1092-1105. *)
Definition ip_nht_default_route (g : zebra_globals) : cfg_result :=
  if negb (zebra_rnh_ip_default_route g =? 0) then cfg_done g
  else {| cf_ret := CMD_SUCCESS; cf_out := [];
          cf_globals := set_ip_default_route 1 g;
          cf_calls := [zebra_evaluate_rnh 0 AF_INET 1] |}.

(** [no ip nht resolve-via-default], lines 1107-1121. *)
Definition no_ip_nht_default_route (g : zebra_globals) : cfg_result :=
  if zebra_rnh_ip_default_route g =? 0 then cfg_done g
  else {| cf_ret := CMD_SUCCESS; cf_out := [];
          cf_globals := set_ip_default_route 0 g;
          cf_calls := [zebra_evaluate_rnh 0 AF_INET 1] |}.

(** [ipv6 nht resolve-via-default], lines 1123-1136. *)
Definition ipv6_nht_default_route (g : zebra_globals) : cfg_result :=
  if negb (zebra_rnh_ipv6_default_route g =? 0) then cfg_done g
  else {| cf_ret := CMD_SUCCESS; cf_out := [];
          cf_globals := set_ipv6_default_route 1 g;
          cf_calls := [zebra_evaluate_rnh 0 AF_INET6 1] |}.

(** [no ipv6 nht resolve-via-default], lines 1138-1152. *)
Definition no_ipv6_nht_default_route (g : zebra_globals) : cfg_result :=
  if zebra_rnh_ipv6_default_route g =? 0 then cfg_done g
  else {| cf_ret := CMD_SUCCESS; cf_out := [];
          cf_globals := set_ipv6_default_route 0 g;
          cf_calls := [zebra_evaluate_rnh 0 AF_INET6 1] |}.

(** [allow-external-route-update] and its [no] form, lines 2250-2269. *)
Definition allow_external_route_update (g : zebra_globals) : cfg_result :=
  cfg_done (set_allow_delete 1 g).

Definition no_allow_external_route_update (g : zebra_globals)
  : cfg_result :=
  cfg_done (set_allow_delete 0 g).

(** The lines [config_write_protocol] writes itself, lines 2620-2643. *)
Definition config_write_globals (g : zebra_globals) : list vty_item :=
  (if negb (allow_delete g =? 0)
   then [Text ("allow-external-route-update" ++ nl)%string] else [])
  ++ (if negb (zebra_rnh_ip_default_route g =? 0)
      then [Text ("ip nht resolve-via-default" ++ nl)%string] else [])
  ++ (if negb (zebra_rnh_ipv6_default_route g =? 0)
      then [Text ("ipv6 nht resolve-via-default" ++ nl)%string] else [])
  ++ match multicast_mode_ipv4_get g with
     | MCAST_NO_CONFIG => []
     | m =>
         [Text ("ip multicast rpf-lookup-mode "
                ++ match m with
                   | MCAST_URIB_ONLY => "urib-only"
                   | MCAST_MRIB_ONLY => "mrib-only"
                   | MCAST_MIX_MRIB_FIRST => "mrib-then-urib"
                   | MCAST_MIX_DISTANCE => "lower-distance"
                   | _ => "longer-prefix"
                   end ++ nl)%string]
     end.

Section ConfigCommands.
Context {K : zebra_consts} {E : zebra_env} {C : cli_env}.

(** [config_write_protocol], lines 2618-2648. *)
Definition config_write_protocol (g : zebra_globals)
  : Z * list vty_item :=
  (1, config_write_globals g ++ zebra_routemap_config_write_protocol).

Definition msg_table_range (table_id : Z) : string :=
  ("Invalid routing table ID, " ++ fmt_d (as_int table_id)
     ++ ". Must be in range 1-252" ++ nl)%string.
Definition msg_table_range_no : string :=
  ("Invalid routing table ID. Must be in range 1-252" ++ nl)%string.
Definition msg_table_main (table_id : Z) : string :=
  ("Invalid routing table ID, " ++ fmt_d (as_int table_id)
     ++ ". Must be non-default table" ++ nl)%string.

(** The outcome of an import-table command: result, output and the
    calls of [zebra_import_table] it made. *)
Record import_result : Type := {
  ir_ret : cmd_ret;
  ir_out : list vty_item;
  ir_calls : list zebra_call
}.

Definition import_warning (msg : string) : import_result :=
  {| ir_ret := CMD_WARNING; ir_out := [Text msg]; ir_calls := [] |}.

(** [ip import-table (1-252) [distance (1-255)] [route-map WORD]], lines
    2539-2582. [table_id] is a [u_int32_t], [distance] an [int]. *)
Definition ip_zebra_import_table_distance (argv : list cmd_token)
  : import_result :=
  let argc := List.length argv in
  let table_id := u32 (strtoul (tok_arg (argv_at argv 2))) in
  let rmap :=
    if strmatch (tok_text (argv_at argv (argc - 2))) "route-map"
    then Some (tok_arg (argv_at argv (argc - 1)))
    else None in
  let distance :=
    if (argc =? 7)%nat
       || ((argc =? 5)%nat
           && match rmap with Some _ => false | None => true end)
    then as_int (u32 (strtoul (tok_arg (argv_at argv 4))))
    else ZEBRA_TABLE_DISTANCE_DEFAULT in
  if negb (is_zebra_valid_kernel_table table_id)
  then import_warning (msg_table_range table_id)
  else if is_zebra_main_routing_table table_id
  then import_warning (msg_table_main table_id)
  else
    {| ir_ret := zebra_import_table AFI_IP table_id distance rmap 1;
       ir_out := [];
       ir_calls := [zebra_import_table_call AFI_IP table_id distance rmap 1]
    |}.

(** [no ip import-table ...], lines 2584-2616. *)
Definition no_ip_zebra_import_table (argv : list cmd_token)
  : import_result :=
  let table_id := u32 (strtoul (tok_arg (argv_at argv 3))) in
  if negb (is_zebra_valid_kernel_table table_id)
  then import_warning msg_table_range_no
  else if is_zebra_main_routing_table table_id
  then import_warning (msg_table_main table_id)
  else if negb (is_zebra_import_table_enabled AFI_IP table_id)
  then {| ir_ret := CMD_SUCCESS; ir_out := []; ir_calls := [] |}
  else
    {| ir_ret := zebra_import_table AFI_IP table_id 0 None 0;
       ir_out := [];
       ir_calls := [zebra_import_table_call AFI_IP table_id 0 None 0] |}.

(** ** Static route configuration writer *)

(** The [switch (si->type)] of lines 1696-1733. *)
Definition static_config_nexthop (si : static_route) : list vty_item :=
  match si_type si with
  | STATIC_IPV4_GATEWAY => [Text (" " ++ inet_ntoa (si_addr si))%string]
  | STATIC_IPV6_GATEWAY =>
      [Text (" " ++ inet_ntop AF_INET6 (si_addr si))%string]
  | STATIC_IFINDEX => [Text (" " ++ si_ifname si)%string]
  | STATIC_BLACKHOLE =>
      if CHECK_FLAG (si_flags si) ZEBRA_FLAG_REJECT
      then [Text " reject"%string]
      else [Text " Null0"%string]
  | STATIC_IPV4_GATEWAY_IFINDEX =>
      [Text (" " ++ inet_ntop AF_INET (si_addr si) ++ " "
               ++ ifindex2ifname (si_ifindex si) (si_vrf_id si))%string]
  | STATIC_IPV6_GATEWAY_IFINDEX =>
      [Text (" " ++ inet_ntop AF_INET6 (si_addr si) ++ " "
               ++ ifindex2ifname (si_ifindex si) (si_vrf_id si))%string]
  end.

Definition is_blackhole_type (t : static_type) : bool :=
  match t with
  | STATIC_BLACKHOLE => true
  | _ => false
  end.

(** The body of the inner loop, lines 1693-1769: one configuration line,
    as the sequence of [vty_out] calls that write it. [si->tag] is
    unsigned and printed with [%u]. *)
Definition static_config_line (cmd : string) (zvrf : zebra_vrf)
    (rn : static_node) (si : static_route) : list vty_item :=
  [Text (cmd ++ " " ++ srcdest_rnode2str rn)%string]
  ++ static_config_nexthop si
  ++ (if negb (is_blackhole_type (si_type si)) then
        (if CHECK_FLAG (si_flags si) ZEBRA_FLAG_REJECT
         then [Text " reject"%string] else [])
        ++ (if CHECK_FLAG (si_flags si) ZEBRA_FLAG_BLACKHOLE
            then [Text " blackhole"%string] else [])
      else [])
  ++ (if negb (si_tag si =? 0)
      then [Text (" tag " ++ fmt_d (si_tag si))%string] else [])
  ++ (if negb (si_distance si =? ZEBRA_STATIC_DISTANCE_DEFAULT)
      then [Text (" " ++ fmt_d (si_distance si))%string] else [])
  ++ (if negb (si_vrf_id si =? VRF_DEFAULT)
      then [Text (" vrf " ++ zvrf_name zvrf)%string] else [])
  ++ (if negb (num_labels (si_snh_label si) =? 0)
      then [Text (" label "
                  ++ mpls_label2str (num_labels (si_snh_label si))
                       (label (si_snh_label si)) 0)%string]
      else [])
  ++ [Text nl].

(** [for (si = rn->info; si; si = si->next)], threading [write]. *)
Fixpoint static_config_routes (cmd : string) (zvrf : zebra_vrf)
    (rn : static_node) (sis : list static_route) (write : Z)
  : Z * list vty_item :=
  match sis with
  | [] => (write, [])
  | si :: rest =>
      let '(w, o) := static_config_routes cmd zvrf rn rest 1 in
      (w, static_config_line cmd zvrf rn si ++ o)
  end.

(** [for (rn = route_top (stable); rn; rn = srcdest_route_next (rn))] *)
Fixpoint static_config_nodes (cmd : string) (zvrf : zebra_vrf)
    (nodes : list static_node) (write : Z) : Z * list vty_item :=
  match nodes with
  | [] => (write, [])
  | rn :: rest =>
      let '(w, o) := static_config_routes cmd zvrf rn (sn_info rn) write in
      let '(w', o') := static_config_nodes cmd zvrf rest w in
      (w', o ++ o')
  end.

(** [RB_FOREACH] of lines 1684-1773. *)
Fixpoint static_config_vrfs (afi : afi_t) (safi : safi_t) (cmd : string)
    (vrfs : list vrf) (write : Z) : Z * list vty_item :=
  match vrfs with
  | [] => (write, [])
  | v :: rest =>
      match vrf_info v with
      | None => static_config_vrfs afi safi cmd rest write
      | Some zvrf =>
          match zd_stable zvrf afi safi with
          | None => static_config_vrfs afi safi cmd rest write
          | Some stable =>
              let '(w, o) :=
                static_config_nodes cmd (zd_zvrf zvrf) stable write in
              let '(w', o') := static_config_vrfs afi safi cmd rest w in
              (w', o ++ o')
          end
      end
  end.

(** [static_config], lines 1673-1775. *)
Definition static_config (afi : afi_t) (safi : safi_t) (cmd : string)
  : Z * list vty_item :=
  static_config_vrfs afi safi cmd vrfs_by_name 0.

(** [zebra_ip_config], lines 2527-2537. *)
Definition zebra_ip_config : Z * list vty_item :=
  let '(w1, o1) := static_config AFI_IP SAFI_UNICAST "ip route" in
  let '(w2, o2) := static_config AFI_IP SAFI_MULTICAST "ip mroute" in
  let '(w3, o3) := static_config AFI_IP6 SAFI_UNICAST "ipv6 route" in
  let '(w4, o4) := zebra_import_table_config in
  (0 + w1 + w2 + w3 + w4, o1 ++ o2 ++ o3 ++ o4).

End ConfigCommands.

(** ** Vocabulary for the properties of these commands *)

(** Sum of [f] over the indices [l]. *)
Definition zsum (f : Z -> Z) (l : list Z) : Z :=
  fold_right (fun i acc => f i + acc) 0 l.

Section BucketVocabulary.
Context {K : zebra_consts}.

(** An internal BGP route. *)
Definition is_ibgp (re : route_entry) : bool :=
  (re_type re =? ZEBRA_ROUTE_BGP)
  && CHECK_FLAG (re_flags re) ZEBRA_FLAG_IBGP.

(** The row of the per-route summary an entry is counted on. *)
Definition route_bucket (re : route_entry) : Z :=
  if is_ibgp re then ZEBRA_ROUTE_IBGP else re_type re.

(** The sum of the per-protocol counters: the route types, and the
    separate [ZEBRA_ROUTE_IBGP] counter when [ibgp] is set. *)
Definition bucket_sum (ibgp : bool) (a : cnt_array) : Z :=
  zsum a (upto ZEBRA_ROUTE_MAX) + (if ibgp then a ZEBRA_ROUTE_IBGP else 0).

End BucketVocabulary.

(** ** Sample data for these commands *)

(** An external BGP route, selected and installed. *)
Definition sample_ebgp : route_entry :=
  {| re_type := 9; re_instance := 0; re_flags := 16; re_status := 16;
     re_tag := 0; re_uptime := 0; re_nexthop := [{| nh_flags := 3 |}] |}.

(** A table with an internal and an external BGP route at one node and
    a static route at another. *)
Definition summary_table : route_table :=
  {| rt_zvrf_name := "default";
     rt_nodes := [{| rn_p := net10;
                     rn_info := Some [sample_ibgp; sample_ebgp] |};
                  {| rn_p := net10_1; rn_info := Some [sample_static] |}] |}.

(** The calls of the entry renderer a walk makes under a filter: the
    entries the filter keeps, node by node in walk order. *)
Definition shown_routes (flt : route_node -> route_entry -> bool)
    (nodes : list route_node) : list vty_item :=
  flat_map (fun rn => map (Route rn) (filter (flt rn) (rnode_entries rn)))
    nodes.

(** The members of the JSON document of a walk under a filter: for each
    node with an entry the filter keeps, in walk order, the node and the
    entries kept. *)
Definition json_members (flt : route_node -> route_entry -> bool)
    (nodes : list route_node) : list (route_node * list route_entry) :=
  flat_map (fun rn => match filter (flt rn) (rnode_entries rn) with
                      | [] => []
                      | re :: res => [(rn, re :: res)]
                      end)
    nodes.

(** [hdr] when [l] is not empty. *)
Definition header_if_any (hdr l : list vty_item) : list vty_item :=
  match l with
  | [] => []
  | _ :: _ => hdr
  end.

(** An environment whose default VRF also has an IPv4 multicast table. *)
Definition mcast_env : zebra_env :=
  {| str2prefix := sample_str2prefix;
     inet_aton := inet_aton (zebra_env := sample_env);
     ip_masklen := ip_masklen (zebra_env := sample_env);
     apply_mask := fun p => p;
     atoi := fun _ => 1;
     strtoul := fun _ => 1;
     zebra_vrf_lookup_by_name :=
       zebra_vrf_lookup_by_name (zebra_env := sample_env);
     mpls_enabled := false;
     mpls_str2label := mpls_str2label (zebra_env := sample_env);
     afi2family := afi2family (zebra_env := sample_env);
     inet_pton := inet_pton (zebra_env := sample_env);
     if_lookup_by_name := if_lookup_by_name (zebra_env := sample_env);
     zebra_vrf_table := fun a s id =>
                          match a with
                          | AFI_IP => if id =? 0 then Some summary_table
                                      else None
                          | _ => None
                          end;
     str2prefix_ipv4 := sample_str2prefix;
     VRF_GET_ID := VRF_GET_ID (zebra_env := sample_env) |}.

(** A token that carries what the operator typed. *)
Definition variable (text arg : string) : cmd_token :=
  {| tok_text := text; tok_arg := arg |}.

(** The first token at or after position [i] of [argv] whose text is
    [text]. *)
Fixpoint find_token (text : string) (i : nat) (argv : list cmd_token)
  : option nat :=
  match argv with
  | [] => None
  | t :: rest =>
      if String.eqb text (tok_text t) then Some i
      else find_token text (S i) rest
  end.

Definition sample_argv_find (argv : list cmd_token) (text : string)
    (idx : nat) : option nat :=
  find_token text idx (skipn idx argv).

(** 10.1.0.0/16 with a RIP route, the table of a second VRF. *)
Definition node10_1 : route_node :=
  {| rn_p := net10_1; rn_info := Some [sample_unselected] |}.

Definition red_table : route_table :=
  {| rt_zvrf_name := "red"; rt_nodes := [node10_1] |}.

(** A static route of the default VRF by gateway, and a discard route
    with a tag. *)
Definition sample_si_gateway : static_route :=
  {| si_type := STATIC_IPV4_GATEWAY; si_addr := 192 * 2 ^ 24 + 2 * 2 ^ 8 + 1;
     si_ifindex := 0; si_ifname := ""; si_flags := 0; si_tag := 0;
     si_distance := 1; si_vrf_id := 0;
     si_snh_label := {| num_labels := 0; label := [] |} |}.

Definition sample_si_reject : static_route :=
  {| si_type := STATIC_BLACKHOLE; si_addr := 0; si_ifindex := 0;
     si_ifname := ""; si_flags := 128; si_tag := 7; si_distance := 1;
     si_vrf_id := 0; si_snh_label := {| num_labels := 0; label := [] |} |}.

Definition sample_stable : list static_node :=
  [{| sn_p := net10; sn_src_p := None;
      sn_info := [sample_si_gateway; sample_si_reject] |}].

(** Three VRFs in name order: one zebra has not set up, the default VRF
    and a VRF with a table of its own. *)
Definition blue_vrf : vrf := {| vrf_name := "blue"; vrf_info := None |}.

Definition default_vrf : vrf :=
  {| vrf_name := "default";
     vrf_info :=
       Some {| zd_zvrf := default_zvrf;
               zd_table := fun a s =>
                             match a, s with
                             | AFI_IP, SAFI_UNICAST => Some sample_table
                             | AFI_IP6, SAFI_MULTICAST => Some sample_table
                             | _, _ => None
                             end;
               zd_stable := fun a s =>
                              match a, s with
                              | AFI_IP, SAFI_UNICAST => Some sample_stable
                              | _, _ => None
                              end |} |}.

Definition red_vrf : vrf :=
  {| vrf_name := "red";
     vrf_info :=
       Some {| zd_zvrf := {| zvrf_id := 5; zvrf_name := "red" |};
               zd_table := fun a s =>
                             match a, s with
                             | AFI_IP, SAFI_UNICAST => Some red_table
                             | AFI_IP6, SAFI_MULTICAST => Some red_table
                             | _, _ => None
                             end;
               zd_stable := fun _ _ => None |} |}.

Definition sample_redistnum (s : string) : Z :=
  if String.eqb s "kernel" then 1 else if String.eqb s "connected" then 2
  else if String.eqb s "static" then 3 else if String.eqb s "rip" then 4
  else if String.eqb s "ospf" then 6 else if String.eqb s "isis" then 8
  else if String.eqb s "bgp" then 9 else -1.

(** A small command environment over these VRFs. *)
Definition sample_cli : cli_env :=
  {| VRF_DEFAULT_NAME := "default";
     ZEBRA_TABLE_DISTANCE_DEFAULT := 15;
     vrfs_by_name := [blue_vrf; default_vrf; red_vrf];
     argv_find := sample_argv_find;
     use_json := existsb (fun t => String.eqb (tok_text t) "json");
     proto_redistnum := fun _ s => sample_redistnum s;
     vrf_lookup_by_id := fun id => if id =? 5 then red_vrf else default_vrf;
     is_zebra_valid_kernel_table := fun t => (1 <=? t) && (t <=? 252);
     is_zebra_main_routing_table := fun t => t =? 254;
     is_zebra_import_table_enabled := fun _ t => t =? 10;
     zebra_import_table := fun _ _ _ _ _ => CMD_SUCCESS;
     inet_ntoa := fun _ => "192.0.2.1"%string;
     inet_ntop := fun _ _ => "192.0.2.1"%string;
     ifindex2ifname := fun _ _ => "eth0"%string;
     mpls_label2str := fun _ _ _ => "16"%string;
     srcdest_rnode2str := fun _ => "10.0.0.0/8"%string;
     zebra_import_table_config := (0, []);
     zebra_routemap_config_write_protocol := [] |}.

(** The arguments of a static route command with the [no] token
    replaced. *)
Definition with_negate (a : static_args) (no : option string)
  : static_args :=
  {| afi := afi a; safi := safi a; negate := no;
     dest_str := dest_str a; mask_str := mask_str a; src_str := src_str a;
     gate_str := gate_str a; ifname := ifname a; flag_str := flag_str a;
     tag_str := tag_str a; distance_str := distance_str a;
     vrf_id_str := vrf_id_str a; label_str := label_str a |}.

(** What an add and a withdraw request have in common: the arguments
    the two calls of lines 238-242 share. *)
Record route_identity : Type := {
  ri_afi : afi_t;
  ri_safi : safi_t;
  ri_type : static_type;
  ri_p : prefix;
  ri_src_p : option prefix;
  ri_gatep : option Z;
  ri_ifindex : Z;
  ri_tag : Z;
  ri_distance : Z;
  ri_zvrf : zebra_vrf;
  ri_snh_label : static_nh_label
}.

Definition request_identity (rq : rib_request) : route_identity :=
  match rq with
  | static_add_route afi safi type p src_p gatep ifindex _ _ tag distance
      zvrf snh_label
  | static_delete_route afi safi type p src_p gatep ifindex tag distance
      zvrf snh_label =>
      {| ri_afi := afi; ri_safi := safi; ri_type := type; ri_p := p;
         ri_src_p := src_p; ri_gatep := gatep; ri_ifindex := ifindex;
         ri_tag := tag; ri_distance := distance; ri_zvrf := zvrf;
         ri_snh_label := snh_label |}
  end.

Definition is_add (rq : rib_request) : bool :=
  match rq with
  | static_add_route _ _ _ _ _ _ _ _ _ _ _ _ _ => true
  | static_delete_route _ _ _ _ _ _ _ _ _ _ _ => false
  end.

(** The table a VRF has for an address family; none while zebra has not
    set the VRF up. *)
Definition vrf_table (v : vrf) (afi : afi_t) (safi : safi_t)
  : option route_table :=
  match vrf_info v with
  | Some zvrf => zd_table zvrf afi safi
  | None => None
  end.

(** Every entry of a walk, as calls of the entry renderer. *)
Definition all_routes (nodes : list route_node) : list vty_item :=
  flat_map (fun rn => map (Route rn) (rnode_entries rn)) nodes.

(** Every entry of the IPv6 multicast tables of the VRFs, in VRF order
    and walk order. *)
Definition all_mroutes (vrfs : list vrf) : list vty_item :=
  flat_map (fun v => match vrf_table v AFI_IP6 SAFI_MULTICAST with
                     | Some table => all_routes (rt_nodes table)
                     | None => []
                     end) vrfs.

(** The number of filters a request supplies: the tag, the covering
    prefix, supernets-only, and the protocol with its OSPF instance. *)
Definition filters_supplied (q : show_request) : nat :=
  ((if (sq_tag q =? 0)%Z then 0 else 1)
   + (match sq_longer q with Some _ => 1 | None => 0 end)
   + (if sq_supernets_only q then 1 else 0)
   + (if (sq_type q =? 0)%Z && (sq_ospf_instance_id q =? 0)%Z
      then 0 else 1))%nat.

(** [argv_find] reports a position only when the token there has the
    text that was asked for. *)
Definition argv_find_sound {C : cli_env} (argv : list cmd_token) : Prop :=
  forall text i j,
    argv_find argv text i = Some j -> tok_text (argv_at argv j) = text.

(** [show ip route tag 5] and [show ip route supernets-only]. *)
Definition argv_show_tag : list cmd_token :=
  [keyword "show"; keyword "ip"; keyword "route"; keyword "tag";
   variable "(1-4294967295)" "5"].

Definition argv_show_supernets : list cmd_token :=
  [keyword "show"; keyword "ip"; keyword "route"; keyword "supernets-only"].

Section ArgsVocabulary.
Context {K : zebra_consts} {E : zebra_env}.

(** What a run of the argument decoding of [show ip route] can look
    like: a request with property [P], the failure of the VRF lookup, or
    a warning that ends in the unknown route type message. *)
Definition args_shape (P : show_request -> Prop)
    (m : vty_res show_request) : Prop :=
  match m with
  | Continue q _ => P q
  | Return r o =>
      (r = CMD_WARNING
       /\ exists og, o = og ++ [Text ("Unknown route type" ++ nl)%string])
      \/ exists name, VRF_GET_ID name = Return r o
  end.

End ArgsVocabulary.

(** The keywords of [ip multicast rpf-lookup-mode]. *)
Definition mode_keywords : list string :=
  ["urib-only"; "mrib-only"; "mrib-then-urib"; "lower-distance";
   "longer-prefix"]%string.

(** [ip multicast rpf-lookup-mode k] as a token vector, and as the line
    the configuration writer prints. *)
Definition argv_multicast_mode (k : string) : list cmd_token :=
  [keyword "ip"; keyword "multicast"; keyword "rpf-lookup-mode"; keyword k].

Definition multicast_line (k : string) : vty_item :=
  Text ("ip multicast rpf-lookup-mode " ++ k ++ nl)%string.

Definition ip_nht_line : vty_item :=
  Text ("ip nht resolve-via-default" ++ nl)%string.
Definition ipv6_nht_line : vty_item :=
  Text ("ipv6 nht resolve-via-default" ++ nl)%string.
Definition allow_external_line : vty_item :=
  Text ("allow-external-route-update" ++ nl)%string.

(** [ip import-table N [distance D] [route-map W]] as a token vector. *)
Definition import_argv (n : string) (d w : option string)
  : list cmd_token :=
  [keyword "ip"; keyword "import-table"; variable "(1-252)" n]
  ++ match d with
     | Some ds => [keyword "distance"; variable "(1-255)" ds]
     | None => []
     end
  ++ match w with
     | Some ws => [keyword "route-map"; variable "WORD" ws]
     | None => []
     end.

(** A [vty_out] of the line end alone. *)
Definition is_newline (it : vty_item) : bool :=
  match it with
  | Text s => String.eqb s nl
  | _ => false
  end.

(** The static routes of a VRF for an address family, and those of all
    VRFs, in the order the configuration writer visits them. *)
Definition vrf_statics (afi : afi_t) (safi : safi_t) (v : vrf)
  : list static_route :=
  match vrf_info v with
  | Some zvrf =>
      match zd_stable zvrf afi safi with
      | Some nodes => flat_map sn_info nodes
      | None => []
      end
  | None => []
  end.

Definition configured_statics (afi : afi_t) (safi : safi_t)
    (vrfs : list vrf) : list static_route :=
  flat_map (vrf_statics afi safi) vrfs.

(** The globals before any configuration. *)
Definition default_globals : zebra_globals :=
  {| allow_delete := 0; zebra_rnh_ip_default_route := 0;
     zebra_rnh_ipv6_default_route := 0;
     ipv4_multicast_mode := MCAST_NO_CONFIG |}.

(* ================================================================== *)
(** * Part IV. Theorems *)
(* ================================================================== *)

(** ** Counters *)

Lemma incr_same (a : cnt_array) (i : Z) : incr a i i = u32 (a i + 1).
Proof. unfold incr. now rewrite Z.eqb_refl. Qed.

Lemma incr_other (a : cnt_array) (i j : Z) : j <> i -> incr a i j = a j.
Proof.
  intros Hne. unfold incr.
  destruct (Z.eqb_spec j i) as [Heq | _]; [contradiction | reflexivity].
Qed.

Lemma u32_idem (x : Z) : u32 (u32 x) = u32 x.
Proof. unfold u32. apply Z.mod_mod. lia. Qed.

Lemma u32_small (x : Z) : 0 <= x < 2 ^ 32 -> u32 x = x.
Proof. intros H. unfold u32. now apply Z.mod_small. Qed.

Lemma u32_succ_l (x n : Z) : u32 (u32 (x + 1) + n) = u32 (x + (1 + n)).
Proof.
  unfold u32. rewrite Z.add_mod_idemp_l by lia. f_equal. lia.
Qed.

Lemma as_int_small (x : Z) : 0 <= x < 2 ^ 31 -> as_int (u32 x) = x.
Proof.
  intros H. rewrite u32_small by lia. unfold as_int.
  destruct (Z.ltb_spec x (2 ^ 31)); lia.
Qed.

(** ** Counting *)

Lemma count_nil {A : Type} (f : A -> bool) : count f [] = 0.
Proof. reflexivity. Qed.

Lemma count_cons {A : Type} (f : A -> bool) (x : A) (l : list A) :
  count f (x :: l) = (if f x then 1 else 0) + count f l.
Proof.
  unfold count. simpl. destruct (f x); simpl List.length; lia.
Qed.

Lemma count_bounds {A : Type} (f : A -> bool) (l : list A) :
  0 <= count f l <= Z.of_nat (List.length l).
Proof.
  induction l as [| x l IH].
  - rewrite count_nil. simpl. lia.
  - rewrite count_cons. simpl List.length. destruct (f x); lia.
Qed.

Lemma count_mono {A : Type} (f g : A -> bool) (l : list A) :
  (forall x, In x l -> f x = true -> g x = true) ->
  count f l <= count g l.
Proof.
  induction l as [| x l IH]; intros H.
  - rewrite !count_nil. lia.
  - rewrite !count_cons.
    assert (IH' : count f l <= count g l).
    { apply IH. intros y Hy. apply H. now right. }
    specialize (H x (or_introl eq_refl)).
    destruct (f x), (g x); try lia; specialize (H eq_refl); discriminate.
Qed.

Lemma count_ext {A : Type} (f g : A -> bool) (l : list A) :
  (forall x, In x l -> f x = g x) -> count f l = count g l.
Proof.
  intros H. apply Z.le_antisymm; apply count_mono; intros x Hx Hf.
  - now rewrite <- (H x Hx).
  - now rewrite (H x Hx).
Qed.

Lemma count_all {A : Type} (f : A -> bool) (l : list A) :
  count f l = Z.of_nat (List.length l) <-> (forall x, In x l -> f x = true).
Proof.
  induction l as [| x l IH].
  - rewrite count_nil. simpl. split; [intros _ y [] | reflexivity].
  - rewrite count_cons. simpl List.length.
    pose proof (count_bounds f l) as Hb. split.
    + intros Heq y [<- | Hy].
      * destruct (f x); [reflexivity | lia].
      * apply IH; [| exact Hy]. destruct (f x); lia.
    + intros Hall.
      rewrite (Hall x (or_introl eq_refl)).
      assert (count f l = Z.of_nat (List.length l)) as ->.
      { apply IH. intros y Hy. apply Hall. now right. }
      lia.
Qed.

Lemma count_true {A : Type} (l : list A) :
  count (fun _ => true) l = Z.of_nat (List.length l).
Proof. apply count_all. reflexivity. Qed.

Lemma count_split {A : Type} (f g : A -> bool) (l : list A) :
  count f l = count (fun x => f x && g x) l
              + count (fun x => f x && negb (g x)) l.
Proof.
  induction l as [| x l IH].
  - now rewrite !count_nil.
  - rewrite !count_cons, IH. destruct (f x), (g x); cbn [andb negb]; lia.
Qed.

(** ** The table walk *)

Lemma walk_nodes_flat (step : counters -> route_entry -> counters)
    (nodes : list route_node) (c : counters) :
  fold_left (fun c rn => fold_left step (rnode_entries rn) c) nodes c
  = fold_left step (flat_map rnode_entries nodes) c.
Proof.
  revert c. induction nodes as [| rn nodes IH]; intros c; simpl.
  - reflexivity.
  - rewrite fold_left_app. apply IH.
Qed.

Lemma walk_entries_flat (step : counters -> route_entry -> counters)
    (table : route_table) :
  walk_entries step table
  = fold_left step (table_entries table) zero_counters.
Proof. apply walk_nodes_flat. Qed.

(** A counter that every step either bumps (when [P] holds of the entry)
    or leaves alone ends up at the number of entries satisfying [P]. *)
Lemma fold_counts (get : counters -> Z)
    (step : counters -> route_entry -> counters)
    (P : route_entry -> bool) (l : list route_entry) :
  (forall c re, In re l ->
     get (step c re) = if P re then u32 (get c + 1) else get c) ->
  forall c, get c = u32 (get c) ->
            get (fold_left step l c) = u32 (get c + count P l).
Proof.
  induction l as [| re l IH]; intros Hstep c Hc.
  - simpl. rewrite count_nil, Z.add_0_r. exact Hc.
  - simpl. rewrite count_cons.
    assert (Hhd := Hstep c re (or_introl eq_refl)).
    rewrite IH.
    + rewrite Hhd. destruct (P re).
      * apply u32_succ_l.
      * reflexivity.
    + intros c' re' Hin. apply Hstep. now right.
    + rewrite Hhd. destruct (P re); [now rewrite u32_idem | exact Hc].
Qed.

Section SummaryProofs.
Context {K : zebra_consts}.

Lemma total_not_ibgp : ZEBRA_ROUTE_TOTAL <> ZEBRA_ROUTE_IBGP.
Proof. unfold ZEBRA_ROUTE_TOTAL. lia. Qed.

Lemma total_not_type (re : route_entry) :
  valid_type re -> ZEBRA_ROUTE_TOTAL <> re_type re.
Proof.
  unfold valid_type, ZEBRA_ROUTE_TOTAL, ZEBRA_ROUTE_IBGP. lia.
Qed.

Lemma summary_entry_rib_total (c : counters) (re : route_entry) :
  valid_type re ->
  rib_cnt (summary_entry c re) ZEBRA_ROUTE_TOTAL
  = u32 (rib_cnt c ZEBRA_ROUTE_TOTAL + 1).
Proof.
  intros Hv. unfold summary_entry. cbn [rib_cnt].
  pose proof total_not_ibgp. pose proof (total_not_type re Hv).
  destruct (_ && _); rewrite incr_other by assumption; apply incr_same.
Qed.

Lemma summary_entry_fib_total (c : counters) (re : route_entry) :
  valid_type re ->
  fib_cnt (summary_entry c re) ZEBRA_ROUTE_TOTAL
  = if is_selected re then u32 (fib_cnt c ZEBRA_ROUTE_TOTAL + 1)
    else fib_cnt c ZEBRA_ROUTE_TOTAL.
Proof.
  intros Hv. unfold summary_entry, is_selected. cbn [fib_cnt].
  pose proof total_not_ibgp. pose proof (total_not_type re Hv).
  destruct (CHECK_FLAG (re_flags re) ZEBRA_FLAG_SELECTED); [| reflexivity].
  destruct (_ && _); rewrite incr_other by assumption; apply incr_same.
Qed.

Lemma prefix_body_rib_total (c : counters) (re : route_entry)
    (nh : nexthop) :
  valid_type re ->
  rib_cnt (prefix_nexthop_body re nh c) ZEBRA_ROUTE_TOTAL
  = u32 (rib_cnt c ZEBRA_ROUTE_TOTAL + 1).
Proof.
  intros Hv. unfold prefix_nexthop_body.
  pose proof total_not_ibgp. pose proof (total_not_type re Hv).
  destruct (_ && _); cbn [rib_cnt];
    rewrite ?(incr_other _ ZEBRA_ROUTE_IBGP) by assumption;
    rewrite incr_other by assumption; apply incr_same.
Qed.

Lemma prefix_body_fib_total (c : counters) (re : route_entry)
    (nh : nexthop) :
  valid_type re ->
  fib_cnt (prefix_nexthop_body re nh c) ZEBRA_ROUTE_TOTAL
  = if CHECK_FLAG (nh_flags nh) NEXTHOP_FLAG_FIB
    then u32 (fib_cnt c ZEBRA_ROUTE_TOTAL + 1)
    else fib_cnt c ZEBRA_ROUTE_TOTAL.
Proof.
  intros Hv. unfold prefix_nexthop_body.
  pose proof total_not_ibgp. pose proof (total_not_type re Hv).
  destruct (_ && _), (CHECK_FLAG (nh_flags nh) NEXTHOP_FLAG_FIB);
    cbn [fib_cnt]; try reflexivity;
    rewrite ?(incr_other _ ZEBRA_ROUTE_IBGP) by assumption;
    rewrite incr_other by assumption; apply incr_same.
Qed.

(** The nexthop loop runs its body on the first nexthop and stops. *)
Lemma prefix_entry_first (c : counters) (re : route_entry) (nh : nexthop)
    (rest : list nexthop) :
  re_nexthop re = nh :: rest ->
  summary_prefix_entry c re = prefix_nexthop_body re nh c.
Proof.
  intros Hnh. unfold summary_prefix_entry. rewrite Hnh. simpl.
  destruct rest; reflexivity.
Qed.

Lemma prefix_entry_none (c : counters) (re : route_entry) :
  re_nexthop re = [] -> summary_prefix_entry c re = c.
Proof.
  intros Hnh. unfold summary_prefix_entry. now rewrite Hnh.
Qed.

Lemma prefix_entry_rib_total (c : counters) (re : route_entry) :
  valid_type re ->
  rib_cnt (summary_prefix_entry c re) ZEBRA_ROUTE_TOTAL
  = if has_nexthop re then u32 (rib_cnt c ZEBRA_ROUTE_TOTAL + 1)
    else rib_cnt c ZEBRA_ROUTE_TOTAL.
Proof.
  intros Hv. unfold has_nexthop.
  destruct (re_nexthop re) as [| nh rest] eqn:Hnh.
  - now rewrite prefix_entry_none.
  - rewrite (prefix_entry_first c re nh rest Hnh).
    now apply prefix_body_rib_total.
Qed.

Lemma prefix_entry_fib_total (c : counters) (re : route_entry) :
  valid_type re ->
  fib_cnt (summary_prefix_entry c re) ZEBRA_ROUTE_TOTAL
  = if first_nexthop_fib re then u32 (fib_cnt c ZEBRA_ROUTE_TOTAL + 1)
    else fib_cnt c ZEBRA_ROUTE_TOTAL.
Proof.
  intros Hv. unfold first_nexthop_fib.
  destruct (re_nexthop re) as [| nh rest] eqn:Hnh.
  - now rewrite prefix_entry_none.
  - rewrite (prefix_entry_first c re nh rest Hnh).
    now apply prefix_body_fib_total.
Qed.

(** Closed forms of the four totals, before the [%d] conversion. *)
Lemma summary_rib_total (table : route_table) :
  all_valid table ->
  rib_cnt (summary_count table) ZEBRA_ROUTE_TOTAL
  = u32 (Z.of_nat (List.length (table_entries table))).
Proof.
  intros Hv. unfold summary_count. rewrite walk_entries_flat.
  rewrite (fold_counts (fun c => rib_cnt c ZEBRA_ROUTE_TOTAL) summary_entry
             (fun _ => true)).
  - now rewrite count_true.
  - intros c re Hin. apply summary_entry_rib_total. now apply Hv.
  - reflexivity.
Qed.

Lemma summary_fib_total (table : route_table) :
  all_valid table ->
  fib_cnt (summary_count table) ZEBRA_ROUTE_TOTAL
  = u32 (count is_selected (table_entries table)).
Proof.
  intros Hv. unfold summary_count. rewrite walk_entries_flat.
  rewrite (fold_counts (fun c => fib_cnt c ZEBRA_ROUTE_TOTAL) summary_entry
             is_selected).
  - reflexivity.
  - intros c re Hin. apply summary_entry_fib_total. now apply Hv.
  - reflexivity.
Qed.

Lemma summary_prefix_rib_total (table : route_table) :
  all_valid table ->
  rib_cnt (summary_prefix_count table) ZEBRA_ROUTE_TOTAL
  = u32 (count has_nexthop (table_entries table)).
Proof.
  intros Hv. unfold summary_prefix_count. rewrite walk_entries_flat.
  rewrite (fold_counts (fun c => rib_cnt c ZEBRA_ROUTE_TOTAL)
             summary_prefix_entry has_nexthop).
  - reflexivity.
  - intros c re Hin. apply prefix_entry_rib_total. now apply Hv.
  - reflexivity.
Qed.

Lemma summary_prefix_fib_total (table : route_table) :
  all_valid table ->
  fib_cnt (summary_prefix_count table) ZEBRA_ROUTE_TOTAL
  = u32 (count first_nexthop_fib (table_entries table)).
Proof.
  intros Hv. unfold summary_prefix_count. rewrite walk_entries_flat.
  rewrite (fold_counts (fun c => fib_cnt c ZEBRA_ROUTE_TOTAL)
             summary_prefix_entry first_nexthop_fib).
  - reflexivity.
  - intros c re Hin. apply prefix_entry_fib_total. now apply Hv.
  - reflexivity.
Qed.

Lemma ibgp_not_type (re : route_entry) :
  valid_type re -> ZEBRA_ROUTE_IBGP <> re_type re.
Proof. unfold valid_type, ZEBRA_ROUTE_IBGP. lia. Qed.

(** A count over the entries of a table below 2^32 entries is not
    reduced by the 32-bit arithmetic. *)
Lemma u32_count (table : route_table) (P : route_entry -> bool) :
  Z.of_nat (List.length (table_entries table)) < 2 ^ 32 ->
  u32 (count P (table_entries table)) = count P (table_entries table).
Proof.
  intros Hlen. apply u32_small.
  pose proof (count_bounds P (table_entries table)). lia.
Qed.

(** One step of the nexthop loop body on a per-protocol counter. *)
Lemma prefix_body_rib_type (c : counters) (re : route_entry) (nh : nexthop)
    (i : Z) :
  i <> ZEBRA_ROUTE_TOTAL -> i <> ZEBRA_ROUTE_IBGP ->
  rib_cnt (prefix_nexthop_body re nh c) i
  = if re_type re =? i then u32 (rib_cnt c i + 1) else rib_cnt c i.
Proof.
  intros Ht Hi. unfold prefix_nexthop_body.
  destruct (_ && _); cbn [rib_cnt]; rewrite ?(incr_other _ ZEBRA_ROUTE_IBGP)
    by exact Hi;
    (destruct (Z.eqb_spec (re_type re) i) as [<- | Hne];
     [now rewrite incr_same, incr_other by exact Ht
     | now rewrite !incr_other by congruence]).
Qed.

Lemma prefix_body_fib_type (c : counters) (re : route_entry) (nh : nexthop)
    (i : Z) :
  i <> ZEBRA_ROUTE_TOTAL -> i <> ZEBRA_ROUTE_IBGP ->
  fib_cnt (prefix_nexthop_body re nh c) i
  = if CHECK_FLAG (nh_flags nh) NEXTHOP_FLAG_FIB && (re_type re =? i)
    then u32 (fib_cnt c i + 1) else fib_cnt c i.
Proof.
  intros Ht Hi. unfold prefix_nexthop_body.
  destruct (_ && _), (CHECK_FLAG (nh_flags nh) NEXTHOP_FLAG_FIB);
    cbn [fib_cnt andb]; try reflexivity;
    rewrite ?(incr_other _ ZEBRA_ROUTE_IBGP) by exact Hi;
    (destruct (Z.eqb_spec (re_type re) i) as [<- | Hne];
     [now rewrite incr_same, incr_other by exact Ht
     | now rewrite !incr_other by congruence]).
Qed.

Lemma prefix_body_rib_ibgp (c : counters) (re : route_entry) (nh : nexthop) :
  valid_type re ->
  rib_cnt (prefix_nexthop_body re nh c) ZEBRA_ROUTE_IBGP
  = if is_ibgp re then u32 (rib_cnt c ZEBRA_ROUTE_IBGP + 1)
    else rib_cnt c ZEBRA_ROUTE_IBGP.
Proof.
  intros Hv. unfold prefix_nexthop_body, is_ibgp.
  pose proof (ibgp_not_type re Hv) as Hty.
  pose proof (not_eq_sym total_not_ibgp) as Htot.
  destruct (_ && _); cbn [rib_cnt].
  - now rewrite incr_same, !incr_other by assumption.
  - now rewrite !incr_other by assumption.
Qed.

Lemma prefix_body_fib_ibgp (c : counters) (re : route_entry) (nh : nexthop) :
  valid_type re ->
  fib_cnt (prefix_nexthop_body re nh c) ZEBRA_ROUTE_IBGP
  = if CHECK_FLAG (nh_flags nh) NEXTHOP_FLAG_FIB && is_ibgp re
    then u32 (fib_cnt c ZEBRA_ROUTE_IBGP + 1)
    else fib_cnt c ZEBRA_ROUTE_IBGP.
Proof.
  intros Hv. unfold prefix_nexthop_body, is_ibgp.
  pose proof (ibgp_not_type re Hv) as Hty.
  pose proof (not_eq_sym total_not_ibgp) as Htot.
  destruct (_ && _), (CHECK_FLAG (nh_flags nh) NEXTHOP_FLAG_FIB);
    cbn [fib_cnt andb]; try reflexivity.
  - now rewrite incr_same, !incr_other by assumption.
  - now rewrite !incr_other by assumption.
Qed.

(** The same for a whole entry: only the first nexthop counts. *)
Lemma prefix_entry_rib_type (c : counters) (re : route_entry) (i : Z) :
  i <> ZEBRA_ROUTE_TOTAL -> i <> ZEBRA_ROUTE_IBGP ->
  rib_cnt (summary_prefix_entry c re) i
  = if has_nexthop re && (re_type re =? i) then u32 (rib_cnt c i + 1)
    else rib_cnt c i.
Proof.
  intros Ht Hi. unfold has_nexthop.
  destruct (re_nexthop re) as [| nh rest] eqn:Hnh.
  - now rewrite prefix_entry_none.
  - rewrite (prefix_entry_first c re nh rest Hnh).
    now apply prefix_body_rib_type.
Qed.

Lemma prefix_entry_fib_type (c : counters) (re : route_entry) (i : Z) :
  i <> ZEBRA_ROUTE_TOTAL -> i <> ZEBRA_ROUTE_IBGP ->
  fib_cnt (summary_prefix_entry c re) i
  = if first_nexthop_fib re && (re_type re =? i) then u32 (fib_cnt c i + 1)
    else fib_cnt c i.
Proof.
  intros Ht Hi. unfold first_nexthop_fib.
  destruct (re_nexthop re) as [| nh rest] eqn:Hnh.
  - now rewrite prefix_entry_none.
  - rewrite (prefix_entry_first c re nh rest Hnh).
    now apply prefix_body_fib_type.
Qed.

Lemma prefix_entry_rib_ibgp (c : counters) (re : route_entry) :
  valid_type re ->
  rib_cnt (summary_prefix_entry c re) ZEBRA_ROUTE_IBGP
  = if has_nexthop re && is_ibgp re
    then u32 (rib_cnt c ZEBRA_ROUTE_IBGP + 1)
    else rib_cnt c ZEBRA_ROUTE_IBGP.
Proof.
  intros Hv. unfold has_nexthop.
  destruct (re_nexthop re) as [| nh rest] eqn:Hnh.
  - now rewrite prefix_entry_none.
  - rewrite (prefix_entry_first c re nh rest Hnh).
    now apply prefix_body_rib_ibgp.
Qed.

Lemma prefix_entry_fib_ibgp (c : counters) (re : route_entry) :
  valid_type re ->
  fib_cnt (summary_prefix_entry c re) ZEBRA_ROUTE_IBGP
  = if first_nexthop_fib re && is_ibgp re
    then u32 (fib_cnt c ZEBRA_ROUTE_IBGP + 1)
    else fib_cnt c ZEBRA_ROUTE_IBGP.
Proof.
  intros Hv. unfold first_nexthop_fib.
  destruct (re_nexthop re) as [| nh rest] eqn:Hnh.
  - now rewrite prefix_entry_none.
  - rewrite (prefix_entry_first c re nh rest Hnh).
    now apply prefix_body_fib_ibgp.
Qed.

(** The per-protocol counters of the per-prefix summary in closed
    form. *)
Lemma summary_prefix_rib_type (table : route_table) (i : Z) :
  i <> ZEBRA_ROUTE_TOTAL -> i <> ZEBRA_ROUTE_IBGP ->
  rib_cnt (summary_prefix_count table) i
  = u32 (count (fun re => has_nexthop re && (re_type re =? i))
           (table_entries table)).
Proof.
  intros Ht Hi. unfold summary_prefix_count. rewrite walk_entries_flat.
  rewrite (fold_counts (fun c => rib_cnt c i) summary_prefix_entry
             (fun re => has_nexthop re && (re_type re =? i)));
    [reflexivity | | reflexivity].
  intros c re _. now apply prefix_entry_rib_type.
Qed.

Lemma summary_prefix_fib_type (table : route_table) (i : Z) :
  i <> ZEBRA_ROUTE_TOTAL -> i <> ZEBRA_ROUTE_IBGP ->
  fib_cnt (summary_prefix_count table) i
  = u32 (count (fun re => first_nexthop_fib re && (re_type re =? i))
           (table_entries table)).
Proof.
  intros Ht Hi. unfold summary_prefix_count. rewrite walk_entries_flat.
  rewrite (fold_counts (fun c => fib_cnt c i) summary_prefix_entry
             (fun re => first_nexthop_fib re && (re_type re =? i)));
    [reflexivity | | reflexivity].
  intros c re _. now apply prefix_entry_fib_type.
Qed.

Lemma summary_prefix_rib_ibgp (table : route_table) :
  all_valid table ->
  rib_cnt (summary_prefix_count table) ZEBRA_ROUTE_IBGP
  = u32 (count (fun re => has_nexthop re && is_ibgp re)
           (table_entries table)).
Proof.
  intros Hv. unfold summary_prefix_count. rewrite walk_entries_flat.
  rewrite (fold_counts (fun c => rib_cnt c ZEBRA_ROUTE_IBGP)
             summary_prefix_entry (fun re => has_nexthop re && is_ibgp re));
    [reflexivity | | reflexivity].
  intros c re Hin. apply prefix_entry_rib_ibgp. now apply Hv.
Qed.

Lemma summary_prefix_fib_ibgp (table : route_table) :
  all_valid table ->
  fib_cnt (summary_prefix_count table) ZEBRA_ROUTE_IBGP
  = u32 (count (fun re => first_nexthop_fib re && is_ibgp re)
           (table_entries table)).
Proof.
  intros Hv. unfold summary_prefix_count. rewrite walk_entries_flat.
  rewrite (fold_counts (fun c => fib_cnt c ZEBRA_ROUTE_IBGP)
             summary_prefix_entry
             (fun re => first_nexthop_fib re && is_ibgp re));
    [reflexivity | | reflexivity].
  intros c re Hin. apply prefix_entry_fib_ibgp. now apply Hv.
Qed.

Lemma bgp_not_total : ZEBRA_ROUTE_BGP <> ZEBRA_ROUTE_TOTAL.
Proof.
  pose proof route_bgp_range. unfold ZEBRA_ROUTE_TOTAL, ZEBRA_ROUTE_IBGP. lia.
Qed.

Lemma bgp_not_ibgp : ZEBRA_ROUTE_BGP <> ZEBRA_ROUTE_IBGP.
Proof. pose proof route_bgp_range. unfold ZEBRA_ROUTE_IBGP. lia. Qed.

Lemma ibgp_counts_le_bgp (P : route_entry -> bool) (l : list route_entry) :
  count (fun re => P re && is_ibgp re) l
  <= count (fun re => P re && (re_type re =? ZEBRA_ROUTE_BGP)) l.
Proof.
  apply count_mono. intros re _ H. unfold is_ibgp in H.
  apply andb_true_iff in H as [HP H]. apply andb_true_iff in H as [Ht _].
  now rewrite HP, Ht.
Qed.

End SummaryProofs.

(** ** The two summaries compared *)

Lemma upto_in (n i : Z) : 0 <= i < n -> In i (upto n).
Proof.
  intros H. unfold upto. apply in_map_iff. exists (Z.to_nat i). split.
  - apply Z2Nat.id. lia.
  - apply in_seq. lia.
Qed.

Section SummaryTheorems.
Context {K : zebra_consts}.

(** C1 (as amended). For a table whose entries have valid route types
    and number fewer than 2^31, the four totals are: per-route routes,
    the number of entries; per-prefix routes, the number of entries with
    a nexthop; per-route FIB, the number of selected entries; per-prefix
    FIB, the number of entries whose first nexthop is FIB-flagged. Hence
    the route total of the per-route summary is at least that of the
    per-prefix summary, and the two are equal exactly when no entry has
    an empty nexthop list; the FIB total of the per-route summary is at
    least that of the per-prefix summary when every entry whose first
    nexthop is FIB-flagged is selected, and the two are equal when an
    entry is selected exactly when its first nexthop is FIB-flagged. *)
Theorem summary_totals_compared (table : route_table) :
  all_valid table ->
  Z.of_nat (List.length (table_entries table)) < 2 ^ 31 ->
  let entries := table_entries table in
  (route_total table = Z.of_nat (List.length entries)
   /\ prefix_route_total table = count has_nexthop entries
   /\ fib_total table = count is_selected entries
   /\ prefix_fib_total table = count first_nexthop_fib entries)
  /\ prefix_route_total table <= route_total table
  /\ (route_total table = prefix_route_total table
      <-> forall re, In re entries -> re_nexthop re <> [])
  /\ ((forall re, In re entries ->
                  first_nexthop_fib re = true -> is_selected re = true) ->
      prefix_fib_total table <= fib_total table)
  /\ ((forall re, In re entries ->
                  is_selected re = first_nexthop_fib re) ->
      fib_total table = prefix_fib_total table).
Proof.
  intros Hv Hlen entries.
  unfold route_total, prefix_route_total, fib_total, prefix_fib_total.
  rewrite summary_rib_total, summary_fib_total, summary_prefix_rib_total,
    summary_prefix_fib_total by assumption.
  fold entries.
  pose proof (count_bounds has_nexthop entries) as Hn.
  pose proof (count_bounds is_selected entries) as Hs.
  pose proof (count_bounds first_nexthop_fib entries) as Hf.
  fold entries in Hlen.
  rewrite !as_int_small by lia.
  split; [repeat split |]. split; [lia |]. split; [split |]; [| | split].
  - intros Heq re Hin Hnil.
    symmetry in Heq. apply count_all with (x := re) in Heq; [| exact Hin].
    unfold has_nexthop in Heq. rewrite Hnil in Heq. discriminate.
  - intros Hall. symmetry. apply count_all. intros re Hin.
    specialize (Hall re Hin). unfold has_nexthop.
    destruct (re_nexthop re); [contradiction | reflexivity].
  - intros Himp. now apply count_mono.
  - intros Hsame. now apply count_ext.
Qed.

(** C2. The per-prefix summary counts an entry on its first nexthop
    alone. An entry with at least one nexthop runs the loop body once,
    on the first of them, whatever nexthops follow, and an entry without
    nexthops leaves the counters untouched. So, for a table with valid
    route types and fewer than 2^32 entries, after the walk the route
    total is the number of entries that have a nexthop and the FIB total
    the number of entries whose first nexthop is FIB-flagged; the
    counter of each route type and the iBGP counter hold the same two
    numbers among the entries of that type and among the internal BGP
    entries. When the BGP counter is positive the rows written for BGP
    are "ebgp", carrying the BGP counter minus the iBGP counter (the
    external BGP entries so counted), and "ibgp"; otherwise none. *)
Theorem summary_prefix_counts_first_nexthop (table : route_table) :
  all_valid table ->
  Z.of_nat (List.length (table_entries table)) < 2 ^ 32 ->
  let c := summary_prefix_count table in
  let routes := fun P : route_entry -> bool =>
    count (fun re => has_nexthop re && P re) (table_entries table) in
  let fibs := fun P : route_entry -> bool =>
    count (fun re => first_nexthop_fib re && P re) (table_entries table) in
  let of_type := fun (i : Z) (re : route_entry) => re_type re =? i in
  let is_ebgp := fun re : route_entry =>
    of_type ZEBRA_ROUTE_BGP re && negb (is_ibgp re) in
  (forall c0 re nh rest,
     re_nexthop re = nh :: rest ->
     summary_prefix_entry c0 re = prefix_nexthop_body re nh c0)
  /\ (forall c0 re,
        re_nexthop re = [] -> summary_prefix_entry c0 re = c0)
  /\ rib_cnt c ZEBRA_ROUTE_TOTAL = routes (fun _ => true)
  /\ fib_cnt c ZEBRA_ROUTE_TOTAL = fibs (fun _ => true)
  /\ (forall i, 0 <= i < ZEBRA_ROUTE_MAX ->
        rib_cnt c i = routes (of_type i) /\ fib_cnt c i = fibs (of_type i))
  /\ rib_cnt c ZEBRA_ROUTE_IBGP = routes is_ibgp
  /\ fib_cnt c ZEBRA_ROUTE_IBGP = fibs is_ibgp
  /\ rib_cnt c ZEBRA_ROUTE_BGP - rib_cnt c ZEBRA_ROUTE_IBGP = routes is_ebgp
  /\ fib_cnt c ZEBRA_ROUTE_BGP - fib_cnt c ZEBRA_ROUTE_IBGP = fibs is_ebgp
  /\ summary_prefix_rows c ZEBRA_ROUTE_BGP
     = (if 0 <? rib_cnt c ZEBRA_ROUTE_BGP then
          [summary_row "ebgp"
             (rib_cnt c ZEBRA_ROUTE_BGP - rib_cnt c ZEBRA_ROUTE_IBGP)
             (fib_cnt c ZEBRA_ROUTE_BGP - fib_cnt c ZEBRA_ROUTE_IBGP);
           summary_row "ibgp" (rib_cnt c ZEBRA_ROUTE_IBGP)
             (fib_cnt c ZEBRA_ROUTE_IBGP)]
        else [])
  /\ (forall it, In it (summary_prefix_rows c ZEBRA_ROUTE_BGP) ->
                 In it (vty_show_ip_route_summary_prefix table)).
Proof.
  intros Hv Hlen c routes fibs of_type is_ebgp.
  assert (Hnt : forall i, 0 <= i < ZEBRA_ROUTE_MAX ->
                          i <> ZEBRA_ROUTE_TOTAL /\ i <> ZEBRA_ROUTE_IBGP).
  { intros i Hi. unfold ZEBRA_ROUTE_TOTAL, ZEBRA_ROUTE_IBGP. lia. }
  assert (Htot : rib_cnt c ZEBRA_ROUTE_TOTAL = routes (fun _ => true)).
  { subst c routes. cbv beta.
    rewrite summary_prefix_rib_total, u32_count by assumption.
    apply count_ext. intros re _. now rewrite andb_true_r. }
  assert (Hfib : fib_cnt c ZEBRA_ROUTE_TOTAL = fibs (fun _ => true)).
  { subst c fibs. cbv beta.
    rewrite summary_prefix_fib_total, u32_count by assumption.
    apply count_ext. intros re _. now rewrite andb_true_r. }
  assert (Hty : forall i, 0 <= i < ZEBRA_ROUTE_MAX ->
                  rib_cnt c i = routes (of_type i)
                  /\ fib_cnt c i = fibs (of_type i)).
  { intros i Hi. destruct (Hnt i Hi) as [Ht Hib]. subst c routes fibs.
    cbv beta.
    rewrite summary_prefix_rib_type, summary_prefix_fib_type by assumption.
    now rewrite !u32_count by assumption. }
  assert (Hir : rib_cnt c ZEBRA_ROUTE_IBGP = routes is_ibgp).
  { subst c routes. cbv beta.
    now rewrite summary_prefix_rib_ibgp, u32_count by assumption. }
  assert (Hif : fib_cnt c ZEBRA_ROUTE_IBGP = fibs is_ibgp).
  { subst c fibs. cbv beta.
    now rewrite summary_prefix_fib_ibgp, u32_count by assumption. }
  destruct (Hty ZEBRA_ROUTE_BGP route_bgp_range) as [Hbr Hbf].
  assert (Hsplit : forall P : route_entry -> bool,
            count (fun re => P re && of_type ZEBRA_ROUTE_BGP re)
              (table_entries table)
            - count (fun re => P re && is_ibgp re) (table_entries table)
            = count (fun re => P re && is_ebgp re) (table_entries table)).
  { intros P.
    rewrite (count_split (fun re => P re && of_type ZEBRA_ROUTE_BGP re)
               is_ibgp).
    rewrite (count_ext
               (fun re => P re && of_type ZEBRA_ROUTE_BGP re && is_ibgp re)
               (fun re => P re && is_ibgp re)).
    - rewrite (count_ext
                 (fun re => P re && of_type ZEBRA_ROUTE_BGP re
                            && negb (is_ibgp re))
                 (fun re => P re && is_ebgp re)); [lia |].
      intros re _. subst is_ebgp. cbv beta. now rewrite andb_assoc.
    - intros re _. subst of_type. unfold is_ibgp. cbv beta.
      destruct (P re), (re_type re =? ZEBRA_ROUTE_BGP); reflexivity. }
  assert (Her : rib_cnt c ZEBRA_ROUTE_BGP - rib_cnt c ZEBRA_ROUTE_IBGP
                = routes is_ebgp).
  { rewrite Hbr, Hir. apply Hsplit. }
  assert (Hef : fib_cnt c ZEBRA_ROUTE_BGP - fib_cnt c ZEBRA_ROUTE_IBGP
                = fibs is_ebgp).
  { rewrite Hbf, Hif. apply Hsplit. }
  assert (Hcount : forall P : route_entry -> bool,
            0 <= count P (table_entries table) < 2 ^ 32).
  { intros P. pose proof (count_bounds P (table_entries table)). lia. }
  split.
  { intros c0 re nh rest Hnh. now apply (prefix_entry_first c0 re nh rest). }
  split; [intros c0 re Hnil; now apply prefix_entry_none |].
  split; [exact Htot |]. split; [exact Hfib |]. split; [exact Hty |].
  split; [exact Hir |]. split; [exact Hif |]. split; [exact Her |].
  split; [exact Hef |]. split.
  - unfold summary_prefix_rows. rewrite Z.eqb_refl.
    rewrite (u32_small (rib_cnt c ZEBRA_ROUTE_BGP
                        - rib_cnt c ZEBRA_ROUTE_IBGP))
      by (rewrite Her; apply Hcount).
    rewrite (u32_small (fib_cnt c ZEBRA_ROUTE_BGP
                        - fib_cnt c ZEBRA_ROUTE_IBGP))
      by (rewrite Hef; apply Hcount).
    reflexivity.
  - intros it Hin. unfold vty_show_ip_route_summary_prefix. fold c.
    right. apply in_or_app. left. apply in_flat_map.
    exists ZEBRA_ROUTE_BGP. split; [| exact Hin].
    apply upto_in. apply route_bgp_range.
Qed.

End SummaryTheorems.

(** Witness of C1 on the sample table. *)
Lemma summary_totals_compared_witness :
  all_valid (K := sample_consts) sample_table
  /\ Z.of_nat (List.length (table_entries sample_table)) < 2 ^ 31
  /\ prefix_route_total (K := sample_consts) sample_table
     <= route_total (K := sample_consts) sample_table.
Proof.
  assert (Hv : all_valid (K := sample_consts) sample_table).
  { intros re [<- | []]. unfold valid_type. simpl. lia. }
  assert (Hl : Z.of_nat (List.length (table_entries sample_table)) < 2 ^ 31).
  { simpl. lia. }
  split; [exact Hv | split; [exact Hl |]].
  exact (proj1 (proj2 (summary_totals_compared (K := sample_consts)
                         sample_table Hv Hl))).
Defined.

(** C1 as stated fails: in this table no entry has two nexthops, yet the
    per-route FIB total is 1 (the entry is selected) and the per-prefix
    FIB total is 0 (its nexthop is not FIB-flagged). *)
Lemma summary_invariant_fails :
  ~ summary_invariant (K := sample_consts) pending_table.
Proof.
  intros [_ Heq].
  assert (Hno : ~ has_multipath pending_table).
  { intros [re [Hin Hlen]]. simpl in Hin. destruct Hin as [<- | []].
    simpl in Hlen. lia. }
  destruct (Heq Hno) as [_ Hfib]. vm_compute in Hfib. discriminate.
Qed.

(** The inequality fails too: with two nexthops on an unselected entry
    whose first nexthop is FIB-flagged, the per-prefix FIB total exceeds
    the per-route one. *)
Remark summary_fib_order_fails :
  has_multipath multipath_table
  /\ fib_total (K := sample_consts) multipath_table = 0
  /\ prefix_fib_total (K := sample_consts) multipath_table = 1.
Proof.
  split; [| split; reflexivity].
  exists sample_unselected. split; [now left | simpl; lia].
Qed.

(** Witness of C2 on a table with an entry of two nexthops, an entry
    without nexthops, an internal and an external BGP route: three
    routes and two FIB routes are counted, and the "ebgp" row carries
    one route and no FIB route. *)
Lemma summary_prefix_counts_first_nexthop_witness :
  all_valid (K := sample_consts) ecmp_table
  /\ Z.of_nat (List.length (table_entries ecmp_table)) < 2 ^ 32
  /\ rib_cnt (summary_prefix_count (K := sample_consts) ecmp_table)
       (ZEBRA_ROUTE_TOTAL (K := sample_consts)) = 3
  /\ fib_cnt (summary_prefix_count (K := sample_consts) ecmp_table)
       (ZEBRA_ROUTE_TOTAL (K := sample_consts)) = 2
  /\ In (summary_row "ebgp" 1 0)
       (vty_show_ip_route_summary_prefix (K := sample_consts) ecmp_table).
Proof.
  assert (Hv : all_valid (K := sample_consts) ecmp_table).
  { intros re [<- | [<- | [<- | [<- | []]]]]; unfold valid_type; simpl; lia. }
  assert (Hl : Z.of_nat (List.length (table_entries ecmp_table)) < 2 ^ 32).
  { simpl. lia. }
  pose proof (summary_prefix_counts_first_nexthop (K := sample_consts)
                ecmp_table Hv Hl) as H.
  cbv zeta in H.
  destruct H as [_ [_ [Hr [Hf [_ [_ [_ [_ [_ [Hrows Hin]]]]]]]]]].
  split; [exact Hv | split; [exact Hl |]].
  split; [exact Hr | split; [exact Hf |]].
  apply Hin. rewrite Hrows. left. reflexivity.
Defined.

(** ** The vty monad *)

Lemma bind_pass {A B : Type} (a : A) (k : A -> vty_res B) :
  vty_bind (pass a) k = k a.
Proof. unfold vty_bind, pass. destruct (k a); reflexivity. Qed.

Lemma bind_return {A B : Type} (r : cmd_ret) (o : list vty_item)
    (k : A -> vty_res B) :
  vty_bind (Return r o) k = Return r o.
Proof. reflexivity. Qed.

Lemma config_failed_eq {A : Type} (msg : string) :
  @config_failed A msg = Return CMD_WARNING_CONFIG_FAILED [Text msg].
Proof. reflexivity. Qed.

Lemma find_app {A : Type} (f : A -> bool) (l1 l2 : list A) :
  find f (l1 ++ l2)
  = match find f l1 with
    | Some x => Some x
    | None => find f l2
    end.
Proof.
  induction l1 as [| x l1 IH]; simpl; [reflexivity |].
  destruct (f x); [reflexivity | exact IH].
Qed.

(** ** Case-insensitive comparison *)

Lemma tolower_zero (c : ascii) : tolower c = 0 -> c = zero.
Proof.
  unfold tolower. intros H.
  assert (HN : N_of_ascii c = 0%N).
  { destruct ((65 <=? Z.of_N (N_of_ascii c))
              && (Z.of_N (N_of_ascii c) <=? 90)) eqn:Hc; [| lia].
    apply andb_prop in Hc. destruct Hc as [Hc _].
    apply Z.leb_le in Hc. lia. }
  rewrite <- (ascii_N_embedding c), HN. reflexivity.
Qed.

(** On C strings the test of line 174 is the case-insensitive prefix
    relation. *)
Lemma strncasecmp_prefix (s t : string) :
  c_string s -> (strncasecmp s t (strlen s) =? 0) = ci_prefix s t.
Proof.
  revert t. induction s as [| c s IH]; intros t Hs.
  - reflexivity.
  - destruct Hs as [Hc Hs]. destruct t as [| d t]; simpl.
    + apply Z.eqb_neq. intros H. apply Hc, tolower_zero. lia.
    + destruct (Z.eqb_spec (tolower c - tolower d) 0) as [H0 | H0].
      * replace (tolower c =? tolower d) with true
          by (symmetry; apply Z.eqb_eq; lia).
        simpl. apply IH, Hs.
      * replace (tolower c =? tolower d) with false
          by (symmetry; apply Z.eqb_neq; lia).
        simpl. now apply Z.eqb_neq.
Qed.

(** A case-insensitive prefix always passes the test, NUL or not. *)
Lemma prefix_strncasecmp (s t : string) :
  ci_prefix s t = true -> strncasecmp s t (strlen s) = 0.
Proof.
  revert t. induction s as [| c s IH]; intros t H.
  - reflexivity.
  - destruct t as [| d t]; simpl in H; [discriminate |].
    apply andb_prop in H. destruct H as [Hcd Hrest].
    apply Z.eqb_eq in Hcd. simpl. rewrite Hcd, Z.sub_diag. simpl.
    now apply IH.
Qed.

Lemma null0_test_prefix (name : string) :
  ci_prefix name "Null0" = true -> null0_test name = true.
Proof.
  intros H. unfold null0_test. rewrite (prefix_strncasecmp _ _ H).
  reflexivity.
Qed.

Lemma null0_test_c_string (name : string) :
  c_string name -> null0_test name = ci_prefix name "Null0".
Proof. apply strncasecmp_prefix. Qed.

(** ** Flags *)

Lemma check_flag_zero (f : Z) : CHECK_FLAG 0 f = false.
Proof. unfold CHECK_FLAG. now rewrite Z.land_0_l. Qed.

Lemma check_flag_self (f : Z) : f <> 0 -> CHECK_FLAG f f = true.
Proof.
  intros H. unfold CHECK_FLAG. rewrite Z.land_diag.
  apply negb_true_iff. now apply Z.eqb_neq.
Qed.

Lemma set_flag_zero (f : Z) : SET_FLAG 0 f = f.
Proof. apply Z.lor_0_l. Qed.

(** Runs the binds of a computation whose branches are all known. *)
Ltac run_vty :=
  unfold static_route_flags, config_failed;
  unfold pass, vty_out, leave;
  cbn [vty_bind n_type n_flag n_ifindex n_ifname n_gatep fst snd app];
  rewrite ?set_flag_zero.

(** ** Static routes: the checks, stage by stage *)

Section StaticStages.
Context {K : zebra_consts} {E : zebra_env}.

Lemma silent_stage_bind {A B : Type} (a : static_args)
    (l1 l2 : list check) (m : vty_res A) (k : A -> vty_res B) :
  silent_stage a l1 m ->
  (forall x, silent_stage a l2 (k x)) ->
  silent_stage a (l1 ++ l2) (vty_bind m k).
Proof.
  unfold silent_stage, first_failing. intros Hm Hk. rewrite find_app.
  destruct (find (check_fails a) l1) as [c |].
  - now rewrite Hm.
  - destruct Hm as [x ->]. fold (pass x). rewrite bind_pass. apply Hk.
Qed.

Lemma stage_bind {A B : Type} (a : static_args) (l1 l2 : list check)
    (m : vty_res A) (k : A -> vty_res B) :
  silent_stage a l1 m ->
  (forall x, stage a l2 (k x)) ->
  stage a (l1 ++ l2) (vty_bind m k).
Proof.
  unfold silent_stage, stage, first_failing. intros Hm Hk.
  rewrite find_app.
  destruct (find (check_fails a) l1) as [c |].
  - now rewrite Hm.
  - destruct Hm as [x ->]. fold (pass x). rewrite bind_pass. apply Hk.
Qed.

Lemma silent_stage_pass {A : Type} (a : static_args) (x : A) :
  silent_stage a [] (pass x).
Proof. now exists x. Qed.

Lemma stage_destination (a : static_args) :
  silent_stage a [ChkDestination]
    (match str2prefix (dest_str a) with
     | None => config_failed msg_malformed_address
     | Some p => pass p
     end).
Proof.
  unfold silent_stage, first_failing. simpl.
  destruct (str2prefix (dest_str a)) as [p |]; [now exists p | reflexivity].
Qed.

Lemma stage_afi_switch (a : static_args) (p : prefix) :
  silent_stage a [ChkMask; ChkSource] (static_afi_switch a p).
Proof.
  unfold silent_stage, first_failing, static_afi_switch. simpl.
  destruct (afi a).
  - destruct (mask_str a) as [m |]; [| eexists; reflexivity].
    destruct (inet_aton m); [eexists; reflexivity | reflexivity].
  - destruct (src_str a) as [s |]; [| eexists; reflexivity].
    destruct (str2prefix s) as [src |]; [| reflexivity].
    destruct (family_eqb (family src) AF_INET6);
      [eexists; reflexivity | reflexivity].
  - eexists; reflexivity.
Qed.

Lemma stage_vrf (a : static_args) :
  silent_stage a [ChkVrf]
    (match zebra_vrf_lookup_by_name (vrf_id_str a) with
     | None => config_failed (msg_vrf_undefined (vrf_id_str a))
     | Some z => pass z
     end).
Proof.
  unfold silent_stage, first_failing. simpl.
  destruct (zebra_vrf_lookup_by_name (vrf_id_str a)) as [z |];
    [now exists z | reflexivity].
Qed.

Lemma stage_labels (a : static_args) :
  silent_stage a [ChkMpls; ChkLabels] (static_labels a).
Proof.
  unfold silent_stage, first_failing, static_labels, check_report. simpl.
  destruct (label_str a) as [l |]; [| eexists; reflexivity].
  destruct mpls_enabled; simpl; [| reflexivity].
  destruct (mpls_str2label l) as [rc snh]. simpl.
  destruct (rc <? 0); [| eexists; reflexivity].
  destruct (rc =? -1); [reflexivity |].
  destruct (rc =? -2); [reflexivity |].
  destruct (rc =? -3); reflexivity.
Qed.

Lemma stage_validate (a : static_args) :
  silent_stage a early_checks (static_route_validate a).
Proof.
  unfold static_route_validate.
  apply (silent_stage_bind a [ChkDestination]
           [ChkMask; ChkSource; ChkVrf; ChkMpls; ChkLabels]);
    [apply stage_destination | intros p].
  apply (silent_stage_bind a [ChkMask; ChkSource]
           [ChkVrf; ChkMpls; ChkLabels]);
    [apply stage_afi_switch | intros ps].
  apply (silent_stage_bind a [ChkVrf] [ChkMpls; ChkLabels]);
    [apply stage_vrf | intros zvrf].
  apply (silent_stage_bind a [ChkMpls; ChkLabels] []);
    [apply stage_labels | intros snh].
  apply silent_stage_pass.
Qed.

Lemma stage_null0 (a : static_args) :
  silent_stage a [ChkNull0Flag] (static_null0 (ifname a) (flag_str a)).
Proof.
  unfold silent_stage, first_failing, static_null0, check_report. simpl.
  destruct (ifname a) as [n |]; [| eexists; reflexivity].
  destruct (flag_str a) as [f |].
  - destruct (null0_test n); [reflexivity | eexists; reflexivity].
  - destruct (null0_test n); eexists; reflexivity.
Qed.

Lemma stage_flags (a : static_args) (flag : Z) :
  silent_stage a [ChkFlag] (static_route_flags flag (flag_str a)).
Proof.
  unfold silent_stage, first_failing, static_route_flags, check_report. simpl.
  destruct (flag_str a) as [f |]; [| eexists; reflexivity].
  destruct f as [| c f]; [reflexivity |]. simpl.
  destruct (Ascii.eqb c "r"), (Ascii.eqb c "R"), (Ascii.eqb c "b"),
    (Ascii.eqb c "B"); simpl; try (eexists; reflexivity); reflexivity.
Qed.

Lemma stage_gateway (a : static_args) :
  silent_stage a [ChkNexthop]
    (match gate_str a with
     | Some g =>
         match inet_pton (afi2family (afi a)) g with
         | None => config_failed (msg_malformed_nexthop g)
         | Some gate => pass (Some gate)
         end
     | None => pass None
     end).
Proof.
  unfold silent_stage, first_failing, check_report. simpl.
  destruct (gate_str a) as [g |]; [| eexists; reflexivity].
  destruct (inet_pton (afi2family (afi a)) g);
    [eexists; reflexivity | reflexivity].
Qed.

(** The interface lookup never leaves the function. *)
Lemma stage_interface {B : Type} (a : static_args) (zvrf : zebra_vrf)
    (name : option string) (k : Z -> B) :
  stage (A := B) a []
    (ifindex <- match name with
                | Some n =>
                    match if_lookup_by_name n (zvrf_id zvrf) with
                    | None =>
                        vty_out (msg_malformed_ifname n) ;;;
                        pass IFINDEX_DELETED
                    | Some ifp => pass (ifp_ifindex ifp)
                    end
                | None => pass 0
                end ;;
     pass (k ifindex)).
Proof.
  unfold stage, first_failing. simpl.
  destruct name as [n |]; [| eexists; eexists; reflexivity].
  destruct (if_lookup_by_name n (zvrf_id zvrf));
    eexists; eexists; reflexivity.
Qed.

Lemma stage_nexthop (a : static_args) (zvrf : zebra_vrf) :
  stage a late_checks
    (static_route_nexthop (afi a) (gate_str a) (ifname a) (flag_str a)
       zvrf).
Proof.
  unfold static_route_nexthop.
  apply (stage_bind a [ChkNull0Flag] [ChkFlag; ChkNexthop]);
    [apply stage_null0 | intros fi].
  apply (stage_bind a [ChkFlag] [ChkNexthop]);
    [apply stage_flags | intros flag].
  apply (stage_bind a [ChkNexthop] []);
    [apply stage_gateway | intros gatep].
  apply (stage_interface a zvrf (snd fi)
           (fun ifindex =>
              {| n_flag := flag; n_ifname := snd fi; n_gatep := gatep;
                 n_ifindex := ifindex;
                 n_type := static_type_of (afi a) (gate_str a) (snd fi) |})).
Qed.

Lemma stage_body (a : static_args) :
  stage a code_order (static_route_body a).
Proof.
  unfold static_route_body.
  apply (stage_bind a early_checks late_checks);
    [apply stage_validate | intros v].
  pose proof (stage_nexthop a (v_zvrf v)) as Hn.
  unfold stage in *.
  destruct (first_failing late_checks a) as [c |].
  - now rewrite Hn.
  - destruct Hn as [n [o ->]]. eexists; eexists. reflexivity.
Qed.

End StaticStages.

(** ** Static routes: validation order and classification *)

Section StaticTheorems.
Context {K : zebra_consts} {E : zebra_env}.

(** The checks as the function runs them, whatever the arguments: the
    first failing check of [code_order] decides the result, and without
    one the call succeeds with its one request. *)
Lemma static_route_checks (a : static_args) :
  match first_failing code_order a with
  | Some c => zebra_static_route a = rejected_by a c
  | None =>
      sr_ret (zebra_static_route a) = CMD_SUCCESS
      /\ exists rq, sr_rib (zebra_static_route a) = [rq]
  end.
Proof.
  pose proof (stage_body a) as Hb. unfold stage in Hb.
  unfold zebra_static_route.
  destruct (first_failing code_order a) as [c |].
  - now rewrite Hb.
  - destruct Hb as [rq [o ->]]. cbn [sr_ret sr_rib].
    split; [reflexivity | now exists rq].
Qed.

(** Without a flag token, or without an interface name, the check of a
    flag given with Null0 cannot fail, and the order of the code is the
    order of the specification. *)
Lemma command_args_order (a : static_args) :
  command_args a ->
  first_failing code_order a = first_failing spec_order a.
Proof.
  intros Ha.
  assert (Hn : check_fails a ChkNull0Flag = false).
  { cbn [check_fails]. destruct Ha as [-> | ->]; [| reflexivity].
    now destruct (ifname a). }
  unfold first_failing, code_order, spec_order. cbn [find].
  now rewrite Hn.
Qed.

(** The three commands call the function with such arguments. *)
Lemma ip_route_command_args (no : option string) (prefix : string)
    (mask_str : option string) (nh : route_nexthop_arg)
    (tag_str distance_str vrf label : option string) :
  command_args
    (ip_route_args no prefix mask_str nh tag_str distance_str vrf label).
Proof. destruct nh; [left | left | right]; reflexivity. Qed.

Lemma ipv6_route_command_args (no : option string) (prefix_str : string)
    (from_str : option string) (nh : route_nexthop_arg)
    (tag_str distance_str vrf label : option string) :
  command_args
    (ipv6_route_args no prefix_str from_str nh tag_str distance_str vrf
       label).
Proof. destruct nh; [left | left | right]; reflexivity. Qed.

Lemma ip_mroute_command_args (no : option string) (prefix_str : string)
    (gate ifn distance : option string) :
  exists a, command_args a
            /\ ip_mroute_dist no prefix_str gate ifn distance
               = zebra_static_route a.
Proof. eexists. split; [| reflexivity]. now left. Qed.

(** C3. For the arguments the commands pass (never a flag token together
    with an interface name), the checks run in the order of the
    specification: malformed destination, malformed mask, malformed
    IPv6 source, undefined VRF, MPLS disabled, label errors, malformed
    flag, malformed nexthop address. The first check of that order that
    fails alone determines the result: its report is the whole output,
    the call returns a config-failure result and sends nothing to the
    RIB. When none fails the call succeeds with exactly one request, so
    a call that does not succeed has a failing check, returns the
    config-failure result and sends nothing. *)
Theorem static_route_validation_order (a : static_args) :
  command_args a ->
  (forall c, first_failing spec_order a = Some c ->
             zebra_static_route a = rejected_by a c)
  /\ (first_failing spec_order a = None ->
      sr_ret (zebra_static_route a) = CMD_SUCCESS
      /\ exists rq, sr_rib (zebra_static_route a) = [rq])
  /\ (sr_ret (zebra_static_route a) <> CMD_SUCCESS ->
      sr_ret (zebra_static_route a) = CMD_WARNING_CONFIG_FAILED
      /\ sr_rib (zebra_static_route a) = []
      /\ exists c, In c spec_order
                   /\ first_failing spec_order a = Some c).
Proof.
  intros Ha. pose proof (static_route_checks a) as Hb.
  rewrite (command_args_order a Ha) in Hb.
  destruct (first_failing spec_order a) as [c |] eqn:Hc.
  - split; [| split].
    + intros c' Hc'. injection Hc' as <-. exact Hb.
    + discriminate.
    + intros _. rewrite Hb. cbn [rejected_by sr_ret sr_rib].
      split; [reflexivity | split; [reflexivity |]].
      exists c. split; [| reflexivity].
      unfold first_failing in Hc. now apply find_some in Hc.
  - split; [| split].
    + discriminate.
    + intros _. exact Hb.
    + intros Hret. now destruct Hb as [Hok _].
Qed.

(** Runs lines 184-235 once the Null0 test and the flag letters are
    settled: either the gateway text does not parse and the function
    leaves, or it goes on with the locals in the goal. *)
Ltac settle_nexthop afi gate :=
  let g := fresh "g" in
  destruct gate as [g |];
  [destruct (inet_pton (afi2family afi) g) |];
  run_vty;
  try match goal with
      | |- context [if_lookup_by_name ?n ?v] =>
          destruct (if_lookup_by_name n v)
      end;
  run_vty;
  try (eexists; reflexivity);
  eexists; eexists; (split; [reflexivity |]);
  cbn [n_type n_flag n_ifname n_gatep given rule_type static_type_of];
  destruct afi; repeat split; reflexivity.

(** C4 (as amended). Lines 172-235 decide the nexthop of a static route
    as a total function of AFI, gateway text, interface name (a C
    string) and flag token: they either leave with a config-failure
    result or go on with the static type, the flag word, the interface
    name and the gateway that [nexthop_rules] gives. An interface name
    that is, up to case, a prefix of "Null0" counts as Null0: with a
    flag token it is an error, otherwise it sets the blackhole flag and
    clears the name. Otherwise a flag token sets the reject flag for a
    first letter r or R, the blackhole flag for b or B, and is an error
    for any other text. A gateway text that does not parse for the AFI
    is an error. The static type follows from the gateway and the
    interface name that is left, whatever the flag: a gateway together
    with "Null0" or an abbreviation of it is a gateway route that
    carries the blackhole flag. *)
Theorem static_nexthop_classification (afi : afi_t)
    (gate ifname flag : option string) (zvrf : zebra_vrf) :
  (forall n, ifname = Some n -> c_string n) ->
  match nexthop_rules afi gate ifname flag with
  | Some (type, word, kept) =>
      exists n o,
        static_route_nexthop afi gate ifname flag zvrf = Continue n o
        /\ n_type n = type
        /\ n_flag n = word
        /\ n_ifname n = kept
        /\ n_gatep n = match gate with
                       | Some g => inet_pton (afi2family afi) g
                       | None => None
                       end
  | None =>
      exists o,
        static_route_nexthop afi gate ifname flag zvrf
        = Return CMD_WARNING_CONFIG_FAILED o
  end.
Proof.
  intros Hc.
  assert (Hnull : forall n, ifname = Some n ->
                            null0_test n = ci_prefix n "Null0").
  { intros n Hn. apply null0_test_c_string, Hc, Hn. }
  unfold nexthop_rules, rule_flag, flag_class, gateway_parses,
    static_route_nexthop, static_null0.
  destruct ifname as [n |].
  - rewrite <- (Hnull n eq_refl). clear Hnull Hc.
    destruct (null0_test n).
    + destruct flag as [f |]; [run_vty; eexists; reflexivity |].
      settle_nexthop afi gate.
    + destruct flag as [f |]; [| settle_nexthop afi gate].
      destruct f as [| c f]; [run_vty; eexists; reflexivity |].
      unfold static_route_flags.
      destruct (Ascii.eqb c "r" || Ascii.eqb c "R")%bool;
        [settle_nexthop afi gate |].
      destruct (Ascii.eqb c "b" || Ascii.eqb c "B")%bool;
        [settle_nexthop afi gate | run_vty; eexists; reflexivity].
  - clear Hnull Hc.
    destruct flag as [f |]; [| settle_nexthop afi gate].
    destruct f as [| c f]; [run_vty; eexists; reflexivity |].
    unfold static_route_flags.
    destruct (Ascii.eqb c "r" || Ascii.eqb c "R")%bool;
      [settle_nexthop afi gate |].
    destruct (Ascii.eqb c "b" || Ascii.eqb c "B")%bool;
      [settle_nexthop afi gate | run_vty; eexists; reflexivity].
Qed.

End StaticTheorems.

(** Witness of C3: [ip route 10.0.0.0/8 192.0.2.1 vrf red label 16]
    where the VRF red is not defined and MPLS is off. Two checks fail;
    the VRF comes first in the order and is what is reported. *)
Lemma static_route_validation_order_witness :
  command_args sample_route_red
  /\ check_fails (E := sample_env) sample_route_red ChkMpls = true
  /\ zebra_static_route (K := sample_consts) (E := sample_env)
       sample_route_red
     = {| sr_ret := CMD_WARNING_CONFIG_FAILED;
          sr_out := [Text (msg_vrf_undefined (Some "red"%string))];
          sr_rib := [] |}.
Proof.
  assert (Ha : command_args sample_route_red)
    by apply ip_route_command_args.
  split; [exact Ha | split; [reflexivity |]].
  exact (proj1 (static_route_validation_order (K := sample_consts)
                  (E := sample_env) sample_route_red Ha)
           ChkVrf eq_refl).
Defined.

(** The restriction to the arguments of the commands matters: called
    with the interface Null0, the flag "reject" and a gateway text that
    does not parse, which no command passes, the function reports the
    flag given with Null0, a check the specified order does not have. *)
Remark null0_flag_check_outside_commands :
  let a := sample_args (Some "bogus"%string) (Some "Null0"%string)
             (Some "reject"%string) in
  ~ command_args a
  /\ first_failing (E := sample_env) spec_order a = Some ChkNexthop
  /\ zebra_static_route (K := sample_consts) (E := sample_env) a
     = rejected_by (K := sample_consts) (E := sample_env) a ChkNull0Flag.
Proof.
  cbv zeta. split; [| split; reflexivity].
  intros [H | H]; discriminate H.
Qed.

(** C4 as stated fails: the interface name "nu" is not Null0 up to case,
    so the specified rules make the route InterfaceOnly, but the code
    clears the name and sends a blackhole route with the blackhole
    flag. *)
Lemma classification_spec_fails :
  classify_spec AFI_IP None (Some "nu"%string) None = Some NhInterfaceOnly
  /\ static_route_nexthop (K := sample_consts) (E := sample_env) AFI_IP
       None (Some "nu"%string) None default_zvrf
     = Continue
         {| n_flag := ZEBRA_FLAG_BLACKHOLE (zebra_consts := sample_consts);
            n_ifname := None; n_gatep := None; n_ifindex := 0;
            n_type := STATIC_BLACKHOLE |} [].
Proof. split; reflexivity. Qed.

(** Witness of C4: a gateway together with the abbreviation "nu" is a
    gateway route with the blackhole flag and no interface name. *)
Lemma static_nexthop_classification_witness :
  (forall n, Some "nu"%string = Some n -> c_string n)
  /\ exists n o,
       static_route_nexthop (K := sample_consts) (E := sample_env) AFI_IP
         (Some "192.0.2.1"%string) (Some "nu"%string) None default_zvrf
       = Continue n o
       /\ n_type n = STATIC_IPV4_GATEWAY
       /\ n_flag n = ZEBRA_FLAG_BLACKHOLE (zebra_consts := sample_consts)
       /\ n_ifname n = None
       /\ n_gatep n = Some (192 * 2 ^ 24 + 2 * 2 ^ 8 + 1).
Proof.
  assert (Hc : forall n, Some "nu"%string = Some n -> c_string n).
  { intros n Hn. injection Hn as <-. simpl. repeat split; discriminate. }
  split; [exact Hc |].
  exact (static_nexthop_classification (K := sample_consts)
           (E := sample_env) AFI_IP (Some "192.0.2.1"%string)
           (Some "nu"%string) None default_zvrf Hc).
Defined.

(** ** Static routes: unresolved interfaces and Null0 abbreviations *)

Lemma bind_continue {A B : Type} (m : vty_res A) (k : A -> vty_res B)
    (b : B) (o : list vty_item) :
  vty_bind m k = Continue b o ->
  exists a o1 o2, m = Continue a o1 /\ k a = Continue b o2 /\ o = o1 ++ o2.
Proof.
  unfold vty_bind. destruct m as [a o1 | r o1]; [| discriminate].
  destruct (k a) as [b' o2 | r o2] eqn:Hk; [| discriminate].
  intros H. injection H as <- <-. now exists a, o1, o2.
Qed.

Section StaticInterface.
Context {K : zebra_consts} {E : zebra_env}.


Lemma validate_with_ifname (a : static_args) (n : option string) :
  static_route_validate (with_ifname a n) = static_route_validate a.
Proof. reflexivity. Qed.


(** C10. An interface name that is, up to case, a prefix of "Null0"
    (such as "n", "nu" or "NUL") is treated exactly as "Null0", whatever
    the other arguments: the call has the same result, and that result
    is the following. A failing check of lines 87-170 is reported as
    ever. Otherwise a flag token is rejected: the call writes that a
    flag cannot go with Null0, returns the config-failure result and
    sends nothing. Otherwise a gateway text that does not parse is
    rejected. Otherwise the call succeeds, writes nothing and sends one
    request, for a route with the blackhole flag, no interface name,
    interface index 0 and the type its gateway alone gives: the
    blackhole type without a gateway. *)
Theorem null0_abbreviation (a : static_args) (name : string) :
  ci_prefix name "Null0"%string = true ->
  let call := zebra_static_route (with_ifname a (Some name)) in
  call = zebra_static_route (with_ifname a (Some "Null0"%string))
  /\ match first_failing early_checks a, flag_str a with
     | Some c, _ => call = rejected_by a c
     | None, Some f =>
         call = {| sr_ret := CMD_WARNING_CONFIG_FAILED;
                   sr_out := [Text (msg_null0_flag f)];
                   sr_rib := [] |}
     | None, None =>
         if check_fails a ChkNexthop then call = rejected_by a ChkNexthop
         else
           exists v,
             static_route_validate a = Continue v []
             /\ call
                = {| sr_ret := CMD_SUCCESS;
                     sr_out := [];
                     sr_rib :=
                       [static_request a v
                          {| n_flag := ZEBRA_FLAG_BLACKHOLE;
                             n_ifname := None;
                             n_gatep :=
                               match gate_str a with
                               | Some g => inet_pton (afi2family (afi a)) g
                               | None => None
                               end;
                             n_ifindex := 0;
                             n_type :=
                               static_type_of (afi a) (gate_str a) None |}]
                  |}
     end.
Proof.
  intros Hp call. subst call.
  assert (Hn : null0_test name = true) by now apply null0_test_prefix.
  assert (H0 : null0_test "Null0"%string = true) by reflexivity.
  split.
  - unfold zebra_static_route, static_route_body.
    rewrite !validate_with_ifname.
    cbn [with_ifname afi gate_str ifname flag_str].
    unfold static_route_nexthop, static_null0. rewrite Hn, H0.
    reflexivity.
  - pose proof (stage_validate a) as Hv. unfold silent_stage in Hv.
    unfold zebra_static_route, static_route_body.
    rewrite validate_with_ifname.
    destruct (first_failing early_checks a) as [c |].
    + now rewrite Hv.
    + destruct Hv as [v Hv]. rewrite Hv. fold (pass v). rewrite bind_pass.
      cbn [with_ifname afi gate_str ifname flag_str].
      unfold static_route_nexthop, static_null0. rewrite Hn.
      destruct (flag_str a) as [f |]; [reflexivity |].
      unfold rejected_by, static_request.
      cbn [check_fails check_report with_ifname afi safi negate].
      destruct (gate_str a) as [g |].
      * destruct (inet_pton (afi2family (afi a)) g) as [gate |].
        -- exists v. split; [reflexivity |]. run_vty. reflexivity.
        -- run_vty. reflexivity.
      * exists v. split; [reflexivity |]. run_vty. reflexivity.
Qed.

End StaticInterface.


(** Witness of C10: [ip route 10.0.0.0/8 192.0.2.1 nu] sends a gateway
    route with the blackhole flag and without interface name. *)
Lemma null0_abbreviation_witness :
  ci_prefix "nu"%string "Null0"%string = true
  /\ zebra_static_route (K := sample_consts) (E := sample_env)
       (with_ifname (sample_args (Some "192.0.2.1"%string) None None)
          (Some "nu"%string))
     = {| sr_ret := CMD_SUCCESS;
          sr_out := [];
          sr_rib :=
            [static_add_route AFI_IP SAFI_UNICAST STATIC_IPV4_GATEWAY
               net10 None (Some (192 * 2 ^ 24 + 2 * 2 ^ 8 + 1)) 0 None
               (ZEBRA_FLAG_BLACKHOLE (zebra_consts := sample_consts)) 0 1
               default_zvrf {| num_labels := 0; label := [] |}] |}.
Proof.
  split; [reflexivity |].
  destruct (proj2 (null0_abbreviation (K := sample_consts)
                     (E := sample_env)
                     (sample_args (Some "192.0.2.1"%string) None None)
                     "nu"%string eq_refl)) as [v [Hv Hcall]].
  injection Hv as <-. exact Hcall.
Defined.

(** ** Address classes *)

Lemma land_shiftl_mask (a m n : Z) :
  0 <= n ->
  Z.land a (Z.shiftl m n) = Z.shiftl (Z.land (Z.shiftr a n) m) n.
Proof.
  intros Hn. apply Z.bits_inj'. intros i Hi.
  rewrite Z.land_spec.
  destruct (Z.lt_ge_cases i n) as [Hlt | Hge].
  - rewrite !Z.shiftl_spec_low by assumption. apply andb_false_r.
  - rewrite !Z.shiftl_spec by assumption.
    rewrite Z.land_spec, Z.shiftr_spec by lia.
    now replace (i - n + n) with i by lia.
Qed.

(** The top three bits of a 32-bit address. *)
Lemma top3_cases (a : Z) :
  0 <= a < 2 ^ 32 ->
  let q := Z.shiftr a 29 in
  (q = 0 \/ q = 1 \/ q = 2 \/ q = 3 \/ q = 4 \/ q = 5 \/ q = 6 \/ q = 7)
  /\ q * 2 ^ 29 <= a < (q + 1) * 2 ^ 29.
Proof.
  intros Ha q. subst q. rewrite Z.shiftr_div_pow2 by lia.
  pose proof (Z.div_mod a (2 ^ 29) ltac:(lia)) as Hdm.
  pose proof (Z.mod_pos_bound a (2 ^ 29) ltac:(lia)) as Hm.
  assert (0 <= a / 2 ^ 29 < 8).
  { split; [apply Z.div_pos; lia | apply Z.div_lt_upper_bound; lia]. }
  split; lia.
Qed.

Ltac class_cases a Ha :=
  let q := fresh "q" in
  let Hq := fresh "Hq" in
  let Hb := fresh "Hb" in
  destruct (top3_cases a Ha) as [Hq Hb];
  set (q := Z.shiftr a 29) in *;
  destruct Hq as [Hq | [Hq | [Hq | [Hq | [Hq | [Hq | [Hq | Hq]]]]]]];
  rewrite Hq in *; cbn.

Lemma in_classa_range (a : Z) :
  0 <= a < 2 ^ 32 -> IN_CLASSA a = (a <? 128 * 2 ^ 24).
Proof.
  intros Ha. unfold IN_CLASSA.
  change 0x80000000 with (Z.shiftl 4 29).
  rewrite land_shiftl_mask by lia.
  class_cases a Ha; symmetry;
    first [apply Z.ltb_lt; lia | apply Z.ltb_ge; lia].
Qed.

Lemma in_classb_range (a : Z) :
  0 <= a < 2 ^ 32 ->
  IN_CLASSB a = (128 * 2 ^ 24 <=? a) && (a <? 192 * 2 ^ 24).
Proof.
  intros Ha. unfold IN_CLASSB.
  change 0xc0000000 with (Z.shiftl 6 29).
  rewrite land_shiftl_mask by lia.
  class_cases a Ha; symmetry;
    first [ apply andb_true_iff; split; [apply Z.leb_le | apply Z.ltb_lt]; lia
          | apply andb_false_iff; left; apply Z.leb_gt; lia
          | apply andb_false_iff; right; apply Z.ltb_ge; lia ].
Qed.

Lemma in_classc_range (a : Z) :
  0 <= a < 2 ^ 32 ->
  IN_CLASSC a = (192 * 2 ^ 24 <=? a) && (a <? 224 * 2 ^ 24).
Proof.
  intros Ha. unfold IN_CLASSC.
  change 0xe0000000 with (Z.shiftl 7 29).
  rewrite land_shiftl_mask by lia.
  class_cases a Ha; symmetry;
    first [ apply andb_true_iff; split; [apply Z.leb_le | apply Z.ltb_lt]; lia
          | apply andb_false_iff; left; apply Z.leb_gt; lia
          | apply andb_false_iff; right; apply Z.ltb_ge; lia ].
Qed.

Lemma prefix4_host_range (p : prefix) : 0 <= prefix4_host p < 2 ^ 32.
Proof.
  unfold prefix4_host. destruct (family p); apply Z.mod_pos_bound; lia.
Qed.

(** The three [continue]s of lines 955-962 are the negation of the
    classful supernet test. *)
Lemma supernet_skip_spec (rn : route_node) :
  supernet_skip rn = false <-> is_supernet (rn_p rn).
Proof.
  unfold supernet_skip, is_supernet, natural_boundary.
  pose proof (prefix4_host_range (rn_p rn)) as Ha.
  set (a := prefix4_host (rn_p rn)) in *.
  set (len := prefixlen (rn_p rn)).
  rewrite in_classa_range, in_classb_range, in_classc_range by assumption.
  destruct (Z.ltb_spec a (128 * 2 ^ 24)) as [HA | HA];
    destruct (Z.ltb_spec a (192 * 2 ^ 24)) as [HB | HB];
    destruct (Z.ltb_spec a (224 * 2 ^ 24)) as [HC | HC];
    destruct (Z.leb_spec (128 * 2 ^ 24) a);
    destruct (Z.leb_spec (192 * 2 ^ 24) a);
    try lia; cbn [andb];
    destruct (Z.leb_spec 24 len); destruct (Z.leb_spec 16 len);
    destruct (Z.leb_spec 8 len); try lia; cbn [andb];
    split; intros Hsup;
    try discriminate; try reflexivity;
    try (intros b Hb; injection Hb as <-; lia);
    try (intros b Hb; discriminate);
    try (specialize (Hsup _ eq_refl); lia).
Qed.

(** ** The route filter *)

Section ShowProofs.
Context {K : zebra_consts} {E : zebra_env}.

Lemma show_filter_conj (use_fib : bool) (tag : Z) (lp : option prefix)
    (sn : bool) (type ospf : Z) (rn : route_node) (re : route_entry) :
  show_filter use_fib tag lp sn type ospf rn re = true
  <-> (use_fib && negb (fib_installed re) = false
       /\ negb (tag =? 0) && negb (re_tag re =? tag) = false
       /\ match lp with
          | Some q => negb (prefix_match q (rn_p rn))
          | None => false
          end = false
       /\ sn && supernet_skip rn = false
       /\ negb (type =? 0) && negb (re_type re =? type) = false
       /\ negb (ospf =? 0)
          && (negb (re_type re =? ZEBRA_ROUTE_OSPF)
              || negb (re_instance re =? ospf)) = false).
Proof.
  unfold show_filter, fib_installed.
  destruct (use_fib && _); [intuition discriminate |].
  destruct (negb (tag =? 0) && _); [intuition discriminate |].
  destruct (match lp with Some _ => _ | None => _ end);
    [intuition discriminate |].
  destruct (sn && _); [intuition discriminate |].
  destruct (negb (type =? 0) && _); [intuition discriminate |].
  destruct (negb (ospf =? 0) && _); intuition discriminate.
Qed.

Lemma criterion_fib (use_fib f : bool) :
  use_fib && negb f = false <-> (use_fib = true -> f = true).
Proof. destruct use_fib, f; simpl; intuition discriminate. Qed.

Lemma criterion_eq (want got : Z) :
  negb (want =? 0) && negb (got =? want) = false
  <-> (want <> 0 -> got = want).
Proof.
  destruct (Z.eqb_spec want 0), (Z.eqb_spec got want); simpl;
    intuition (try discriminate; try lia).
Qed.

Lemma criterion_longer (lp : option prefix) (p : prefix) :
  match lp with
  | Some q => negb (prefix_match q p)
  | None => false
  end = false
  <-> (forall q, lp = Some q -> prefix_match q p = true).
Proof.
  destruct lp as [q |].
  - rewrite negb_false_iff. split.
    + intros H q' Hq. now injection Hq as <-.
    + intros H. now apply H.
  - split; [intros _ q Hq; discriminate | reflexivity].
Qed.

Lemma criterion_supernet (sn : bool) (rn : route_node) :
  sn && supernet_skip rn = false <-> (sn = true -> is_supernet (rn_p rn)).
Proof.
  rewrite <- supernet_skip_spec.
  destruct sn, (supernet_skip rn); simpl; intuition discriminate.
Qed.

Lemma criterion_ospf (ospf t i : Z) :
  negb (ospf =? 0)
  && (negb (t =? ZEBRA_ROUTE_OSPF) || negb (i =? ospf)) = false
  <-> (ospf <> 0 -> t = ZEBRA_ROUTE_OSPF /\ i = ospf).
Proof.
  destruct (Z.eqb_spec ospf 0), (Z.eqb_spec t ZEBRA_ROUTE_OSPF),
    (Z.eqb_spec i ospf); simpl; intuition (try discriminate; try lia).
Qed.

(** The filter is the conjunction of the supplied criteria. *)
Lemma show_filter_criteria (use_fib : bool) (tag : Z)
    (lp : option prefix) (sn : bool) (type ospf : Z) (rn : route_node)
    (re : route_entry) :
  show_filter use_fib tag lp sn type ospf rn re = true
  <-> criteria_hold use_fib tag lp sn type ospf rn re.
Proof.
  rewrite show_filter_conj. unfold criteria_hold.
  rewrite criterion_fib, !criterion_eq, criterion_longer,
    criterion_supernet, criterion_ospf.
  reflexivity.
Qed.

(** The header holds text only. *)
Lemma show_header_text (afi : afi_t) (zvrf : zebra_vrf) (rn : route_node)
    (re : route_entry) :
  ~ In (Route rn re) (show_header afi zvrf).
Proof.
  unfold show_header. intros [H | H]; [discriminate |].
  destruct (zvrf_id zvrf =? VRF_DEFAULT); simpl in H;
    [contradiction | destruct H as [H | []]; discriminate].
Qed.

Lemma show_entries_in (flt : route_node -> route_entry -> bool)
    (hdr : list vty_item) (use_json : bool) (rn : route_node)
    (res : list route_entry) (first : bool) (rn' : route_node)
    (re' : route_entry) :
  (forall n r, ~ In (Route n r) hdr) ->
  In (Route rn' re') (snd (show_entries flt hdr use_json rn res first))
  <-> rn' = rn /\ In re' res /\ flt rn re' = true.
Proof.
  intros Hhdr. revert first.
  induction res as [| re res IH]; intros first.
  - simpl. tauto.
  - simpl. destruct (flt rn re) eqn:Hf.
    + destruct (show_entries flt hdr use_json rn res
                  (if use_json then first else false)) as [f o] eqn:Hs.
      specialize (IH (if use_json then first else false)).
      rewrite Hs in IH. simpl in IH. simpl.
      rewrite in_app_iff. simpl. rewrite IH. split.
      * intros [Hin | [Heq | Hin]].
        -- exfalso. destruct use_json; [contradiction |].
           destruct first; [now apply Hhdr in Hin | contradiction].
        -- injection Heq as <- <-. auto.
        -- tauto.
      * intros [-> [[<- | Hin] Hflt]]; [now right; left |].
        right; right. auto.
    + rewrite IH. split.
      * tauto.
      * intros [-> [[<- | Hin] Hflt]]; [congruence | auto].
Qed.

Lemma show_nodes_in (flt : route_node -> route_entry -> bool)
    (hdr : list vty_item) (use_json : bool) (nodes : list route_node)
    (first : bool) (rn : route_node) (re : route_entry) :
  (forall n r, ~ In (Route n r) hdr) ->
  In (Route rn re) (show_nodes flt hdr use_json nodes first)
  <-> In rn nodes /\ In re (rnode_entries rn) /\ flt rn re = true.
Proof.
  intros Hhdr. revert first.
  induction nodes as [| n nodes IH]; intros first.
  - simpl. tauto.
  - simpl.
    pose proof (show_entries_in flt hdr use_json n (rnode_entries n) first
                  rn re Hhdr) as He.
    destruct (show_entries flt hdr use_json n (rnode_entries n) first)
      as [f o].
    simpl in He. rewrite in_app_iff, He, IH. split.
    + intros [[-> H] | [Hin H]]; auto.
    + intros [[<- | Hin] H]; auto.
Qed.

(** The document written after the walk is no call of the renderer. *)
Lemma in_route_document (rn : route_node) (re : route_entry)
    (l : list vty_item) (use_json : bool)
    (members : list (route_node * list route_entry)) :
  In (Route rn re) (l ++ (if use_json then [Json members] else []))
  <-> In (Route rn re) l.
Proof.
  rewrite in_app_iff. split; [| now left].
  intros [H | H]; [exact H |].
  destruct use_json; [destruct H as [H | []]; discriminate | destruct H].
Qed.

(** C5. When the VRF is known and active and has a table for the
    address family, an entry of the table is handed to the entry
    renderer exactly when every supplied filter criterion holds of it;
    in particular what is shown for type static with fib-only is shown
    for type static alone, and every such entry is FIB-installed. *)
Theorem show_route_filter (vrf_name : string) (afi : afi_t)
    (safi : safi_t) (use_json : bool) (zvrf : zebra_vrf)
    (table : route_table) :
  zebra_vrf_lookup_by_name (Some vrf_name) = Some zvrf ->
  zvrf_id zvrf <> VRF_UNKNOWN ->
  zebra_vrf_table afi safi (zvrf_id zvrf) = Some table ->
  (forall use_fib tag lp sn type ospf rn re,
     In (Route rn re)
        (snd (do_show_ip_route vrf_name afi safi use_fib use_json tag lp sn
                type ospf))
     <-> In rn (rt_nodes table) /\ In re (rnode_entries rn)
         /\ criteria_hold use_fib tag lp sn type ospf rn re)
  /\ (forall rn re,
        In (Route rn re)
           (snd (do_show_ip_route vrf_name afi safi true use_json 0 None
                   false ZEBRA_ROUTE_STATIC 0)) ->
        In (Route rn re)
           (snd (do_show_ip_route vrf_name afi safi false use_json 0 None
                   false ZEBRA_ROUTE_STATIC 0))
        /\ fib_installed re = true).
Proof.
  intros Hvrf Hid Htab.
  assert (Hiff : forall use_fib tag lp sn type ospf rn re,
     In (Route rn re)
        (snd (do_show_ip_route vrf_name afi safi use_fib use_json tag lp sn
                type ospf))
     <-> In rn (rt_nodes table) /\ In re (rnode_entries rn)
         /\ criteria_hold use_fib tag lp sn type ospf rn re).
  { intros. unfold do_show_ip_route. rewrite Hvrf.
    apply Z.eqb_neq in Hid. rewrite Hid, Htab. cbv zeta. cbn [snd].
    rewrite in_route_document.
    rewrite show_nodes_in by (intros n r; apply show_header_text).
    now rewrite show_filter_criteria. }
  split; [exact Hiff |].
  intros rn re Hin. apply Hiff in Hin.
  destruct Hin as [Hrn [Hre Hc]]. split.
  - apply Hiff. split; [exact Hrn | split; [exact Hre |]].
    unfold criteria_hold in *. intuition discriminate.
  - now apply Hc.
Qed.

(** C8. Under the supernets-only filter alone an IPv4 entry is kept
    exactly when its prefix is shorter than 8 for a class A address
    (first octet below 128), than 16 for class B (below 192) and than 24
    for class C (below 224). *)
Theorem supernets_only_classful (rn : route_node) (re : route_entry) :
  family (rn_p rn) = AF_INET ->
  0 <= p_addr (rn_p rn) < 2 ^ 32 ->
  let a := p_addr (rn_p rn) in
  let len := prefixlen (rn_p rn) in
  let kept := show_filter false 0 None true 0 0 rn re in
  (a < 128 * 2 ^ 24 -> (kept = true <-> len < 8))
  /\ (128 * 2 ^ 24 <= a < 192 * 2 ^ 24 -> (kept = true <-> len < 16))
  /\ (192 * 2 ^ 24 <= a < 224 * 2 ^ 24 -> (kept = true <-> len < 24)).
Proof.
  intros Hfam Ha a len kept.
  assert (Hk : kept = true <-> is_supernet (rn_p rn)).
  { subst kept. rewrite show_filter_criteria. unfold criteria_hold.
    intuition (try discriminate; try lia). }
  assert (Hhost : prefix4_host (rn_p rn) = a).
  { unfold prefix4_host. rewrite Hfam. now apply Z.mod_small. }
  unfold is_supernet, natural_boundary in Hk. rewrite Hhost in Hk.
  fold len in Hk. rewrite Hk. clear Hk.
  split; [| split]; intros Hrange; split; intros Hlen;
    destruct (Z.ltb_spec a (128 * 2 ^ 24));
    destruct (Z.ltb_spec a (192 * 2 ^ 24));
    destruct (Z.ltb_spec a (224 * 2 ^ 24)); try lia;
    try (specialize (Hlen _ eq_refl); lia);
    intros b Hb; injection Hb as <-; lia.
Qed.

(** Addresses of classes D and E have no natural boundary: their
    entries are kept whatever the prefix length. *)
Remark supernets_only_multicast (rn : route_node) (re : route_entry) :
  224 * 2 ^ 24 <= prefix4_host (rn_p rn) ->
  show_filter false 0 None true 0 0 rn re = true.
Proof.
  intros Ha. apply show_filter_criteria. unfold criteria_hold.
  repeat split; try discriminate; try lia.
  intros _ b Hb. unfold natural_boundary in Hb.
  destruct (Z.ltb_spec (prefix4_host (rn_p rn)) (128 * 2 ^ 24)); [lia |].
  destruct (Z.ltb_spec (prefix4_host (rn_p rn)) (192 * 2 ^ 24)); [lia |].
  destruct (Z.ltb_spec (prefix4_host (rn_p rn)) (224 * 2 ^ 24)); [lia |].
  discriminate.
Qed.

End ShowProofs.

(** Witness of C5 on the sample table of the default VRF. *)
Lemma show_route_filter_witness :
  zebra_vrf_lookup_by_name (zebra_env := sample_env) (Some "default"%string)
  = Some default_zvrf
  /\ zvrf_id default_zvrf <> VRF_UNKNOWN (zebra_consts := sample_consts)
  /\ zebra_vrf_table (zebra_env := sample_env) AFI_IP SAFI_UNICAST
       (zvrf_id default_zvrf) = Some sample_table
  /\ (forall rn re,
        In (Route rn re)
           (snd (do_show_ip_route (K := sample_consts) (E := sample_env)
                   "default" AFI_IP SAFI_UNICAST true false 0 None false
                   (ZEBRA_ROUTE_STATIC (zebra_consts := sample_consts)) 0)) ->
        In (Route rn re)
           (snd (do_show_ip_route (K := sample_consts) (E := sample_env)
                   "default" AFI_IP SAFI_UNICAST false false 0 None false
                   (ZEBRA_ROUTE_STATIC (zebra_consts := sample_consts)) 0))
        /\ fib_installed (K := sample_consts) re = true).
Proof.
  assert (Hid : zvrf_id default_zvrf
                <> VRF_UNKNOWN (zebra_consts := sample_consts))
    by discriminate.
  split; [reflexivity | split; [exact Hid | split; [reflexivity |]]].
  exact (proj2 (show_route_filter (K := sample_consts) (E := sample_env)
                  "default" AFI_IP SAFI_UNICAST false default_zvrf
                  sample_table eq_refl Hid eq_refl)).
Defined.

(** Witness of C8: 10.0.0.0/8 is a class A network at its natural
    boundary, so it is not a supernet. *)
Lemma supernets_only_classful_witness :
  family (rn_p node10) = AF_INET
  /\ 0 <= p_addr (rn_p node10) < 2 ^ 32
  /\ (p_addr (rn_p node10) < 128 * 2 ^ 24 ->
      (show_filter (K := sample_consts) false 0 None true 0 0 node10
         sample_static = true
       <-> prefixlen (rn_p node10) < 8)).
Proof.
  assert (Ha : 0 <= p_addr (rn_p node10) < 2 ^ 32) by (simpl; lia).
  split; [reflexivity | split; [exact Ha |]].
  exact (proj1 (supernets_only_classful (K := sample_consts) node10
                  sample_static eq_refl Ha)).
Defined.

(** ** Age rendering *)

Lemma nat_below_100 (n : Z) :
  0 <= n < 100 -> exists k, (k < 100)%nat /\ n = Z.of_nat k.
Proof. intros H. exists (Z.to_nat n). lia. Qed.

Lemma fmt_02d_two_digits (n : Z) :
  0 <= n < 100 -> fmt_02d n = two_digits n.
Proof.
  intros H. destruct (nat_below_100 n H) as [k [Hk ->]]. clear H.
  do 100 (destruct k as [| k]; [reflexivity |]). lia.
Qed.

Lemma fmt_d_one_digit (n : Z) : 0 <= n < 10 -> fmt_d n = one_digit n.
Proof.
  intros H.
  assert (Hk : exists k, (k < 10)%nat /\ n = Z.of_nat k)
    by (exists (Z.to_nat n); lia).
  destruct Hk as [k [Hk ->]]. clear H.
  do 10 (destruct k as [| k]; [reflexivity |]). lia.
Qed.

Lemma year_len_bounds (y : Z) : 365 <= year_len y <= 366.
Proof. unfold year_len. destruct (is_leap y); lia. Qed.

Lemma yday_fwd_bounds (fuel : nat) (y d : Z) :
  0 <= d < 365 * (Z.of_nat fuel + 1) -> 0 <= yday_fwd fuel y d <= 365.
Proof.
  revert y d. induction fuel as [| fuel IH]; intros y d Hd;
    pose proof (year_len_bounds y) as Hy.
  - simpl. destruct (Z.ltb_spec d (year_len y)); lia.
  - cbn [yday_fwd]. destruct (Z.ltb_spec d (year_len y)); [lia |].
    apply IH. lia.
Qed.

Lemma yday_fwd_first_year (fuel : nat) (d : Z) :
  0 <= d < 365 -> yday_fwd fuel 1970 d = d.
Proof.
  intros Hd. destruct fuel; cbn [yday_fwd];
    change (year_len 1970) with 365;
    destruct (Z.ltb_spec d 365); lia.
Qed.

Lemma gmtime_yday_bounds (t : Z) : 0 <= t -> 0 <= tm_yday (gmtime t) <= 365.
Proof.
  intros Ht. unfold gmtime. cbn [tm_yday].
  assert (Hd : 0 <= t / 86400) by (apply Z.div_pos; lia).
  destruct (Z.leb_spec 0 (t / 86400)); [| lia].
  apply yday_fwd_bounds. rewrite Z2Nat.id by (apply Z.div_pos; lia).
  pose proof (Z.mul_succ_div_gt (t / 86400) 365 ltac:(lia)). lia.
Qed.

Lemma gmtime_yday_first_year (t : Z) :
  0 <= t < 365 * 86400 -> tm_yday (gmtime t) = t / 86400.
Proof.
  intros Ht. unfold gmtime. cbn [tm_yday].
  assert (Hd : 0 <= t / 86400 < 365).
  { split; [apply Z.div_pos; lia | apply Z.div_lt_upper_bound; lia]. }
  destruct (Z.leb_spec 0 (t / 86400)); [| lia].
  now apply yday_fwd_first_year.
Qed.

Lemma gmtime_clock (t : Z) :
  tm_hour (gmtime t) = (t mod 86400) / 3600
  /\ tm_min (gmtime t) = (t mod 3600) / 60
  /\ tm_sec (gmtime t) = t mod 60.
Proof.
  unfold gmtime. cbn [tm_hour tm_min tm_sec].
  split; [reflexivity | split].
  - rewrite Z.mod_mod_divide; [reflexivity | exists 24; reflexivity].
  - rewrite Z.mod_mod_divide; [reflexivity | exists 1440; reflexivity].
Qed.

Lemma clock_bounds (t : Z) :
  0 <= (t mod 86400) / 3600 < 24
  /\ 0 <= (t mod 3600) / 60 < 60
  /\ 0 <= t mod 60 < 60.
Proof.
  pose proof (Z.mod_pos_bound t 86400 ltac:(lia)).
  pose proof (Z.mod_pos_bound t 3600 ltac:(lia)).
  pose proof (Z.mod_pos_bound t 60 ltac:(lia)).
  repeat split; try lia;
    first [apply Z.div_pos; lia | apply Z.div_lt_upper_bound; lia].
Qed.

Section AgeTheorem.
Context {K : zebra_consts}.


End AgeTheorem.

(** After one year the week count starts again: [tm_yday] is the day of
    the year. *)
Remark uptime_after_one_year :
  uptime_fmt (365 * 86400) = "00w0d00h"%string.
Proof. reflexivity. Qed.

(** ** Lookups by address and by prefix *)

Lemma prefix_match_length (n p : prefix) :
  prefix_match n p = true -> prefixlen n <= prefixlen p.
Proof.
  unfold prefix_match. destruct (Z.ltb_spec (prefixlen p) (prefixlen n));
    [discriminate | lia].
Qed.

(** The scan returns a longest covering node, or the incoming candidate
    when nothing later beats it. *)
Lemma route_node_match_from_spec (p : prefix) (nodes : list route_node) :
  forall best,
    match route_node_match_from best nodes p with
    | Some r =>
        (best = Some r
         \/ (In r nodes /\ has_info r = true
             /\ prefix_match (rn_p r) p = true))
        /\ (forall b, best = Some b ->
                      prefixlen (rn_p b) <= prefixlen (rn_p r))
        /\ (forall rn, In rn nodes -> has_info rn = true ->
                       prefix_match (rn_p rn) p = true ->
                       prefixlen (rn_p rn) <= prefixlen (rn_p r))
    | None =>
        best = None
        /\ (forall rn, In rn nodes -> has_info rn = true ->
                       prefix_match (rn_p rn) p = true -> False)
    end.
Proof.
  induction nodes as [| n nodes IH]; intros best.
  - simpl. destruct best as [b |].
    + split; [now left | split].
      * intros b' Hb. injection Hb as <-. lia.
      * intros rn [].
    + split; [reflexivity | intros rn []].
  - cbn [route_node_match_from].
    destruct (has_info n && prefix_match (rn_p n) p
              && match best with
                 | Some b => prefixlen (rn_p b) <? prefixlen (rn_p n)
                 | None => true
                 end) eqn:Htake.
    + apply andb_prop in Htake. destruct Htake as [Hcov Hbetter].
      apply andb_prop in Hcov. destruct Hcov as [Hinfo Hmatch].
      specialize (IH (Some n)).
      destruct (route_node_match_from (Some n) nodes p) as [r |].
      * destruct IH as [Hr [Hbest Hall]].
        assert (Hn : prefixlen (rn_p n) <= prefixlen (rn_p r))
          by now apply Hbest.
        split; [| split].
        -- right. destruct Hr as [Hr | [Hin Hr]].
           ++ injection Hr as <-. split; [now left | now split].
           ++ split; [now right | exact Hr].
        -- intros b Hb. subst best. apply Z.ltb_lt in Hbetter. lia.
        -- intros rn [<- | Hin] Hi Hm; [exact Hn | now apply Hall].
      * destruct IH as [Habs _]. discriminate.
    + specialize (IH best).
      destruct (route_node_match_from best nodes p) as [r |].
      * destruct IH as [Hr [Hbest Hall]]. split; [| split].
        -- destruct Hr as [Hr | [Hin Hr]]; [now left |].
           right. split; [now right | exact Hr].
        -- exact Hbest.
        -- intros rn [<- | Hin] Hi Hm; [| now apply Hall].
           rewrite Hi, Hm in Htake. simpl in Htake.
           destruct best as [b |]; [| discriminate].
           apply Z.ltb_ge in Htake.
           specialize (Hbest b eq_refl). lia.
      * destruct IH as [-> Hall]. split; [reflexivity |].
        intros rn [<- | Hin] Hi Hm; [| now apply (Hall rn)].
        rewrite Hi, Hm in Htake. discriminate.
Qed.

Lemma route_node_match_some (table : route_table) (p : prefix)
    (rn : route_node) :
  route_node_match table p = Some rn -> longest_match table p rn.
Proof.
  intros H. unfold route_node_match in H.
  pose proof (route_node_match_from_spec p (rt_nodes table) None) as Hs.
  rewrite H in Hs. destruct Hs as [[Hr | Hr] [_ Hall]]; [discriminate |].
  split; [exact Hr |].
  intros rn' [Hin [Hi Hm]]. now apply Hall.
Qed.

Lemma route_node_match_none (table : route_table) (p : prefix) :
  route_node_match table p = None -> forall rn, ~ covers table p rn.
Proof.
  intros H rn [Hin [Hi Hm]]. unfold route_node_match in H.
  pose proof (route_node_match_from_spec p (rt_nodes table) None) as Hs.
  rewrite H in Hs. destruct Hs as [_ Hall]. now apply (Hall rn).
Qed.

Section LookupTheorems.
Context {K : zebra_consts} {E : zebra_env}.

(** C7 (as amended). For a well-formed query whose VRF resolves and has
    an IPv4 unicast table: the address form renders the detail record of
    a longest-prefix match for the address, and reports the network as
    not in the table, with a warning result, when no node covers it; the
    prefix form renders the detail record only when the longest match
    has exactly the queried prefix length, and reports the network as not
    in the table, with a warning result, otherwise. *)
Theorem show_route_at :
  renders_longest_match show_ip_route_addr
  /\ renders_exact_match show_ip_route_prefix.
Proof.
  split.
  - intros vrf_arg arg id p table Hvrf Hp Htab.
    assert (Hrun : show_ip_route_addr vrf_arg arg
                   = match route_node_match table p with
                     | None => (CMD_WARNING, [Text msg_not_in_table])
                     | Some rn => (CMD_SUCCESS, [Detail rn 0])
                     end).
    { unfold show_ip_route_addr, vrf_resolves in *.
      destruct vrf_arg as [name |]; [rewrite Hvrf | subst id];
        (fold (pass id) || fold (pass VRF_DEFAULT)); rewrite bind_pass;
        rewrite Hp, Htab; destruct (route_node_match table p);
        reflexivity. }
    rewrite Hrun. split.
    + intros [rn0 [Hcov _]].
      destruct (route_node_match table p) as [rn |] eqn:Hm.
      * exists rn. split; [now apply route_node_match_some | reflexivity].
      * exfalso. now apply (route_node_match_none table p Hm rn0).
    + intros Hnone.
      destruct (route_node_match table p) as [rn |] eqn:Hm;
        [| reflexivity].
      exfalso. apply (Hnone rn). now apply route_node_match_some.
  - intros vrf_arg arg id p table Hvrf Hp Htab.
    assert (Hrun : show_ip_route_prefix vrf_arg arg
                   = match route_node_match table p with
                     | None => (CMD_WARNING, [Text msg_not_in_table])
                     | Some rn =>
                         if prefixlen (rn_p rn) =? prefixlen p
                         then (CMD_SUCCESS, [Detail rn 0])
                         else (CMD_WARNING, [Text msg_not_in_table])
                     end).
    { unfold show_ip_route_prefix, vrf_resolves in *.
      destruct vrf_arg as [name |]; [rewrite Hvrf | subst id];
        (fold (pass id) || fold (pass VRF_DEFAULT)); rewrite bind_pass;
        rewrite Hp, Htab; destruct (route_node_match table p) as [rn |];
        try reflexivity;
        destruct (prefixlen (rn_p rn) =? prefixlen p); reflexivity. }
    rewrite Hrun. split.
    + intros [rn0 [Hcov Hlen]].
      destruct (route_node_match table p) as [rn |] eqn:Hm.
      * pose proof (route_node_match_some table p rn Hm) as Hl.
        assert (Heq : prefixlen (rn_p rn) = prefixlen p).
        { destruct Hl as [[_ [_ Hmatch]] Hmax].
          apply prefix_match_length in Hmatch.
          specialize (Hmax rn0 Hcov). lia. }
        exists rn. split; [exact Hl | split; [exact Heq |]].
        apply Z.eqb_eq in Heq. now rewrite Heq.
      * exfalso. now apply (route_node_match_none table p Hm rn0).
    + intros Hnone.
      destruct (route_node_match table p) as [rn |] eqn:Hm;
        [| reflexivity].
      pose proof (route_node_match_some table p rn Hm) as [Hcov _].
      apply Hnone in Hcov. apply Z.eqb_neq in Hcov. now rewrite Hcov.
Qed.

End LookupTheorems.

(** C7 as stated fails for the prefix form: 10.0.0.0/8 is in the table
    and is the longest match of 10.1.0.0/16, yet the query for
    10.1.0.0/16 answers that the network is not in the table. *)
Lemma prefix_lookup_not_longest_match :
  ~ renders_longest_match (K := sample_consts) (E := sample_env)
      (show_ip_route_prefix (K := sample_consts) (E := sample_env)).
Proof.
  intros H.
  destruct (H None "10.1.0.0/16"%string 0 net10_1 sample_table
              eq_refl eq_refl eq_refl) as [Hsome _].
  assert (Hl : exists rn, longest_match sample_table net10_1 rn).
  { exists node10. apply route_node_match_some. reflexivity. }
  destruct (Hsome Hl) as [rn [_ Hshow]].
  vm_compute in Hshow. discriminate.
Qed.

(** The exact prefix is found. *)
Example prefix_lookup_exact :
  show_ip_route_prefix (K := sample_consts) (E := sample_env) None
    "10.0.0.0/8"
  = (CMD_SUCCESS, [Detail node10 0]).
Proof. reflexivity. Qed.
(* ================================================================== *)
(** * Part V. Further properties *)
(* ================================================================== *)

(** ** Sums over the counter arrays *)

Lemma zsum_app (f : Z -> Z) (l1 l2 : list Z) :
  zsum f (l1 ++ l2) = zsum f l1 + zsum f l2.
Proof.
  induction l1 as [| i l1 IH]; simpl; [reflexivity | rewrite IH; lia].
Qed.

Lemma zsum_ext (f g : Z -> Z) (l : list Z) :
  (forall i, In i l -> f i = g i) -> zsum f l = zsum g l.
Proof.
  induction l as [| i l IH]; intros H; simpl; [reflexivity |].
  rewrite (H i (or_introl eq_refl)), IH; [reflexivity |].
  intros j Hj. apply H. now right.
Qed.

Lemma zsum_add (f g : Z -> Z) (l : list Z) :
  zsum (fun i => f i + g i) l = zsum f l + zsum g l.
Proof.
  induction l as [| i l IH]; simpl; [reflexivity | rewrite IH; lia].
Qed.

Lemma zsum_zero (l : list Z) : zsum (fun _ => 0) l = 0.
Proof. induction l as [| i l IH]; simpl; [reflexivity | now rewrite IH]. Qed.

(** An indicator summed over distinct indices counts at most once. *)
Lemma zsum_indicator (t : Z) (l : list Z) :
  NoDup l ->
  zsum (fun i => if t =? i then 1 else 0) l
  = if existsb (Z.eqb t) l then 1 else 0.
Proof.
  induction 1 as [| i l Hni Hnd IH]; simpl; [reflexivity |].
  rewrite IH. destruct (Z.eqb_spec t i) as [-> | Hne]; simpl; [| reflexivity].
  destruct (existsb (Z.eqb i) l) eqn:Hex; [| reflexivity].
  apply existsb_exists in Hex as [j [Hj Heq]].
  apply Z.eqb_eq in Heq. subst j. contradiction.
Qed.

Lemma upto_iff (n i : Z) : In i (upto n) <-> 0 <= i < n.
Proof.
  split; [| apply upto_in].
  unfold upto. intros H. apply in_map_iff in H as [k [<- Hk]].
  apply in_seq in Hk. lia.
Qed.

Lemma upto_nodup (n : Z) : NoDup (upto n).
Proof.
  unfold upto. generalize (seq_NoDup (Z.to_nat n) 0).
  induction 1 as [| k l Hni Hnd IH]; simpl; constructor; [| exact IH].
  intros Hin. apply in_map_iff in Hin as [j [Heq Hj]].
  apply Nat2Z.inj in Heq. now subst j.
Qed.

(** Counting by key: when every counted element has its key among the
    distinct indices [idx], the per-key counts add up to the count. *)
Lemma zsum_count {A : Type} (key : A -> Z) (P : A -> bool) (l : list A)
    (idx : list Z) :
  NoDup idx ->
  (forall x, In x l -> P x = true -> In (key x) idx) ->
  zsum (fun i => count (fun x => P x && (key x =? i)) l) idx = count P l.
Proof.
  intros Hnd. induction l as [| x l IH]; intros Hin.
  - rewrite count_nil. apply zsum_zero.
  - rewrite count_cons.
    rewrite (zsum_ext _
               (fun i => (if key x =? i then if P x then 1 else 0 else 0)
                         + count (fun y => P y && (key y =? i)) l)).
    + rewrite zsum_add, IH by (intros y Hy; apply Hin; now right).
      f_equal. destruct (P x) eqn:HP.
      * rewrite zsum_indicator by exact Hnd.
        assert (Hex : existsb (Z.eqb (key x)) idx = true).
        { apply existsb_exists. exists (key x). split.
          - apply Hin; [now left | exact HP].
          - apply Z.eqb_refl. }
        now rewrite Hex.
      * rewrite (zsum_ext _ (fun _ => 0)); [apply zsum_zero |].
        intros i _. now destruct (key x =? i).
    + intros i _. rewrite count_cons.
      destruct (P x), (key x =? i); reflexivity.
Qed.

Lemma count_and_le {A : Type} (f g : A -> bool) (l : list A) :
  count (fun x => f x && g x) l <= count f l.
Proof.
  apply count_mono. intros x _ H. now apply andb_true_iff in H.
Qed.

Section BucketProofs.
Context {K : zebra_consts}.

Lemma route_bucket_range (re : route_entry) :
  valid_type re ->
  In (route_bucket re) (upto ZEBRA_ROUTE_MAX ++ [ZEBRA_ROUTE_IBGP]).
Proof.
  intros Hv. unfold route_bucket. apply in_or_app.
  destruct (is_ibgp re); [right; now left | left; now apply upto_in].
Qed.

Lemma buckets_nodup : NoDup (upto ZEBRA_ROUTE_MAX ++ [ZEBRA_ROUTE_IBGP]).
Proof.
  apply NoDup_app.
  - apply upto_nodup.
  - constructor; [intros [] | constructor].
  - intros i Hi [<- | []]. apply upto_iff in Hi.
    unfold ZEBRA_ROUTE_IBGP in Hi. lia.
Qed.

(** One step of the per-route summary on a counter other than the
    total. *)
Lemma summary_entry_rib_bucket (c : counters) (re : route_entry) (i : Z) :
  i <> ZEBRA_ROUTE_TOTAL ->
  rib_cnt (summary_entry c re) i
  = if true && (route_bucket re =? i) then u32 (rib_cnt c i + 1)
    else rib_cnt c i.
Proof.
  intros Hi. unfold summary_entry, route_bucket, is_ibgp. cbn [rib_cnt andb].
  destruct (_ && _).
  - destruct (Z.eqb_spec ZEBRA_ROUTE_IBGP i) as [<- | Hne].
    + now rewrite incr_same, incr_other by exact Hi.
    + now rewrite !incr_other by congruence.
  - destruct (Z.eqb_spec (re_type re) i) as [<- | Hne].
    + now rewrite incr_same, incr_other by exact Hi.
    + now rewrite !incr_other by congruence.
Qed.

Lemma summary_entry_fib_bucket (c : counters) (re : route_entry) (i : Z) :
  i <> ZEBRA_ROUTE_TOTAL ->
  fib_cnt (summary_entry c re) i
  = if is_selected re && (route_bucket re =? i) then u32 (fib_cnt c i + 1)
    else fib_cnt c i.
Proof.
  intros Hi. unfold summary_entry, route_bucket, is_ibgp, is_selected.
  cbn [fib_cnt].
  destruct (CHECK_FLAG (re_flags re) ZEBRA_FLAG_SELECTED); [| reflexivity].
  cbn [andb]. destruct (_ && _).
  - destruct (Z.eqb_spec ZEBRA_ROUTE_IBGP i) as [<- | Hne].
    + now rewrite incr_same, incr_other by exact Hi.
    + now rewrite !incr_other by congruence.
  - destruct (Z.eqb_spec (re_type re) i) as [<- | Hne].
    + now rewrite incr_same, incr_other by exact Hi.
    + now rewrite !incr_other by congruence.
Qed.

(** The per-protocol counters of the per-route summary in closed form. *)
Lemma summary_rib_bucket (table : route_table) (i : Z) :
  i <> ZEBRA_ROUTE_TOTAL ->
  rib_cnt (summary_count table) i
  = u32 (count (fun re => true && (route_bucket re =? i))
           (table_entries table)).
Proof.
  intros Hi. unfold summary_count. rewrite walk_entries_flat.
  rewrite (fold_counts (fun c => rib_cnt c i) summary_entry
             (fun re => true && (route_bucket re =? i))).
  - reflexivity.
  - intros c re _. now apply summary_entry_rib_bucket.
  - reflexivity.
Qed.

Lemma summary_fib_bucket (table : route_table) (i : Z) :
  i <> ZEBRA_ROUTE_TOTAL ->
  fib_cnt (summary_count table) i
  = u32 (count (fun re => is_selected re && (route_bucket re =? i))
           (table_entries table)).
Proof.
  intros Hi. unfold summary_count. rewrite walk_entries_flat.
  rewrite (fold_counts (fun c => fib_cnt c i) summary_entry
             (fun re => is_selected re && (route_bucket re =? i))).
  - reflexivity.
  - intros c re _. now apply summary_entry_fib_bucket.
  - reflexivity.
Qed.

(** The sum of the per-protocol counters over a keyed count. *)
Lemma bucket_sum_count (P : route_entry -> bool) (l : list route_entry) :
  (forall re, In re l -> valid_type re) ->
  bucket_sum true (fun i => count (fun re => P re && (route_bucket re =? i)) l)
  = count P l.
Proof.
  intros Hv. unfold bucket_sum.
  rewrite <- (zsum_count route_bucket P l
                (upto ZEBRA_ROUTE_MAX ++ [ZEBRA_ROUTE_IBGP])).
  - rewrite zsum_app. simpl. lia.
  - apply buckets_nodup.
  - intros re Hin _. apply route_bucket_range. now apply Hv.
Qed.

Lemma bucket_sum_ext (ibgp : bool) (a b : cnt_array) :
  (forall i, i <> ZEBRA_ROUTE_TOTAL -> a i = b i) ->
  bucket_sum ibgp a = bucket_sum ibgp b.
Proof.
  intros H. unfold bucket_sum. f_equal.
  - apply zsum_ext. intros i Hi. apply H. apply upto_iff in Hi.
    unfold ZEBRA_ROUTE_TOTAL, ZEBRA_ROUTE_IBGP. lia.
  - destruct ibgp; [| reflexivity]. apply H. apply not_eq_sym, total_not_ibgp.
Qed.

(** X1. Per-route summary: on a table with valid route types and fewer
    than 2^32 entries the Totals row is the sum of the per-protocol
    counters, the ibgp counter included, both in the Routes and in the
    FIB column; so the rows above the Totals row add up to it. *)
Theorem summary_totals_are_bucket_sums (table : route_table) :
  all_valid table ->
  Z.of_nat (List.length (table_entries table)) < 2 ^ 32 ->
  let c := summary_count table in
  rib_cnt c ZEBRA_ROUTE_TOTAL = bucket_sum true (rib_cnt c)
  /\ fib_cnt c ZEBRA_ROUTE_TOTAL = bucket_sum true (fib_cnt c).
Proof.
  intros Hv Hlen c. subst c. split.
  - rewrite summary_rib_total by exact Hv.
    rewrite (bucket_sum_ext true _
               (fun i => count (fun re => true && (route_bucket re =? i))
                           (table_entries table))).
    + rewrite bucket_sum_count by exact Hv.
      rewrite count_true. apply u32_small. lia.
    + intros i Hi. rewrite summary_rib_bucket by exact Hi.
      now apply u32_count.
  - rewrite summary_fib_total by exact Hv.
    rewrite (bucket_sum_ext true _
               (fun i => count (fun re => is_selected re
                                          && (route_bucket re =? i))
                           (table_entries table))).
    + rewrite bucket_sum_count by exact Hv. now apply u32_count.
    + intros i Hi. rewrite summary_fib_bucket by exact Hi.
      now apply u32_count.
Qed.

Lemma type_sum_count (P : route_entry -> bool) (l : list route_entry) :
  (forall re, In re l -> valid_type re) ->
  bucket_sum false (fun i => count (fun re => P re && (re_type re =? i)) l)
  = count P l.
Proof.
  intros Hv. unfold bucket_sum. rewrite Z.add_0_r.
  apply zsum_count; [apply upto_nodup |].
  intros re Hin _. apply upto_in. now apply Hv.
Qed.

(** X2. Per-prefix summary: on a table with valid route types and fewer
    than 2^32 entries the Totals row is the sum of the route type
    counters alone (an internal BGP route is counted on the bgp counter
    too), and the ibgp counter never exceeds the bgp counter, so the
    difference printed on the ebgp row does not wrap. *)
Theorem summary_prefix_totals_are_type_sums (table : route_table) :
  all_valid table ->
  Z.of_nat (List.length (table_entries table)) < 2 ^ 32 ->
  let c := summary_prefix_count table in
  rib_cnt c ZEBRA_ROUTE_TOTAL = bucket_sum false (rib_cnt c)
  /\ fib_cnt c ZEBRA_ROUTE_TOTAL = bucket_sum false (fib_cnt c)
  /\ 0 <= rib_cnt c ZEBRA_ROUTE_IBGP <= rib_cnt c ZEBRA_ROUTE_BGP
  /\ 0 <= fib_cnt c ZEBRA_ROUTE_IBGP <= fib_cnt c ZEBRA_ROUTE_BGP
  /\ u32 (rib_cnt c ZEBRA_ROUTE_BGP - rib_cnt c ZEBRA_ROUTE_IBGP)
     = rib_cnt c ZEBRA_ROUTE_BGP - rib_cnt c ZEBRA_ROUTE_IBGP.
Proof.
  intros Hv Hlen c. subst c.
  assert (Htype : forall i, In i (upto ZEBRA_ROUTE_MAX) ->
                            i <> ZEBRA_ROUTE_TOTAL /\ i <> ZEBRA_ROUTE_IBGP).
  { intros i Hi. apply upto_iff in Hi.
    unfold ZEBRA_ROUTE_TOTAL, ZEBRA_ROUTE_IBGP. lia. }
  assert (Hrib : 0 <= rib_cnt (summary_prefix_count table) ZEBRA_ROUTE_IBGP
                 <= rib_cnt (summary_prefix_count table) ZEBRA_ROUTE_BGP).
  { rewrite summary_prefix_rib_ibgp by exact Hv.
    rewrite summary_prefix_rib_type
      by (apply bgp_not_total || apply bgp_not_ibgp).
    rewrite !u32_count by exact Hlen. split.
    - apply count_bounds.
    - apply ibgp_counts_le_bgp. }
  assert (Hbgp : rib_cnt (summary_prefix_count table) ZEBRA_ROUTE_BGP < 2 ^ 32).
  { rewrite summary_prefix_rib_type
      by (apply bgp_not_total || apply bgp_not_ibgp).
    rewrite u32_count by exact Hlen.
    pose proof (count_bounds
                  (fun re => has_nexthop re && (re_type re =? ZEBRA_ROUTE_BGP))
                  (table_entries table)). lia. }
  split; [| split; [| split; [exact Hrib | split]]].
  - rewrite summary_prefix_rib_total by exact Hv.
    unfold bucket_sum.
    rewrite (zsum_ext _
               (fun i => count (fun re => has_nexthop re && (re_type re =? i))
                           (table_entries table))).
    + pose proof (type_sum_count has_nexthop (table_entries table) Hv) as Hs.
      unfold bucket_sum in Hs. rewrite Hs. now apply u32_count.
    + intros i Hi. destruct (Htype i Hi) as [Ht Hib].
      rewrite summary_prefix_rib_type by assumption. now apply u32_count.
  - rewrite summary_prefix_fib_total by exact Hv.
    unfold bucket_sum.
    rewrite (zsum_ext _
               (fun i => count (fun re => first_nexthop_fib re
                                          && (re_type re =? i))
                           (table_entries table))).
    + pose proof (type_sum_count first_nexthop_fib (table_entries table) Hv)
        as Hs.
      unfold bucket_sum in Hs. rewrite Hs. now apply u32_count.
    + intros i Hi. destruct (Htype i Hi) as [Ht Hib].
      rewrite summary_prefix_fib_type by assumption. now apply u32_count.
  - rewrite summary_prefix_fib_ibgp by exact Hv.
    rewrite summary_prefix_fib_type
      by (apply bgp_not_total || apply bgp_not_ibgp).
    rewrite !u32_count by exact Hlen. split.
    + apply count_bounds.
    + apply ibgp_counts_le_bgp.
  - apply u32_small. lia.
Qed.

(** The row an entry is counted on, against its route type. *)
Lemma route_bucket_ibgp (re : route_entry) :
  valid_type re -> (route_bucket re =? ZEBRA_ROUTE_IBGP) = is_ibgp re.
Proof.
  intros Hv. unfold route_bucket. destruct (is_ibgp re).
  - apply Z.eqb_refl.
  - apply Z.eqb_neq. apply not_eq_sym. now apply ibgp_not_type.
Qed.

Lemma route_bucket_type (re : route_entry) (i : Z) :
  0 <= i < ZEBRA_ROUTE_MAX ->
  (route_bucket re =? i) = negb (is_ibgp re) && (re_type re =? i).
Proof.
  intros Hi. unfold route_bucket. destruct (is_ibgp re); [| reflexivity].
  apply Z.eqb_neq. unfold ZEBRA_ROUTE_IBGP. lia.
Qed.

Lemma is_ibgp_bgp (re : route_entry) :
  is_ibgp re = true -> (re_type re =? ZEBRA_ROUTE_BGP) = true.
Proof. unfold is_ibgp. intros H. now apply andb_true_iff in H. Qed.

(** Counting by row against counting by type, for two predicates that
    agree on the entries. *)
Lemma bucket_counts_vs_type_counts (P Q : route_entry -> bool)
    (l : list route_entry) :
  (forall re, In re l -> valid_type re /\ P re = Q re) ->
  (forall i, 0 <= i < ZEBRA_ROUTE_MAX -> i <> ZEBRA_ROUTE_BGP ->
     count (fun re => P re && (route_bucket re =? i)) l
     = count (fun re => Q re && (re_type re =? i)) l)
  /\ count (fun re => Q re && (re_type re =? ZEBRA_ROUTE_BGP)) l
     = count (fun re => P re && (route_bucket re =? ZEBRA_ROUTE_BGP)) l
       + count (fun re => P re && (route_bucket re =? ZEBRA_ROUTE_IBGP)) l
  /\ count (fun re => Q re && is_ibgp re) l
     = count (fun re => P re && (route_bucket re =? ZEBRA_ROUTE_IBGP)) l.
Proof.
  intros H. split; [| split].
  - intros i Hi Hne. apply count_ext. intros re Hin.
    destruct (H re Hin) as [Hv HPQ].
    rewrite HPQ, (route_bucket_type re i Hi). f_equal.
    destruct (is_ibgp re) eqn:Hib; [| reflexivity].
    apply is_ibgp_bgp, Z.eqb_eq in Hib. symmetry. apply Z.eqb_neq. congruence.
  - rewrite (count_split
               (fun re => Q re && (re_type re =? ZEBRA_ROUTE_BGP)) is_ibgp).
    rewrite Z.add_comm. f_equal; apply count_ext; intros re Hin;
      destruct (H re Hin) as [Hv HPQ]; rewrite HPQ.
    + rewrite (route_bucket_type re ZEBRA_ROUTE_BGP route_bgp_range).
      destruct (Q re), (is_ibgp re), (re_type re =? ZEBRA_ROUTE_BGP);
        reflexivity.
    + rewrite (route_bucket_ibgp re Hv).
      destruct (is_ibgp re) eqn:Hib.
      * rewrite (is_ibgp_bgp re Hib). now destruct (Q re).
      * now rewrite !andb_false_r.
  - apply count_ext. intros re Hin. destruct (H re Hin) as [Hv HPQ].
    now rewrite HPQ, (route_bucket_ibgp re Hv).
Qed.

Lemma flat_map_ext_in {A B : Type} (f g : A -> list B) (l : list A) :
  (forall x, In x l -> f x = g x) -> flat_map f l = flat_map g l.
Proof.
  induction l as [| x l IH]; intros H; simpl; [reflexivity |].
  rewrite (H x (or_introl eq_refl)), IH; [reflexivity |].
  intros y Hy. apply H. now right.
Qed.

(** X3. The two summaries print the same rows: on a table with valid
    route types and fewer than 2^32 entries, in which every entry has a
    nexthop and is flagged SELECTED exactly when its first nexthop is
    flagged FIB, the per-route and the per-prefix summary differ only in
    their header line. *)
Theorem summaries_print_same_rows (table : route_table) :
  all_valid table ->
  Z.of_nat (List.length (table_entries table)) < 2 ^ 32 ->
  (forall re, In re (table_entries table) ->
     has_nexthop re = true /\ is_selected re = first_nexthop_fib re) ->
  tl (vty_show_ip_route_summary table)
  = tl (vty_show_ip_route_summary_prefix table).
Proof.
  intros Hv Hlen Hre.
  set (l := table_entries table).
  assert (Hrib : forall re, In re l ->
                   valid_type re /\ (fun _ => true) re = has_nexthop re).
  { intros re Hin. split; [now apply Hv |]. symmetry. now apply Hre. }
  assert (Hfib : forall re, In re l ->
                   valid_type re /\ is_selected re = first_nexthop_fib re).
  { intros re Hin. split; [now apply Hv | now apply Hre]. }
  destruct (bucket_counts_vs_type_counts _ _ l Hrib) as [Hr1 [Hr2 Hr3]].
  destruct (bucket_counts_vs_type_counts _ _ l Hfib) as [Hf1 [Hf2 Hf3]].
  pose proof bgp_not_total as Hbt. pose proof bgp_not_ibgp as Hbi.
  pose proof (not_eq_sym total_not_ibgp) as Hit.
  (* the counters of the two walks, as counts *)
  assert (Ertype : forall i, 0 <= i < ZEBRA_ROUTE_MAX ->
            rib_cnt (summary_prefix_count table) i
            = count (fun re => has_nexthop re && (re_type re =? i)) l).
  { intros i Hi. rewrite summary_prefix_rib_type
      by (unfold ZEBRA_ROUTE_TOTAL, ZEBRA_ROUTE_IBGP; lia).
    now apply u32_count. }
  assert (Eftype : forall i, 0 <= i < ZEBRA_ROUTE_MAX ->
            fib_cnt (summary_prefix_count table) i
            = count (fun re => first_nexthop_fib re && (re_type re =? i)) l).
  { intros i Hi. rewrite summary_prefix_fib_type
      by (unfold ZEBRA_ROUTE_TOTAL, ZEBRA_ROUTE_IBGP; lia).
    now apply u32_count. }
  assert (Erb : forall i, i <> ZEBRA_ROUTE_TOTAL ->
            rib_cnt (summary_count table) i
            = count (fun re => true && (route_bucket re =? i)) l).
  { intros i Hi. rewrite summary_rib_bucket by exact Hi. now apply u32_count. }
  assert (Efb : forall i, i <> ZEBRA_ROUTE_TOTAL ->
            fib_cnt (summary_count table) i
            = count (fun re => is_selected re && (route_bucket re =? i)) l).
  { intros i Hi. rewrite summary_fib_bucket by exact Hi. now apply u32_count. }
  assert (Eri : rib_cnt (summary_prefix_count table) ZEBRA_ROUTE_IBGP
                = count (fun re => has_nexthop re && is_ibgp re) l).
  { rewrite summary_prefix_rib_ibgp by exact Hv. now apply u32_count. }
  assert (Efi : fib_cnt (summary_prefix_count table) ZEBRA_ROUTE_IBGP
                = count (fun re => first_nexthop_fib re && is_ibgp re) l).
  { rewrite summary_prefix_fib_ibgp by exact Hv. now apply u32_count. }
  unfold vty_show_ip_route_summary, vty_show_ip_route_summary_prefix.
  cbn [tl]. f_equal.
  - apply flat_map_ext_in. intros i Hi. apply upto_iff in Hi.
    unfold summary_rows, summary_prefix_rows.
    destruct (Z.eqb_spec i ZEBRA_ROUTE_BGP) as [-> | Hne].
    + rewrite (Ertype _ route_bgp_range), (Eftype _ route_bgp_range).
      rewrite Eri, Efi, !Erb, !Efb by assumption.
      rewrite Hr2, Hr3, Hf2, Hf3.
      set (rb := count (fun re => true
                                  && (route_bucket re =? ZEBRA_ROUTE_BGP)) l).
      set (ri := count (fun re => true
                                  && (route_bucket re =? ZEBRA_ROUTE_IBGP)) l).
      set (fb := count (fun re => is_selected re
                                  && (route_bucket re =? ZEBRA_ROUTE_BGP)) l).
      set (fi := count (fun re => is_selected re
                                  && (route_bucket re =? ZEBRA_ROUTE_IBGP)) l).
      assert (Hrb : 0 <= rb <= Z.of_nat (List.length l)) by apply count_bounds.
      assert (Hri : 0 <= ri <= Z.of_nat (List.length l)) by apply count_bounds.
      assert (Hfb : 0 <= fb <= Z.of_nat (List.length l)) by apply count_bounds.
      assert (Hfi : 0 <= fi <= Z.of_nat (List.length l)) by apply count_bounds.
      replace (rb + ri - ri) with rb by lia.
      replace (fb + fi - fi) with fb by lia.
      rewrite !u32_small by (fold l in Hlen; lia).
      cbn [andb].
      destruct (Z.ltb_spec 0 rb), (Z.ltb_spec 0 ri), (Z.ltb_spec 0 (rb + ri));
        cbn [orb]; try reflexivity; lia.
    + rewrite (Ertype i Hi), (Eftype i Hi), Erb, Efb
        by (unfold ZEBRA_ROUTE_TOTAL, ZEBRA_ROUTE_IBGP; lia).
      rewrite (Hr1 i Hi Hne), (Hf1 i Hi Hne). cbn [andb].
      now rewrite orb_false_r.
  - unfold summary_footer.
    rewrite summary_rib_total, summary_prefix_rib_total, summary_fib_total,
      summary_prefix_fib_total by exact Hv.
    fold l.
    assert (count has_nexthop l = Z.of_nat (List.length l)) as ->.
    { apply count_all. intros re Hin. now apply Hre. }
    assert (count is_selected l = count first_nexthop_fib l) as ->.
    { apply count_ext. intros re Hin. now apply Hre. }
    reflexivity.
Qed.

End BucketProofs.

(** Witness of X1 on the sample summary table. *)
Lemma summary_totals_are_bucket_sums_witness :
  all_valid (K := sample_consts) summary_table
  /\ Z.of_nat (List.length (table_entries summary_table)) < 2 ^ 32
  /\ rib_cnt (summary_count (K := sample_consts) summary_table)
       (ZEBRA_ROUTE_TOTAL (K := sample_consts))
     = bucket_sum (K := sample_consts) true
         (rib_cnt (summary_count (K := sample_consts) summary_table)).
Proof.
  assert (Hv : all_valid (K := sample_consts) summary_table).
  { intros re [<- | [<- | [<- | []]]]; unfold valid_type; simpl; lia. }
  assert (Hl : Z.of_nat (List.length (table_entries summary_table)) < 2 ^ 32).
  { simpl. lia. }
  split; [exact Hv | split; [exact Hl |]].
  exact (proj1 (summary_totals_are_bucket_sums (K := sample_consts)
                  summary_table Hv Hl)).
Defined.

(** Witness of X2 on the sample summary table. *)
Lemma summary_prefix_totals_are_type_sums_witness :
  all_valid (K := sample_consts) summary_table
  /\ Z.of_nat (List.length (table_entries summary_table)) < 2 ^ 32
  /\ rib_cnt (summary_prefix_count (K := sample_consts) summary_table)
       (ZEBRA_ROUTE_TOTAL (K := sample_consts))
     = bucket_sum (K := sample_consts) false
         (rib_cnt (summary_prefix_count (K := sample_consts) summary_table)).
Proof.
  assert (Hv : all_valid (K := sample_consts) summary_table).
  { intros re [<- | [<- | [<- | []]]]; unfold valid_type; simpl; lia. }
  assert (Hl : Z.of_nat (List.length (table_entries summary_table)) < 2 ^ 32).
  { simpl. lia. }
  split; [exact Hv | split; [exact Hl |]].
  exact (proj1 (summary_prefix_totals_are_type_sums (K := sample_consts)
                  summary_table Hv Hl)).
Defined.

(** Witness of X3 on the sample summary table. *)
Lemma summaries_print_same_rows_witness :
  all_valid (K := sample_consts) summary_table
  /\ Z.of_nat (List.length (table_entries summary_table)) < 2 ^ 32
  /\ (forall re, In re (table_entries summary_table) ->
        has_nexthop re = true
        /\ is_selected (K := sample_consts) re
           = first_nexthop_fib (K := sample_consts) re)
  /\ tl (vty_show_ip_route_summary (K := sample_consts) summary_table)
     = tl (vty_show_ip_route_summary_prefix (K := sample_consts)
             summary_table).
Proof.
  assert (Hv : all_valid (K := sample_consts) summary_table).
  { intros re [<- | [<- | [<- | []]]]; unfold valid_type; simpl; lia. }
  assert (Hl : Z.of_nat (List.length (table_entries summary_table)) < 2 ^ 32).
  { simpl. lia. }
  assert (Hre : forall re, In re (table_entries summary_table) ->
                  has_nexthop re = true
                  /\ is_selected (K := sample_consts) re
                     = first_nexthop_fib (K := sample_consts) re).
  { intros re [<- | [<- | [<- | []]]]; split; reflexivity. }
  split; [exact Hv | split; [exact Hl | split; [exact Hre |]]].
  exact (summaries_print_same_rows (K := sample_consts) summary_table Hv Hl
           Hre).
Defined.

(** ** The walk of [do_show_ip_route] as a sequence *)

Lemma show_entries_seq (flt : route_node -> route_entry -> bool)
    (hdr : list vty_item) (use_json : bool) (rn : route_node)
    (res : list route_entry) (first : bool) :
  let shown := map (Route rn) (filter (flt rn) res) in
  show_entries flt hdr use_json rn res first
  = (if use_json then first
     else first && match shown with [] => true | _ :: _ => false end,
     (if negb use_json && first then header_if_any hdr shown else [])
     ++ shown).
Proof.
  cbv zeta. revert first. induction res as [| re res IH]; intros first.
  - simpl. destruct use_json, first; reflexivity.
  - simpl. destruct (flt rn re) eqn:Hf.
    + rewrite IH. simpl. destruct use_json; simpl; [reflexivity |].
      destruct first; reflexivity.
    + apply IH.
Qed.

Lemma show_nodes_seq (flt : route_node -> route_entry -> bool)
    (hdr : list vty_item) (use_json : bool) (nodes : list route_node)
    (first : bool) :
  show_nodes flt hdr use_json nodes first
  = (if negb use_json && first
     then header_if_any hdr (shown_routes flt nodes) else [])
    ++ shown_routes flt nodes.
Proof.
  revert first. induction nodes as [| rn nodes IH]; intros first.
  - simpl. now destruct (negb use_json && first).
  - simpl. rewrite show_entries_seq. cbv zeta. rewrite IH.
    destruct use_json; simpl; [reflexivity |].
    destruct first; simpl; [| reflexivity].
    destruct (map (Route rn) (filter (flt rn) (rnode_entries rn)))
      as [| it shown]; simpl; [reflexivity |].
    now rewrite <- app_assoc.
Qed.

Lemma shown_routes_none (flt : route_node -> route_entry -> bool)
    (nodes : list route_node) :
  (forall rn re, In rn nodes -> In re (rnode_entries rn) ->
                 flt rn re = false) ->
  shown_routes flt nodes = [].
Proof.
  induction nodes as [| rn nodes IH]; intros H; simpl; [reflexivity |].
  rewrite IH by (intros n r Hn; apply H; now right).
  rewrite app_nil_r.
  assert (Hnone : filter (flt rn) (rnode_entries rn) = []).
  { assert (Hall : forall re, In re (rnode_entries rn) -> flt rn re = false)
      by (intros re; apply H; now left).
    induction (rnode_entries rn) as [| re res IHres]; simpl; [reflexivity |].
    rewrite (Hall re (or_introl eq_refl)). apply IHres.
    intros r Hr. apply Hall. now right. }
  now rewrite Hnone.
Qed.

(** The array of a node: made for the first entry the filter keeps,
    and then holding every entry kept. *)
Lemma json_entries_filter (flt : route_node -> route_entry -> bool)
    (rn : route_node) (res : list route_entry)
    (json_prefix : option (list route_entry)) :
  json_entries flt rn res json_prefix
  = match json_prefix, filter (flt rn) res with
    | None, [] => None
    | None, re :: kept => Some (re :: kept)
    | Some arr, kept => Some (arr ++ kept)
    end.
Proof.
  revert json_prefix. induction res as [| re res IH]; intros json_prefix.
  - simpl. destruct json_prefix as [arr |]; [| reflexivity].
    now rewrite app_nil_r.
  - simpl. destruct (flt rn re).
    + rewrite IH. destruct json_prefix as [arr |]; [| reflexivity].
      now rewrite <- app_assoc.
    + apply IH.
Qed.

Lemma json_nodes_members (flt : route_node -> route_entry -> bool)
    (nodes : list route_node) (json : list (route_node * list route_entry)) :
  json_nodes flt nodes json = json ++ json_members flt nodes.
Proof.
  revert json. induction nodes as [| rn nodes IH]; intros json.
  - simpl. now rewrite app_nil_r.
  - simpl. rewrite IH, json_entries_filter.
    destruct (filter (flt rn) (rnode_entries rn)) as [| re kept];
      [reflexivity |].
    now rewrite <- app_assoc.
Qed.

Section WalkTheorems.
Context {K : zebra_consts} {E : zebra_env}.

(** X4. The route table display as a sequence: when the VRF is known
    and active and has a table, the command succeeds and hands the
    entries that pass the filter to the entry renderer in walk order,
    each once. In text mode the header is written once, before the
    first of them, and not at all when no entry passes, and nothing
    else is written. In JSON mode no header is written and the walk is
    followed by one write of the document, whose members are, in walk
    order, the nodes with an entry that passes, each with the array of
    its passing entries. *)
Theorem show_route_walk_order (vrf_name : string) (afi : afi_t)
    (safi : safi_t) (use_fib use_json : bool) (tag : Z)
    (longer_prefix_p : option prefix) (supernets_only : bool) (type : Z)
    (ospf_instance_id : Z) (zvrf : zebra_vrf) (table : route_table) :
  zebra_vrf_lookup_by_name (Some vrf_name) = Some zvrf ->
  zvrf_id zvrf <> VRF_UNKNOWN ->
  zebra_vrf_table afi safi (zvrf_id zvrf) = Some table ->
  let flt := show_filter use_fib tag longer_prefix_p supernets_only type
               ospf_instance_id in
  let shown := shown_routes flt (rt_nodes table) in
  do_show_ip_route vrf_name afi safi use_fib use_json tag longer_prefix_p
    supernets_only type ospf_instance_id
  = (CMD_SUCCESS,
     if use_json
     then shown ++ [Json (json_members flt (rt_nodes table))]
     else header_if_any (show_header afi zvrf) shown ++ shown).
Proof.
  intros Hvrf Hid Htab flt shown. subst flt shown.
  unfold do_show_ip_route.
  rewrite Hvrf. apply Z.eqb_neq in Hid. rewrite Hid, Htab. cbv zeta.
  rewrite show_nodes_seq, json_nodes_members.
  destruct use_json; [reflexivity |]. cbn [negb andb app].
  now rewrite app_nil_r.
Qed.

(** X5. The route table display never fails: whatever its arguments it
    returns success; for a VRF that is unknown, inactive or without a
    table for the address family no entry is rendered, and in JSON mode
    the output is then the empty object alone. *)
Theorem show_route_never_fails (vrf_name : string) (afi : afi_t)
    (safi : safi_t) (use_fib use_json : bool) (tag : Z)
    (longer_prefix_p : option prefix) (supernets_only : bool) (type : Z)
    (ospf_instance_id : Z) :
  let r := do_show_ip_route vrf_name afi safi use_fib use_json tag
             longer_prefix_p supernets_only type ospf_instance_id in
  let no_table :=
    match zebra_vrf_lookup_by_name (Some vrf_name) with
    | None => true
    | Some zvrf =>
        (zvrf_id zvrf =? VRF_UNKNOWN)
        || match zebra_vrf_table afi safi (zvrf_id zvrf) with
           | None => true
           | Some _ => false
           end
    end in
  fst r = CMD_SUCCESS
  /\ (no_table = true ->
      (forall rn re, ~ In (Route rn re) (snd r))
      /\ (use_json = true -> snd r = [Text ("{}" ++ nl)%string])).
Proof.
  cbv zeta. unfold do_show_ip_route.
  destruct (zebra_vrf_lookup_by_name (Some vrf_name)) as [zvrf |].
  - destruct (zvrf_id zvrf =? VRF_UNKNOWN); simpl.
    + split; [reflexivity |]. intros _. split.
      * intros rn re. destruct use_json; intros [H | []]; discriminate.
      * now intros ->.
    + destruct (zebra_vrf_table afi safi (zvrf_id zvrf)); simpl.
      * split; [reflexivity | discriminate].
      * split; [reflexivity |]. intros _. split.
        -- intros rn re. destruct use_json; simpl; [| tauto].
           intros [H | []]. discriminate.
        -- now intros ->.
  - simpl. split; [reflexivity |]. intros _. split.
    + intros rn re. destruct use_json; intros [H | []]; discriminate.
    + now intros ->.
Qed.

End WalkTheorems.

(** Witness of X4: the static route of the sample table in JSON mode,
    followed by the document with its one member. *)
Lemma show_route_walk_order_witness :
  zebra_vrf_lookup_by_name (zebra_env := sample_env) (Some "default"%string)
  = Some default_zvrf
  /\ zvrf_id default_zvrf <> VRF_UNKNOWN (zebra_consts := sample_consts)
  /\ zebra_vrf_table (zebra_env := sample_env) AFI_IP SAFI_UNICAST
       (zvrf_id default_zvrf) = Some sample_table
  /\ do_show_ip_route (K := sample_consts) (E := sample_env) "default"
       AFI_IP SAFI_UNICAST false true 0 None false 0 0
     = (CMD_SUCCESS,
        [Route node10 sample_static; Json [(node10, [sample_static])]]).
Proof.
  assert (Hid : zvrf_id default_zvrf
                <> VRF_UNKNOWN (zebra_consts := sample_consts))
    by discriminate.
  split; [reflexivity | split; [exact Hid | split; [reflexivity |]]].
  exact (show_route_walk_order (K := sample_consts) (E := sample_env)
           "default" AFI_IP SAFI_UNICAST false true 0 None false 0 0
           default_zvrf sample_table eq_refl Hid eq_refl).
Defined.

(** The same table in text mode: the header, then the route. *)
Example show_route_walk_text :
  do_show_ip_route (K := sample_consts) (E := sample_env) "default"
    AFI_IP SAFI_UNICAST false false 0 None false 0 0
  = (CMD_SUCCESS,
     [Text (SHOW_ROUTE_V4_HEADER (zebra_consts := sample_consts));
      Route node10 sample_static]).
Proof. reflexivity. Qed.

(** ** [show ip rpf] *)

Section RpfTheorems.
Context {K : zebra_consts} {E : zebra_env} {C : cli_env}.

Lemma json_members_none (flt : route_node -> route_entry -> bool)
    (nodes : list route_node) :
  (forall rn re, In rn nodes -> In re (rnode_entries rn) ->
                 flt rn re = false) ->
  json_members flt nodes = [].
Proof.
  induction nodes as [| rn nodes IH]; intros H; simpl; [reflexivity |].
  rewrite IH by (intros n r Hn; apply H; now right).
  rewrite app_nil_r.
  assert (Hall : forall re, In re (rnode_entries rn) -> flt rn re = false)
    by (intros re; apply H; now left).
  assert (Hnone : filter (flt rn) (rnode_entries rn) = []).
  { induction (rnode_entries rn) as [| re res IHres]; simpl; [reflexivity |].
    rewrite (Hall re (or_introl eq_refl)). apply IHres.
    intros r Hr. apply Hall. now right. }
  now rewrite Hnone.
Qed.

(** X6. [show ip rpf] renders no route: the command passes -1 as the
    route type to the table display, whose type filter then drops every
    entry of a multicast table with valid route types. The command
    succeeds; in text mode nothing is written, not even the header; in
    JSON mode the one thing written is the document, which has no
    member. *)
Theorem show_ip_rpf_renders_nothing (argv : list cmd_token)
    (zvrf : zebra_vrf) (table : route_table) :
  zebra_vrf_lookup_by_name (Some VRF_DEFAULT_NAME) = Some zvrf ->
  zvrf_id zvrf <> VRF_UNKNOWN ->
  zebra_vrf_table AFI_IP SAFI_MULTICAST (zvrf_id zvrf) = Some table ->
  all_valid table ->
  show_ip_rpf argv
  = (CMD_SUCCESS, if use_json argv then [Json []] else []).
Proof.
  intros Hvrf Hid Htab Hv.
  assert (Hdrop : forall rn re,
            In rn (rt_nodes table) -> In re (rnode_entries rn) ->
            show_filter false 0 None false (-1) 0 rn re = false).
  { intros rn re Hrn Hre.
    assert (Hty : valid_type re).
    { apply Hv. unfold table_entries. apply in_flat_map. now exists rn. }
    unfold show_filter, valid_type in *. cbn [andb negb Z.eqb].
    destruct (Z.eqb_spec (re_type re) (-1)) as [Heq | Hne]; [lia |].
    reflexivity. }
  unfold show_ip_rpf, do_show_ip_route.
  rewrite Hvrf. apply Z.eqb_neq in Hid. rewrite Hid, Htab. cbv zeta.
  rewrite show_nodes_seq, json_nodes_members.
  rewrite shown_routes_none, json_members_none by exact Hdrop.
  now destruct (use_json argv).
Qed.

End RpfTheorems.

(** Witness of X6: the multicast table of the sample environment holds
    three routes; none is shown and with [json] the document is
    empty. *)
Lemma show_ip_rpf_renders_nothing_witness :
  zebra_vrf_lookup_by_name (zebra_env := mcast_env)
    (Some (VRF_DEFAULT_NAME (cli_env := sample_cli))) = Some default_zvrf
  /\ zvrf_id default_zvrf <> VRF_UNKNOWN (zebra_consts := sample_consts)
  /\ zebra_vrf_table (zebra_env := mcast_env) AFI_IP SAFI_MULTICAST
       (zvrf_id default_zvrf) = Some summary_table
  /\ all_valid (K := sample_consts) summary_table
  /\ show_ip_rpf (K := sample_consts) (E := mcast_env) (C := sample_cli)
       [keyword "show"; keyword "ip"; keyword "rpf"; keyword "json"]
     = (CMD_SUCCESS, [Json []]).
Proof.
  assert (Hid : zvrf_id default_zvrf
                <> VRF_UNKNOWN (zebra_consts := sample_consts))
    by discriminate.
  assert (Hv : all_valid (K := sample_consts) summary_table).
  { intros re [<- | [<- | [<- | []]]]; unfold valid_type; simpl; lia. }
  split; [reflexivity | split; [exact Hid | split; [reflexivity |]]].
  split; [exact Hv |].
  exact (show_ip_rpf_renders_nothing (K := sample_consts) (E := mcast_env)
           (C := sample_cli)
           [keyword "show"; keyword "ip"; keyword "rpf"; keyword "json"]
           default_zvrf summary_table eq_refl Hid eq_refl Hv).
Defined.

(** ** [use_fib] *)

Lemma char_code_eq (c d : ascii) : char_code c - char_code d = 0 -> c = d.
Proof.
  unfold char_code. intros H.
  assert (Hn : N_of_ascii c = N_of_ascii d) by lia.
  rewrite <- (ascii_N_embedding c), <- (ascii_N_embedding d). now rewrite Hn.
Qed.

Lemma char_code_zero (c : ascii) : char_code c = 0 -> c = zero.
Proof.
  intros H. apply char_code_eq. rewrite H. reflexivity.
Qed.

(** Comparing the whole of a C string [s] against [t] yields 0 exactly
    when [s] is a prefix of [t]. *)
Lemma strncmp_prefix (s t : string) :
  c_string s ->
  (strncmp s t (strlen s) =? 0) = String.prefix s t.
Proof.
  revert t. induction s as [| c s IH]; intros t Hs.
  - now destruct t.
  - destruct Hs as [Hc Hs].
    destruct t as [| d t]; cbn [strlen String.length strncmp String.prefix].
    + apply Z.eqb_neq. intros H. apply Hc, char_code_zero. lia.
    + destruct (ascii_dec c d) as [-> | Hne].
      * rewrite Z.sub_diag. cbn [Z.eqb]. now apply IH.
      * destruct (Z.eqb_spec (char_code c - char_code d) 0) as [H0 | H0].
        -- now apply char_code_eq in H0.
        -- now apply Z.eqb_neq.
Qed.

(** X7. [use_fib] answers false exactly when the text of the token is
    "route" or a prefix of it, the empty text included, and true for
    every other text, "fib" among them. *)
Theorem use_fib_route_prefix (token : cmd_token) :
  c_string (tok_arg token) ->
  use_fib token = negb (String.prefix (tok_arg token) "route").
Proof.
  intros Hs. unfold use_fib. now rewrite strncmp_prefix.
Qed.

(** Witness of X7 on the keyword [fib]. *)
Lemma use_fib_route_prefix_witness :
  c_string (tok_arg (keyword "fib"))
  /\ use_fib (keyword "fib")
     = negb (String.prefix (tok_arg (keyword "fib")) "route").
Proof.
  assert (Hs : c_string (tok_arg (keyword "fib"))).
  { simpl. repeat split; discriminate. }
  split; [exact Hs |].
  exact (use_fib_route_prefix (keyword "fib") Hs).
Defined.

(** ** The width of an age *)

(** X8. Every age is written with eight characters, whichever of the
    three formats applies, so the column of ages stays aligned. *)
Theorem uptime_width (u : Z) : String.length (uptime_fmt u) = 8%nat.
Proof.
  destruct (gmtime_clock u) as [Hh [Hm Hs]].
  destruct (clock_bounds u) as [Bh [Bm Bs]].
  unfold uptime_fmt, ONE_DAY_SECOND, ONE_WEEK_SECOND.
  destruct (Z.ltb_spec u (60 * 60 * 24)).
  - rewrite Hh, Hm, Hs. now rewrite !fmt_02d_two_digits by lia.
  - destruct (Z.ltb_spec u (60 * 60 * 24 * 7)).
    + rewrite Hh, Hm, gmtime_yday_first_year by lia.
      rewrite !fmt_02d_two_digits by lia.
      rewrite fmt_d_one_digit; [reflexivity |].
      split; [apply Z.div_pos; lia | apply Z.div_lt_upper_bound; lia].
    + pose proof (gmtime_yday_bounds u ltac:(lia)) as By.
      set (yd := tm_yday (gmtime u)) in *.
      assert (Hw : 0 <= yd / 7 < 100).
      { split; [apply Z.div_pos; lia | apply Z.div_lt_upper_bound; lia]. }
      assert (Hd : yd - yd / 7 * 7 = yd mod 7)
        by (rewrite Z.mod_eq by lia; lia).
      pose proof (Z.mod_pos_bound yd 7 ltac:(lia)) as Bd.
      rewrite Hh. rewrite !fmt_02d_two_digits by lia.
      rewrite fmt_d_one_digit by lia. reflexivity.
Qed.

(** ** Adding and withdrawing a static route *)

Section StaticSymmetry.
Context {K : zebra_consts} {E : zebra_env}.

Lemma validate_with_negate (a : static_args) (no : option string) :
  static_route_validate (with_negate a no) = static_route_validate a.
Proof. reflexivity. Qed.

(** X9. A withdraw mirrors the add: with the same arguments the [no]
    form of a static route command passes the same checks, writes the
    same output and returns the same result as the plain form, and when
    the plain form sends an add request the [no] form sends a withdraw
    request for the same address family, table, type, destination,
    source, gateway, interface index, tag, distance, VRF and labels. *)
Theorem static_route_withdraw_mirrors_add (a : static_args) (no : string) :
  let add := zebra_static_route (with_negate a None) in
  let del := zebra_static_route (with_negate a (Some no)) in
  sr_ret del = sr_ret add
  /\ sr_out del = sr_out add
  /\ map request_identity (sr_rib del) = map request_identity (sr_rib add)
  /\ forallb is_add (sr_rib add) = true
  /\ forallb (fun rq => negb (is_add rq)) (sr_rib del) = true.
Proof.
  cbv zeta. unfold zebra_static_route, static_route_body.
  rewrite !validate_with_negate.
  destruct (static_route_validate a) as [v o | r o]; cbn [vty_bind].
  - change (afi (with_negate a None)) with (afi a).
    change (afi (with_negate a (Some no))) with (afi a).
    change (gate_str (with_negate a None)) with (gate_str a).
    change (gate_str (with_negate a (Some no))) with (gate_str a).
    change (ifname (with_negate a None)) with (ifname a).
    change (ifname (with_negate a (Some no))) with (ifname a).
    change (flag_str (with_negate a None)) with (flag_str a).
    change (flag_str (with_negate a (Some no))) with (flag_str a).
    destruct (static_route_nexthop (afi a) (gate_str a) (ifname a)
                (flag_str a) (v_zvrf v)) as [n o' | r o']; simpl;
      repeat split; reflexivity.
  - simpl. repeat split; reflexivity.
Qed.

(** What a successful call leaves in the request. *)
Lemma static_route_request (a : static_args) (rq : rib_request)
    (o : list vty_item) :
  static_route_body a = Continue rq o ->
  exists v n o1 o2,
    static_route_validate a = Continue v o1
    /\ static_route_nexthop (afi a) (gate_str a) (ifname a) (flag_str a)
         (v_zvrf v) = Continue n o2
    /\ rq = static_request a v n.
Proof.
  unfold static_route_body. intros H.
  apply bind_continue in H. destruct H as [v [o1 [o2 [Hv [H _]]]]].
  apply bind_continue in H. destruct H as [n [o3 [o4 [Hn [H _]]]]].
  unfold pass in H. injection H as <- _.
  now exists v, n, o1, o3.
Qed.

Lemma validate_tag_labels (a : static_args) (v : validated)
    (o : list vty_item) :
  static_route_validate a = Continue v o ->
  (tag_str a = None -> v_tag v = 0)
  /\ (label_str a = None ->
      v_snh_label v = {| num_labels := 0; label := [] |}).
Proof.
  unfold static_route_validate. intros H.
  apply bind_continue in H. destruct H as [p [o1 [o2 [_ [H _]]]]].
  apply bind_continue in H. destruct H as [ps [o3 [o4 [_ [H _]]]]].
  apply bind_continue in H. destruct H as [z [o5 [o6 [_ [H _]]]]].
  apply bind_continue in H. destruct H as [snh [o7 [o8 [Hl [H _]]]]].
  unfold pass in H. injection H as <- _. cbn [v_tag v_snh_label]. split.
  - now intros ->.
  - intros Hnone. unfold static_labels in Hl. rewrite Hnone in Hl.
    unfold pass in Hl. now injection Hl as <-.
Qed.

(** X10. [ip mroute] can fail in three ways only: a malformed
    destination, an undefined default VRF or a malformed gateway
    address, each with its own message, a config-failure result and no
    request. Otherwise it succeeds with one request, which names the
    IPv4 multicast table and carries tag 0 and no labels. *)
Theorem ip_mroute_outcomes (no : option string) (prefix_str : string)
    (gate ifn distance : option string) :
  let r := ip_mroute_dist no prefix_str gate ifn distance in
  (sr_ret r = CMD_SUCCESS
   /\ exists rq,
        sr_rib r = [rq]
        /\ ri_afi (request_identity rq) = AFI_IP
        /\ ri_safi (request_identity rq) = SAFI_MULTICAST
        /\ ri_tag (request_identity rq) = 0
        /\ ri_snh_label (request_identity rq)
           = {| num_labels := 0; label := [] |})
  \/ (sr_ret r = CMD_WARNING_CONFIG_FAILED
      /\ sr_rib r = []
      /\ (sr_out r = [Text msg_malformed_address]
          \/ sr_out r = [Text (msg_vrf_undefined None)]
          \/ exists g, gate = Some g
                       /\ sr_out r = [Text (msg_malformed_nexthop g)])).
Proof.
  cbv zeta. unfold ip_mroute_dist.
  set (a := {| afi := AFI_IP; safi := SAFI_MULTICAST; negate := no;
               dest_str := prefix_str; mask_str := None; src_str := None;
               gate_str := gate; ifname := ifn; flag_str := None;
               tag_str := None; distance_str := distance;
               vrf_id_str := None; label_str := None |}).
  pose proof (stage_body a) as Hb. unfold stage in Hb.
  unfold zebra_static_route.
  destruct (first_failing code_order a) as [c |] eqn:Hc.
  - right. rewrite Hb. cbn [sr_ret sr_rib sr_out].
    split; [reflexivity | split; [reflexivity |]].
    unfold first_failing, code_order in Hc. subst a.
    cbn [find check_fails dest_str afi mask_str src_str vrf_id_str label_str
         flag_str ifname gate_str check_report] in *.
    destruct (str2prefix prefix_str).
    2:{ injection Hc as <-. now left. }
    destruct (zebra_vrf_lookup_by_name None).
    2:{ injection Hc as <-. right; now left. }
    assert (Hn0 : match ifn with
                  | Some _ => false
                  | None => false
                  end = false) by now destruct ifn.
    rewrite Hn0 in Hc.
    destruct gate as [g |]; [| discriminate].
    destruct (inet_pton (afi2family AFI_IP) g); [discriminate |].
    injection Hc as <-. right; right. exists g. now split.
  - left. destruct Hb as [rq [o Hb]]. rewrite Hb. cbn [sr_ret sr_rib].
    split; [reflexivity |]. exists rq. split; [reflexivity |].
    destruct (static_route_request a rq o Hb) as [v [n [o1 [o2 [Hv [_ ->]]]]]].
    destruct (validate_tag_labels a v o1 Hv) as [Ht Hl].
    unfold static_request. destruct (negate a); cbn [request_identity ri_afi
      ri_safi ri_tag ri_snh_label]; repeat split; auto.
Qed.

End StaticSymmetry.

(** ** Lookups and multicast routes across all VRFs *)

Section VrfAllTheorems.
Context {K : zebra_consts} {E : zebra_env} {C : cli_env}.

Lemma vrf_all_addr_cons (p : prefix) (v : vrf) (vrfs : list vrf) :
  vrf_all_addr p (v :: vrfs)
  = match vrf_table v AFI_IP SAFI_UNICAST with
    | Some table =>
        match route_node_match table p with
        | Some rn => Detail rn 0 :: vrf_all_addr p vrfs
        | None => vrf_all_addr p vrfs
        end
    | None => vrf_all_addr p vrfs
    end.
Proof.
  unfold vrf_table. cbn [vrf_all_addr]. now destruct (vrf_info v).
Qed.

Lemma vrf_all_prefix_cons (p : prefix) (v : vrf) (vrfs : list vrf) :
  vrf_all_prefix p (v :: vrfs)
  = match vrf_table v AFI_IP SAFI_UNICAST with
    | Some table =>
        match route_node_match table p with
        | Some rn =>
            if prefixlen (rn_p rn) =? prefixlen p
            then Detail rn 0 :: vrf_all_prefix p vrfs
            else vrf_all_prefix p vrfs
        | None => vrf_all_prefix p vrfs
        end
    | None => vrf_all_prefix p vrfs
    end.
Proof.
  unfold vrf_table. cbn [vrf_all_prefix].
  destruct (vrf_info v) as [zvrf |]; [| reflexivity].
  destruct (zd_table zvrf AFI_IP SAFI_UNICAST) as [t |]; [| reflexivity].
  destruct (route_node_match t p) as [rn |]; [| reflexivity].
  now destruct (prefixlen (rn_p rn) =? prefixlen p).
Qed.

Lemma vrf_all_addr_in (p : prefix) (vrfs : list vrf) (it : vty_item) :
  In it (vrf_all_addr p vrfs)
  <-> exists v table rn,
        In v vrfs /\ vrf_table v AFI_IP SAFI_UNICAST = Some table
        /\ route_node_match table p = Some rn /\ it = Detail rn 0.
Proof.
  induction vrfs as [| v vrfs IH].
  - simpl. split; [tauto | now intros [v [t [rn [[] _]]]]].
  - rewrite vrf_all_addr_cons.
    assert (Htail : In it (vrf_all_addr p vrfs) ->
                    exists v' table rn,
                      In v' (v :: vrfs)
                      /\ vrf_table v' AFI_IP SAFI_UNICAST = Some table
                      /\ route_node_match table p = Some rn
                      /\ it = Detail rn 0).
    { intros Hin. apply IH in Hin. destruct Hin as [v' [t [rn [Hin H]]]].
      exists v', t, rn. split; [now right | exact H]. }
    destruct (vrf_table v AFI_IP SAFI_UNICAST) as [t |] eqn:Ht.
    + destruct (route_node_match t p) as [rn |] eqn:Hm.
      * split.
        -- intros [<- | Hin]; [| now apply Htail].
           exists v, t, rn. split; [now left | auto].
        -- intros [v' [t' [rn' [[<- | Hin] [Ht' [Hm' Hit]]]]]].
           ++ left. rewrite Ht in Ht'. injection Ht' as <-.
              rewrite Hm in Hm'. injection Hm' as <-. now symmetry.
           ++ right. apply IH. now exists v', t', rn'.
      * split; [exact Htail |].
        intros [v' [t' [rn' [[<- | Hin] [Ht' [Hm' Hit]]]]]].
        -- rewrite Ht in Ht'. injection Ht' as <-. congruence.
        -- apply IH. now exists v', t', rn'.
    + split; [exact Htail |].
      intros [v' [t' [rn' [[<- | Hin] [Ht' [Hm' Hit]]]]]]; [congruence |].
      apply IH. now exists v', t', rn'.
Qed.

Lemma vrf_all_prefix_in (p : prefix) (vrfs : list vrf) (it : vty_item) :
  In it (vrf_all_prefix p vrfs)
  <-> exists v table rn,
        In v vrfs /\ vrf_table v AFI_IP SAFI_UNICAST = Some table
        /\ route_node_match table p = Some rn
        /\ prefixlen (rn_p rn) = prefixlen p /\ it = Detail rn 0.
Proof.
  induction vrfs as [| v vrfs IH].
  - simpl. split; [tauto | now intros [v [t [rn [[] _]]]]].
  - rewrite vrf_all_prefix_cons.
    assert (Htail : In it (vrf_all_prefix p vrfs) ->
                    exists v' table rn,
                      In v' (v :: vrfs)
                      /\ vrf_table v' AFI_IP SAFI_UNICAST = Some table
                      /\ route_node_match table p = Some rn
                      /\ prefixlen (rn_p rn) = prefixlen p
                      /\ it = Detail rn 0).
    { intros Hin. apply IH in Hin. destruct Hin as [v' [t [rn [Hin H]]]].
      exists v', t, rn. split; [now right | exact H]. }
    destruct (vrf_table v AFI_IP SAFI_UNICAST) as [t |] eqn:Ht.
    + destruct (route_node_match t p) as [rn |] eqn:Hm.
      * destruct (Z.eqb_spec (prefixlen (rn_p rn)) (prefixlen p))
          as [Hlen | Hlen].
        -- split.
           ++ intros [<- | Hin]; [| now apply Htail].
              exists v, t, rn. split; [now left | auto].
           ++ intros [v' [t' [rn' [[<- | Hin] [Ht' [Hm' [Hl Hit]]]]]]].
              ** left. rewrite Ht in Ht'. injection Ht' as <-.
                 rewrite Hm in Hm'. injection Hm' as <-. now symmetry.
              ** right. apply IH. now exists v', t', rn'.
        -- split; [exact Htail |].
           intros [v' [t' [rn' [[<- | Hin] [Ht' [Hm' [Hl Hit]]]]]]].
           ++ rewrite Ht in Ht'. injection Ht' as <-.
              rewrite Hm in Hm'. injection Hm' as <-. contradiction.
           ++ apply IH. now exists v', t', rn'.
      * split; [exact Htail |].
        intros [v' [t' [rn' [[<- | Hin] [Ht' [Hm' Hit]]]]]].
        -- rewrite Ht in Ht'. injection Ht' as <-. congruence.
        -- apply IH. now exists v', t', rn'.
    + split; [exact Htail |].
      intros [v' [t' [rn' [[<- | Hin] [Ht' [Hm' Hit]]]]]]; [congruence |].
      apply IH. now exists v', t', rn'.
Qed.

Lemma vrf_all_addr_length (p : prefix) (vrfs : list vrf) :
  (List.length (vrf_all_addr p vrfs) <= List.length vrfs)%nat.
Proof.
  induction vrfs as [| v vrfs IH]; cbn [vrf_all_addr List.length]; [lia |].
  destruct (vrf_info v) as [zvrf |]; [| lia].
  destruct (zd_table zvrf AFI_IP SAFI_UNICAST) as [t |]; [| lia].
  destruct (route_node_match t p); cbn [List.length]; lia.
Qed.

(** X11. Lookups across all VRFs. A malformed argument is reported with
    a warning result and nothing else. Otherwise both commands succeed,
    also when no VRF has a match, and never report a network as missing:
    the address form writes one detail record for each VRF that is set
    up, has an IPv4 unicast table and has a longest match in it, and the
    prefix form writes those of them whose length is the queried one.
    [route_node_match] is the lookup modelled from the spec. *)
Theorem show_route_vrf_all_lookups (argv : list cmd_token) :
  let addr := show_ip_route_vrf_all_addr argv in
  let pfx := show_ip_route_vrf_all_prefix argv in
  match str2prefix_ipv4 (tok_arg (argv_at argv 5)) with
  | None =>
      addr = (CMD_WARNING, [Text msg_malformed_ipv4])
      /\ pfx = (CMD_WARNING, [Text msg_malformed_ipv4])
  | Some p =>
      fst addr = CMD_SUCCESS /\ fst pfx = CMD_SUCCESS
      /\ (forall it,
            In it (snd addr)
            <-> exists v table rn,
                  In v vrfs_by_name
                  /\ vrf_table v AFI_IP SAFI_UNICAST = Some table
                  /\ route_node_match table p = Some rn
                  /\ it = Detail rn 0)
      /\ (forall it,
            In it (snd pfx)
            <-> exists v table rn,
                  In v vrfs_by_name
                  /\ vrf_table v AFI_IP SAFI_UNICAST = Some table
                  /\ route_node_match table p = Some rn
                  /\ prefixlen (rn_p rn) = prefixlen p
                  /\ it = Detail rn 0)
      /\ (forall rn mcast,
            In (Detail rn mcast) (snd addr) ->
            exists v table,
              In v vrfs_by_name
              /\ vrf_table v AFI_IP SAFI_UNICAST = Some table
              /\ longest_match table p rn)
      /\ (List.length (snd addr) <= List.length vrfs_by_name)%nat
  end.
Proof.
  cbv zeta.
  unfold show_ip_route_vrf_all_addr, show_ip_route_vrf_all_prefix.
  destruct (str2prefix_ipv4 (tok_arg (argv_at argv 5))) as [p |];
    [| split; reflexivity].
  cbn [finish fst snd].
  split; [reflexivity | split; [reflexivity |]].
  split; [intros it; apply vrf_all_addr_in |].
  split; [intros it; apply vrf_all_prefix_in |].
  split; [| apply vrf_all_addr_length].
  intros rn mcast Hin. apply vrf_all_addr_in in Hin.
  destruct Hin as [v [t [rn' [Hv [Ht [Hm Heq]]]]]].
  injection Heq as -> _. exists v, t.
  split; [exact Hv | split; [exact Ht |]]. now apply route_node_match_some.
Qed.

(** The walk of [show ipv6 mroute] as a sequence. *)
Lemma mroute_entries_seq (rn : route_node) (res : list route_entry)
    (first : bool) :
  mroute_entries rn res first
  = (first && match res with [] => true | _ :: _ => false end,
     (if first
      then header_if_any [Text SHOW_ROUTE_V6_HEADER] (map (Route rn) res)
      else [])
     ++ map (Route rn) res).
Proof.
  revert first. induction res as [| re res IH]; intros first.
  - simpl. now destruct first.
  - cbn [mroute_entries]. rewrite IH. destruct first; reflexivity.
Qed.

Lemma mroute_nodes_seq (nodes : list route_node) (first : bool) :
  mroute_nodes nodes first
  = (first && match all_routes nodes with [] => true | _ :: _ => false end,
     (if first
      then header_if_any [Text SHOW_ROUTE_V6_HEADER] (all_routes nodes)
      else [])
     ++ all_routes nodes).
Proof.
  revert first. induction nodes as [| rn nodes IH]; intros first.
  - simpl. now destruct first.
  - cbn [mroute_nodes]. rewrite mroute_entries_seq, IH.
    unfold all_routes. cbn [flat_map].
    destruct first; cbn [andb]; [| reflexivity].
    destruct (rnode_entries rn) as [| re l]; [reflexivity |].
    reflexivity.
Qed.

Lemma mroute_vrfs_seq (vrfs : list vrf) (first : bool) :
  mroute_vrfs vrfs first
  = (first && match all_mroutes vrfs with [] => true | _ :: _ => false end,
     (if first
      then header_if_any [Text SHOW_ROUTE_V6_HEADER] (all_mroutes vrfs)
      else [])
     ++ all_mroutes vrfs).
Proof.
  revert first. induction vrfs as [| v vrfs IH]; intros first.
  - simpl. now destruct first.
  - cbn [mroute_vrfs]. unfold all_mroutes, vrf_table. cbn [flat_map].
    destruct (vrf_info v) as [zvrf |]; [| apply IH].
    destruct (zd_table zvrf AFI_IP6 SAFI_MULTICAST) as [t |]; [| apply IH].
    rewrite mroute_nodes_seq, IH. unfold all_mroutes, vrf_table.
    destruct first; cbn [andb]; [| reflexivity].
    destruct (all_routes (rt_nodes t)) as [| it l]; [reflexivity |].
    cbn [header_if_any app]. reflexivity.
Qed.

(** X12. [show ipv6 mroute vrf all] always succeeds and writes every
    entry of the IPv6 multicast table of every VRF that is set up, in
    VRF order and walk order, without filter and without VRF names; the
    header is written once for all VRFs together, before the first
    entry, and not at all when the tables hold no entry. The single-VRF
    form does the same for the table of its VRF. *)
Theorem show_ipv6_mroute_header_once :
  show_ipv6_mroute_vrf_all
  = (CMD_SUCCESS,
     header_if_any [Text SHOW_ROUTE_V6_HEADER] (all_mroutes vrfs_by_name)
     ++ all_mroutes vrfs_by_name)
  /\ (forall vrf_arg id table,
        vrf_resolves vrf_arg id ->
        zebra_vrf_table AFI_IP6 SAFI_MULTICAST id = Some table ->
        show_ipv6_mroute vrf_arg
        = (CMD_SUCCESS,
           header_if_any [Text SHOW_ROUTE_V6_HEADER]
             (all_routes (rt_nodes table))
           ++ all_routes (rt_nodes table))).
Proof.
  split.
  - unfold show_ipv6_mroute_vrf_all. now rewrite mroute_vrfs_seq.
  - intros vrf_arg id table Hvrf Htab. unfold show_ipv6_mroute.
    assert (Hid : match vrf_arg with
                  | Some name => VRF_GET_ID name
                  | None => pass VRF_DEFAULT
                  end = Continue id []).
    { destruct vrf_arg as [name |]; simpl in Hvrf; [exact Hvrf |].
      now subst id. }
    rewrite Hid. cbn [vty_bind]. rewrite Htab, mroute_nodes_seq. reflexivity.
Qed.

End VrfAllTheorems.

(** ** The arguments of [show ip route] *)

Section ShowArgsTheorems.
Context {K : zebra_consts} {E : zebra_env} {C : cli_env}.

Ltac find_cases argv :=
  repeat match goal with
         | |- context [match argv_find argv ?t ?i with _ => _ end] =>
             destruct (argv_find argv t i)
         end.

Lemma show_ip_route_args_shape (argv : list cmd_token) (p0 : prefix) :
  args_shape
    (fun q => (filters_supplied q <= 1)%nat
              /\ 0 <= sq_type q
              /\ 0 <= sq_tag q < 2 ^ 32
              /\ 0 <= sq_ospf_instance_id q < 2 ^ 16)
    (show_ip_route_args argv p0).
Proof.
  assert (Hu32 : forall x, 0 <= u32 x < 2 ^ 32)
    by (intros x; unfold u32; apply Z.mod_pos_bound; lia).
  assert (Hu16 : forall x, 0 <= x mod 2 ^ 16 < 2 ^ 16)
    by (intros x; apply Z.mod_pos_bound; lia).
  assert (Htag : forall va id x,
            (filters_supplied
               {| sq_vrf_all := va; sq_vrf_id := id; sq_tag := u32 x;
                  sq_longer := None; sq_supernets_only := false;
                  sq_type := 0; sq_ospf_instance_id := 0 |} <= 1)%nat
            /\ 0 <= 0 /\ 0 <= u32 x < 2 ^ 32 /\ 0 <= 0 < 2 ^ 16).
  { intros va id x. unfold filters_supplied.
    cbn [sq_tag sq_longer sq_supernets_only sq_type sq_ospf_instance_id].
    specialize (Hu32 x). destruct (u32 x =? 0); simpl; lia. }
  assert (Htype : forall va id t ospf,
            0 <= t -> 0 <= ospf < 2 ^ 16 ->
            (filters_supplied
               {| sq_vrf_all := va; sq_vrf_id := id; sq_tag := 0;
                  sq_longer := None; sq_supernets_only := false;
                  sq_type := t; sq_ospf_instance_id := ospf |} <= 1)%nat
            /\ 0 <= t /\ 0 <= 0 < 2 ^ 32 /\ 0 <= ospf < 2 ^ 16).
  { intros va id t ospf Ht Ho. unfold filters_supplied.
    cbn [sq_tag sq_longer sq_supernets_only sq_type sq_ospf_instance_id].
    destruct (_ && _); simpl; lia. }
  unfold show_ip_route_args, show_route_vrf, args_shape, pass, vty_out, leave.
  destruct (argv_find argv "vrf" 0%nat) as [i |];
    [destruct (strmatch (tok_arg (argv_at argv (i + 1))) "all");
     [| destruct (VRF_GET_ID (tok_arg (argv_at argv (i + 1))))
          as [id og | rg og] eqn:Hg] |];
    cbn [vty_bind fst snd app];
    try (right; eexists; exact Hg);
    find_cases argv; cbn [vty_bind fst snd app];
    try apply Htag;
    try (unfold filters_supplied; simpl; lia);
    cbv zeta;
    match goal with
    | |- context [fst ?ti <? 0] =>
        destruct (Z.ltb_spec (fst ti) 0) as [Hneg | Hpos]
    end;
    cbn [vty_bind fst snd app];
    try (left; split; [reflexivity | eexists; reflexivity]);
    try (left; split; [reflexivity | exists []; reflexivity]);
    try (apply Htype;
         [exact Hpos
         | cbn [sq_ospf_instance_id]; first [apply Hu16 | lia]]).
Qed.

(** X13. The filters of [show ip route] exclude one another: whatever
    the tokens, a request that reaches the table display supplies at most
    one of tag, covering prefix, supernets-only and protocol (with its
    OSPF instance); its route type is not negative, its tag is a 32-bit
    and its instance a 16-bit number. A command line that stops earlier
    stops with the result of the VRF lookup or with a warning that ends
    in the unknown route type message. *)
Theorem show_ip_route_one_filter (argv : list cmd_token) (p0 : prefix) :
  (forall q o,
     show_ip_route_args argv p0 = Continue q o ->
     (filters_supplied q <= 1)%nat
     /\ 0 <= sq_type q
     /\ 0 <= sq_tag q < 2 ^ 32
     /\ 0 <= sq_ospf_instance_id q < 2 ^ 16)
  /\ (forall r o,
        show_ip_route_args argv p0 = Return r o ->
        (r = CMD_WARNING
         /\ exists og, o = og ++ [Text msg_unknown_route_type])
        \/ exists name, VRF_GET_ID name = Return r o).
Proof.
  pose proof (show_ip_route_args_shape argv p0) as Hs.
  unfold args_shape in Hs. split.
  - intros q o H. now rewrite H in Hs.
  - intros r o H. now rewrite H in Hs.
Qed.

(** The same for the keyword whose lookup is spelt with an underscore. *)
Lemma show_ip_route_args_supernets (argv : list cmd_token) (p0 : prefix) :
  (forall i, argv_find argv "supernets_only" i = None) ->
  args_shape (fun q => sq_supernets_only q = false)
    (show_ip_route_args argv p0).
Proof.
  intros Hnone.
  unfold show_ip_route_args, show_route_vrf, args_shape, pass, vty_out, leave.
  destruct (argv_find argv "vrf" 0%nat) as [i |];
    [destruct (strmatch (tok_arg (argv_at argv (i + 1))) "all");
     [| destruct (VRF_GET_ID (tok_arg (argv_at argv (i + 1))))
          as [id og | rg og] eqn:Hg] |];
    cbn [vty_bind fst snd app];
    try (right; eexists; exact Hg);
    rewrite Hnone;
    find_cases argv; cbn [vty_bind fst snd app sq_supernets_only];
    try reflexivity;
    cbv zeta;
    match goal with
    | |- context [fst ?ti <? 0] =>
        destruct (Z.ltb_spec (fst ti) 0) as [Hneg | Hpos]
    end;
    cbn [vty_bind fst snd app sq_supernets_only];
    try reflexivity;
    try (left; split; [reflexivity | eexists; reflexivity]);
    try (left; split; [reflexivity | exists []; reflexivity]).
Qed.

(** X14. The supernets-only filter cannot be requested: the command
    looks the keyword up as "supernets_only" while its syntax spells it
    "supernets-only"; so when [argv_find] reports only tokens that have
    the text asked for and no token is spelt with the underscore, every
    request that reaches the table display has the filter off. *)
Theorem show_ip_route_supernets_unreachable (argv : list cmd_token)
    (p0 : prefix) (q : show_request) (o : list vty_item) :
  argv_find_sound argv ->
  (forall tok, In tok argv -> tok_text tok <> "supernets_only"%string) ->
  show_ip_route_args argv p0 = Continue q o ->
  sq_supernets_only q = false.
Proof.
  intros Hsound Hno H.
  assert (Hnone : forall i, argv_find argv "supernets_only" i = None).
  { intros i. destruct (argv_find argv "supernets_only" i) as [j |] eqn:Hf;
      [| reflexivity].
    exfalso. apply Hsound in Hf. unfold argv_at in Hf.
    destruct (Nat.lt_ge_cases j (List.length argv)) as [Hlt | Hge].
    - apply (Hno (nth j argv {| tok_text := ""; tok_arg := "" |}));
        [now apply nth_In | exact Hf].
    - rewrite nth_overflow in Hf by exact Hge. discriminate. }
  pose proof (show_ip_route_args_supernets argv p0 Hnone) as Hs.
  unfold args_shape in Hs. now rewrite H in Hs.
Qed.

End ShowArgsTheorems.

(** The sample [argv_find] is sound. *)
Lemma find_token_sound (text : string) (l : list cmd_token) (i j : nat) :
  find_token text i l = Some j ->
  exists k, j = (i + k)%nat
            /\ tok_text (nth k l {| tok_text := ""; tok_arg := "" |}) = text.
Proof.
  revert i. induction l as [| t l IH]; intros i; cbn [find_token].
  - discriminate.
  - destruct (String.eqb_spec text (tok_text t)) as [Heq | Hne].
    + intros H. injection H as <-. exists 0%nat. split; [lia | now symmetry].
    + intros H. apply IH in H. destruct H as [k [-> Hk]].
      exists (S k). split; [lia | exact Hk].
Qed.

Lemma nth_skipn_add {A : Type} (l : list A) (i k : nat) (d : A) :
  nth k (skipn i l) d = nth (i + k) l d.
Proof.
  revert l. induction i as [| i IH]; intros l; [reflexivity |].
  destruct l as [| x l]; cbn [skipn Nat.add nth]; [now destruct k | apply IH].
Qed.

Lemma sample_argv_find_sound (argv : list cmd_token) :
  argv_find_sound (C := sample_cli) argv.
Proof.
  intros text i j H. cbn [argv_find sample_cli] in H.
  unfold sample_argv_find in H. apply find_token_sound in H.
  destruct H as [k [-> Hk]]. unfold argv_at. now rewrite <- nth_skipn_add.
Qed.

(** Witness of X14: [show ip route supernets-only] asks for no filter at
    all. *)
Lemma show_ip_route_supernets_unreachable_witness :
  argv_find_sound (C := sample_cli) argv_show_supernets
  /\ (forall tok, In tok argv_show_supernets ->
                  tok_text tok <> "supernets_only"%string)
  /\ show_ip_route_args (K := sample_consts) (E := sample_env)
       (C := sample_cli) argv_show_supernets net10
     = Continue {| sq_vrf_all := false; sq_vrf_id := 0; sq_tag := 0;
                   sq_longer := None; sq_supernets_only := false;
                   sq_type := 0; sq_ospf_instance_id := 0 |} []
  /\ sq_supernets_only
       {| sq_vrf_all := false; sq_vrf_id := 0; sq_tag := 0;
          sq_longer := None; sq_supernets_only := false;
          sq_type := 0; sq_ospf_instance_id := 0 |} = false.
Proof.
  assert (Hno : forall tok, In tok argv_show_supernets ->
                            tok_text tok <> "supernets_only"%string).
  { intros tok [<- | [<- | [<- | [<- | []]]]]; discriminate. }
  split; [apply sample_argv_find_sound | split; [exact Hno |]].
  split; [reflexivity |].
  exact (show_ip_route_supernets_unreachable (K := sample_consts)
           (E := sample_env) (C := sample_cli) argv_show_supernets net10 _ []
           (sample_argv_find_sound argv_show_supernets) Hno eq_refl).
Defined.

(** The tag form of the command on the sample environment, whose
    [strtoul] answers 1: one filter. *)
Example show_ip_route_tag_request :
  show_ip_route_args (K := sample_consts) (E := sample_env)
    (C := sample_cli) argv_show_tag net10
  = Continue {| sq_vrf_all := false; sq_vrf_id := 0; sq_tag := 1;
                sq_longer := None; sq_supernets_only := false;
                sq_type := 0; sq_ospf_instance_id := 0 |} [].
Proof. reflexivity. Qed.

(** ** [show ip route]: the decoded filter is the one applied *)

Section ShowCommandTheorems.
Context {K : zebra_consts} {E : zebra_env} {C : cli_env}.

Lemma show_route_call_in (vrf_name : string) (afi : afi_t) (uf uj : bool)
    (q : show_request) (rn : route_node) (re : route_entry) :
  In (Route rn re) (show_route_call vrf_name afi uf uj q) ->
  show_filter uf (sq_tag q) (sq_longer q) (sq_supernets_only q) (sq_type q)
    (sq_ospf_instance_id q) rn re = true.
Proof.
  unfold show_route_call, do_show_ip_route.
  destruct (zebra_vrf_lookup_by_name (Some vrf_name)) as [zvrf |].
  - destruct (zvrf_id zvrf =? VRF_UNKNOWN).
    + destruct uj; intros [H | []]; discriminate.
    + destruct (zebra_vrf_table afi SAFI_UNICAST (zvrf_id zvrf)) as [t |].
      * cbv zeta. cbn [snd]. intros H. apply in_route_document in H.
        apply show_nodes_in in H; [tauto |].
        intros n r. apply show_header_text.
      * destruct uj; cbn [snd]; [intros [H | []]; discriminate | intros []].
  - destruct uj; intros [H | []]; discriminate.
Qed.

Lemma show_route_vrfs_in (afi : afi_t) (uf uj : bool) (q : show_request)
    (vrfs : list vrf) (rn : route_node) (re : route_entry) :
  In (Route rn re) (show_route_vrfs afi uf uj q vrfs) ->
  show_filter uf (sq_tag q) (sq_longer q) (sq_supernets_only q) (sq_type q)
    (sq_ospf_instance_id q) rn re = true.
Proof.
  induction vrfs as [| v vrfs IH]; cbn [show_route_vrfs]; [intros [] |].
  destruct (vrf_info v) as [zvrf |]; [| exact IH].
  destruct (zd_table zvrf afi SAFI_UNICAST); [| exact IH].
  intros H. apply in_app_or in H as [H | H]; [| now apply IH].
  now apply show_route_call_in in H.
Qed.

(** X19. [show ip route] applies the filter it decoded: when the
    decoding of the command line goes through without output, the
    command succeeds and every entry it renders, in the one VRF or over
    all of them, passes the table filter for the decoded tag, covering
    prefix, supernets-only flag, route type and OSPF instance and for the
    FIB-only flag of the [fib] keyword. When the decoding stops, the
    command stops with the same result and output and shows no
    table. *)
Theorem show_ip_route_applies_filter (argv : list cmd_token) (p0 : prefix) :
  (forall q,
     show_ip_route_args argv p0 = Continue q [] ->
     fst (show_ip_route argv p0) = CMD_SUCCESS
     /\ forall rn re,
          In (Route rn re) (snd (show_ip_route argv p0)) ->
          show_filter (use_fib (argv_at argv 2)) (sq_tag q) (sq_longer q)
            (sq_supernets_only q) (sq_type q) (sq_ospf_instance_id q) rn re
          = true)
  /\ (forall r o,
        show_ip_route_args argv p0 = Return r o ->
        show_ip_route argv p0 = (r, o)).
Proof.
  split.
  - intros q H. unfold show_ip_route. rewrite H.
    cbn [vty_bind finish fst snd app].
    split; [reflexivity |]. intros rn re Hin.
    destruct (sq_vrf_all q).
    + now apply show_route_vrfs_in in Hin.
    + now apply show_route_call_in in Hin.
  - intros r o H. unfold show_ip_route. now rewrite H.
Qed.

End ShowCommandTheorems.

(** [show ip route] on the sample environment: the default VRF, text
    mode, no filter. *)
Example show_ip_route_sample :
  show_ip_route (K := sample_consts) (E := sample_env) (C := sample_cli)
    [keyword "show"; keyword "ip"; keyword "route"] net10
  = (CMD_SUCCESS,
     [Text (SHOW_ROUTE_V4_HEADER (zebra_consts := sample_consts));
      Route node10 sample_static]).
Proof. reflexivity. Qed.

(** ** Configuration switches and the configuration writer *)

Lemma append_cancel_r (s s' t : string) :
  (s ++ t)%string = (s' ++ t)%string -> s = s'.
Proof.
  assert (Hlen : forall a b : string,
            String.length (a ++ b) = (String.length a + String.length b)%nat).
  { intros a b. induction a as [| c a IH]; simpl; [reflexivity |].
    now rewrite IH. }
  revert s'. induction s as [| c s IH]; intros s' H.
  - destruct s' as [| c' s']; [reflexivity |].
    apply (f_equal String.length) in H. rewrite !Hlen in H. simpl in H. lia.
  - destruct s' as [| c' s'].
    + apply (f_equal String.length) in H. rewrite !Hlen in H. simpl in H. lia.
    + simpl in H. injection H as -> H. f_equal. now apply IH.
Qed.

Lemma multicast_line_inj (k k' : string) :
  multicast_line k = multicast_line k' -> k = k'.
Proof.
  unfold multicast_line. intros H. injection H as H.
  now apply append_cancel_r in H.
Qed.

(** The lines the writer prints for the switches are not multicast
    lines. *)
Lemma switch_lines_not_multicast (k : string) :
  allow_external_line <> multicast_line k
  /\ ip_nht_line <> multicast_line k
  /\ ipv6_nht_line <> multicast_line k.
Proof.
  unfold allow_external_line, ip_nht_line, ipv6_nht_line, multicast_line.
  repeat split; intros H; simpl in H; discriminate.
Qed.

(** What the writer prints for a mode. *)
Lemma config_write_globals_mode (g : zebra_globals) (it : vty_item) :
  In it (config_write_globals g)
  <-> (allow_delete g <> 0 /\ it = allow_external_line)
      \/ (zebra_rnh_ip_default_route g <> 0 /\ it = ip_nht_line)
      \/ (zebra_rnh_ipv6_default_route g <> 0 /\ it = ipv6_nht_line)
      \/ match ipv4_multicast_mode g with
         | MCAST_NO_CONFIG => False
         | MCAST_URIB_ONLY => it = multicast_line "urib-only"
         | MCAST_MRIB_ONLY => it = multicast_line "mrib-only"
         | MCAST_MIX_MRIB_FIRST => it = multicast_line "mrib-then-urib"
         | MCAST_MIX_DISTANCE => it = multicast_line "lower-distance"
         | MCAST_MIX_PFXLEN => it = multicast_line "longer-prefix"
         end.
Proof.
  unfold config_write_globals, multicast_mode_ipv4_get.
  rewrite !in_app_iff.
  assert (Hsw : forall (v : Z) (line : vty_item),
            In it (if negb (v =? 0) then [line] else [])
            <-> v <> 0 /\ it = line).
  { intros v line. destruct (Z.eqb_spec v 0) as [-> | Hne]; simpl.
    - split; [tauto | intros [H _]; now apply H].
    - split; [intros [<- | []]; now split | intros [_ ->]; now left]. }
  rewrite !Hsw.
  destruct (ipv4_multicast_mode g); unfold multicast_line; cbn [In];
    (split;
     [intros [H | [H | [H | H]]];
      [tauto | tauto | tauto
      | try contradiction; destruct H as [<- | []];
        right; right; right; reflexivity]
     | intros [H | [H | [H | H]]];
       [tauto | tauto | tauto
       | try contradiction; subst it; right; right; right; now left]]).
Qed.

Section ConfigTheorems.
Context {C : cli_env}.

(** X15. The multicast lookup mode survives a write and a read of the
    configuration. Each of the five keywords sets a mode for which the
    configuration writer prints the command with that same keyword, and
    no other multicast line of its own; any other word is refused with a
    config-failure result and changes nothing; a configured mode is
    written with a keyword that sets that very mode again; after the
    [no] form no multicast line is written. The mode is the global that
    [multicast_mode_ipv4_set] stores, modelled from the spec. *)
Theorem multicast_mode_round_trip :
  (forall g k,
     In k mode_keywords ->
     let r := ip_multicast_mode (argv_multicast_mode k) g in
     cf_ret r = CMD_SUCCESS /\ cf_out r = [] /\ cf_calls r = []
     /\ fst (config_write_protocol (cf_globals r)) = 1
     /\ In (multicast_line k) (snd (config_write_protocol (cf_globals r)))
     /\ (forall k', In (multicast_line k')
                      (config_write_globals (cf_globals r)) <-> k' = k))
  /\ (forall g k,
        ~ In k mode_keywords ->
        ip_multicast_mode (argv_multicast_mode k) g
        = {| cf_ret := CMD_WARNING_CONFIG_FAILED;
             cf_out := [Text msg_invalid_mode];
             cf_globals := g; cf_calls := [] |})
  /\ (forall g,
        ipv4_multicast_mode g <> MCAST_NO_CONFIG ->
        exists k,
          In k mode_keywords
          /\ In (multicast_line k) (config_write_globals g)
          /\ forall g0,
               ipv4_multicast_mode
                 (cf_globals (ip_multicast_mode (argv_multicast_mode k) g0))
               = ipv4_multicast_mode g)
  /\ (forall g k,
        ~ In (multicast_line k)
            (config_write_globals (cf_globals (no_ip_multicast_mode g)))).
Proof.
  split; [| split; [| split]].
  - intros g k Hk. cbv zeta.
    assert (Hline : forall m k',
              In (multicast_line k')
                (config_write_globals (multicast_mode_ipv4_set m g))
              <-> match m with
                  | MCAST_NO_CONFIG => False
                  | MCAST_URIB_ONLY => k' = "urib-only"%string
                  | MCAST_MRIB_ONLY => k' = "mrib-only"%string
                  | MCAST_MIX_MRIB_FIRST => k' = "mrib-then-urib"%string
                  | MCAST_MIX_DISTANCE => k' = "lower-distance"%string
                  | MCAST_MIX_PFXLEN => k' = "longer-prefix"%string
                  end).
    { intros m k'. rewrite config_write_globals_mode.
      destruct (switch_lines_not_multicast k') as [H1 [H2 H3]].
      cbn [multicast_mode_ipv4_set ipv4_multicast_mode].
      destruct m; split;
        try (intros [[_ H] | [[_ H] | [[_ H] | H]]];
             [now symmetry in H | now symmetry in H | now symmetry in H |]);
        try contradiction;
        try (now apply multicast_line_inj in H);
        try (intros ->; right; right; right; reflexivity). }
    assert (Hproto : forall g' k',
              In (multicast_line k') (config_write_globals g') ->
              In (multicast_line k') (snd (config_write_protocol g'))).
    { intros g' k' H. unfold config_write_protocol. cbn [snd].
      apply in_or_app. now left. }
    destruct Hk as [<- | [<- | [<- | [<- | [<- | []]]]]];
      (split; [reflexivity | split; [reflexivity | split; [reflexivity |]]]);
      (split; [reflexivity | split; [apply Hproto |]; [| intros k']]);
      cbn [ip_multicast_mode argv_multicast_mode argv_at nth
           keyword tok_text strmatch String.eqb Ascii.eqb Bool.eqb
           cfg_done cf_globals];
      apply Hline; reflexivity.
  - intros g k Hk. unfold ip_multicast_mode.
    cbn [argv_multicast_mode argv_at nth keyword tok_text]. unfold strmatch.
    destruct (String.eqb_spec k "urib-only");
      [subst k; exfalso; apply Hk; simpl; tauto |].
    destruct (String.eqb_spec k "mrib-only");
      [subst k; exfalso; apply Hk; simpl; tauto |].
    destruct (String.eqb_spec k "mrib-then-urib");
      [subst k; exfalso; apply Hk; simpl; tauto |].
    destruct (String.eqb_spec k "lower-distance");
      [subst k; exfalso; apply Hk; simpl; tauto |].
    destruct (String.eqb_spec k "longer-prefix");
      [subst k; exfalso; apply Hk; simpl; tauto |].
    reflexivity.
  - intros g Hm.
    assert (Hw := fun it => proj2 (config_write_globals_mode g it)).
    destruct (ipv4_multicast_mode g) eqn:Hmode; [contradiction | | | | |].
    + exists "mrib-only"%string. split; [simpl; tauto |].
      split; [apply Hw; tauto | reflexivity].
    + exists "urib-only"%string. split; [simpl; tauto |].
      split; [apply Hw; tauto | reflexivity].
    + exists "mrib-then-urib"%string. split; [simpl; tauto |].
      split; [apply Hw; tauto | reflexivity].
    + exists "lower-distance"%string. split; [simpl; tauto |].
      split; [apply Hw; tauto | reflexivity].
    + exists "longer-prefix"%string. split; [simpl; tauto |].
      split; [apply Hw; tauto | reflexivity].
  - intros g k Hin. apply config_write_globals_mode in Hin.
    destruct (switch_lines_not_multicast k) as [H1 [H2 H3]].
    cbn [no_ip_multicast_mode cfg_done cf_globals multicast_mode_ipv4_set
         ipv4_multicast_mode] in Hin.
    destruct Hin as [[_ H] | [[_ H] | [[_ H] | []]]]; now symmetry in H.
Qed.

Lemma switch_lines_distinct :
  allow_external_line <> ip_nht_line
  /\ allow_external_line <> ipv6_nht_line
  /\ ip_nht_line <> ipv6_nht_line.
Proof. repeat split; discriminate. Qed.

(** Whether the writer prints the line of a switch depends on the
    switch alone. *)
Lemma config_write_switches (g : zebra_globals) :
  (In allow_external_line (config_write_globals g) <-> allow_delete g <> 0)
  /\ (In ip_nht_line (config_write_globals g)
      <-> zebra_rnh_ip_default_route g <> 0)
  /\ (In ipv6_nht_line (config_write_globals g)
      <-> zebra_rnh_ipv6_default_route g <> 0).
Proof.
  destruct switch_lines_distinct as [D1 [D2 D3]].
  assert (Hm : forall it,
            (forall k, it <> multicast_line k) ->
            ~ match ipv4_multicast_mode g with
              | MCAST_NO_CONFIG => False
              | MCAST_URIB_ONLY => it = multicast_line "urib-only"
              | MCAST_MRIB_ONLY => it = multicast_line "mrib-only"
              | MCAST_MIX_MRIB_FIRST => it = multicast_line "mrib-then-urib"
              | MCAST_MIX_DISTANCE => it = multicast_line "lower-distance"
              | MCAST_MIX_PFXLEN => it = multicast_line "longer-prefix"
              end).
  { intros it Hno. destruct (ipv4_multicast_mode g); try tauto; apply Hno. }
  assert (Ha := Hm allow_external_line
                  (fun k => proj1 (switch_lines_not_multicast k))).
  assert (Hi := Hm ip_nht_line
                  (fun k => proj1 (proj2 (switch_lines_not_multicast k)))).
  assert (H6 := Hm ipv6_nht_line
                  (fun k => proj2 (proj2 (switch_lines_not_multicast k)))).
  rewrite !config_write_globals_mode.
  split; [| split]; split.
  - intros [[H _] | [[_ H] | [[_ H] | H]]]; [exact H | | |]; contradiction.
  - intros H. left. now split.
  - intros [[_ H] | [[H _] | [[_ H] | H]]]; [| exact H | |];
      try contradiction. now symmetry in H.
  - intros H. right; left. now split.
  - intros [[_ H] | [[_ H] | [[H _] | H]]]; [| | exact H |];
      try contradiction; now symmetry in H.
  - intros H. right; right; left. now split.
Qed.

(** X16. The nexthop tracking and external update switches. Each
    command succeeds and leaves the matching line in the written
    configuration, its [no] form takes the line out. Setting a nexthop
    tracking switch re-evaluates the tracked nexthops exactly when the
    switch changes, so repeating a command does nothing. *)
Theorem config_switches (g : zebra_globals) :
  (* ip nht resolve-via-default *)
  (In ip_nht_line (config_write_globals (cf_globals (ip_nht_default_route g)))
   /\ ~ In ip_nht_line
         (config_write_globals (cf_globals (no_ip_nht_default_route g)))
   /\ cf_calls (ip_nht_default_route g)
      = (if zebra_rnh_ip_default_route g =? 0
         then [zebra_evaluate_rnh 0 AF_INET 1] else [])
   /\ cf_calls (no_ip_nht_default_route g)
      = (if zebra_rnh_ip_default_route g =? 0
         then [] else [zebra_evaluate_rnh 0 AF_INET 1])
   /\ ip_nht_default_route (cf_globals (ip_nht_default_route g))
      = cfg_done (cf_globals (ip_nht_default_route g))
   /\ no_ip_nht_default_route (cf_globals (no_ip_nht_default_route g))
      = cfg_done (cf_globals (no_ip_nht_default_route g)))
  (* ipv6 nht resolve-via-default *)
  /\ (In ipv6_nht_line
        (config_write_globals (cf_globals (ipv6_nht_default_route g)))
      /\ ~ In ipv6_nht_line
            (config_write_globals (cf_globals (no_ipv6_nht_default_route g)))
      /\ cf_calls (ipv6_nht_default_route g)
         = (if zebra_rnh_ipv6_default_route g =? 0
            then [zebra_evaluate_rnh 0 AF_INET6 1] else [])
      /\ cf_calls (no_ipv6_nht_default_route g)
         = (if zebra_rnh_ipv6_default_route g =? 0
            then [] else [zebra_evaluate_rnh 0 AF_INET6 1])
      /\ ipv6_nht_default_route (cf_globals (ipv6_nht_default_route g))
         = cfg_done (cf_globals (ipv6_nht_default_route g))
      /\ no_ipv6_nht_default_route (cf_globals (no_ipv6_nht_default_route g))
         = cfg_done (cf_globals (no_ipv6_nht_default_route g)))
  (* allow-external-route-update *)
  /\ (In allow_external_line
        (config_write_globals (cf_globals (allow_external_route_update g)))
      /\ ~ In allow_external_line
            (config_write_globals
               (cf_globals (no_allow_external_route_update g))))
  (* every one of them succeeds silently *)
  /\ Forall (fun r => cf_ret r = CMD_SUCCESS /\ cf_out r = [])
       [ip_nht_default_route g; no_ip_nht_default_route g;
        ipv6_nht_default_route g; no_ipv6_nht_default_route g;
        allow_external_route_update g; no_allow_external_route_update g].
Proof.
  assert (Hw := config_write_switches).
  split; [| split; [| split]].
  - unfold ip_nht_default_route, no_ip_nht_default_route.
    destruct (Z.eqb_spec (zebra_rnh_ip_default_route g) 0) as [H0 | H0];
      cbn [negb cfg_done cf_globals cf_calls].
    + split; [apply (Hw _); cbn; lia |].
      split; [rewrite (proj1 (proj2 (Hw g))); lia |].
      split; [reflexivity | split; [reflexivity |]].
      split; [reflexivity |]. apply Z.eqb_eq in H0. now rewrite H0.
    + split; [now apply (Hw g) |].
      split; [rewrite (proj1 (proj2 (Hw _))); cbn; lia |].
      split; [reflexivity | split; [reflexivity |]].
      split; [| reflexivity]. apply Z.eqb_neq in H0. now rewrite H0.
  - unfold ipv6_nht_default_route, no_ipv6_nht_default_route.
    destruct (Z.eqb_spec (zebra_rnh_ipv6_default_route g) 0) as [H0 | H0];
      cbn [negb cfg_done cf_globals cf_calls].
    + split; [apply (Hw _); cbn; lia |].
      split; [rewrite (proj2 (proj2 (Hw g))); lia |].
      split; [reflexivity | split; [reflexivity |]].
      split; [reflexivity |]. apply Z.eqb_eq in H0. now rewrite H0.
    + split; [now apply (Hw g) |].
      split; [rewrite (proj2 (proj2 (Hw _))); cbn; lia |].
      split; [reflexivity | split; [reflexivity |]].
      split; [| reflexivity]. apply Z.eqb_neq in H0. now rewrite H0.
  - unfold allow_external_route_update, no_allow_external_route_update.
    cbn [cfg_done cf_globals]. split.
    + apply (Hw _). cbn [set_allow_delete allow_delete]. lia.
    + rewrite (proj1 (Hw _)). cbn [set_allow_delete allow_delete]. lia.
  - unfold ip_nht_default_route, no_ip_nht_default_route,
      ipv6_nht_default_route, no_ipv6_nht_default_route,
      allow_external_route_update, no_allow_external_route_update, cfg_done.
    destruct (zebra_rnh_ip_default_route g =? 0),
      (zebra_rnh_ipv6_default_route g =? 0); cbn [negb];
      repeat constructor.
Qed.

End ConfigTheorems.

(** ** [ip import-table] *)

Section ImportTheorems.
Context {K : zebra_consts} {E : zebra_env} {C : cli_env}.

(** X17. [ip import-table N [distance D] [route-map W]] decodes its
    options by position: the distance is the one given, the default
    when none is given, also when a route-map follows; the route-map is
    the one given or none. A table id outside the kernel range, and then
    the main table, is refused with a warning and no import is
    requested; otherwise exactly one import is requested and its result
    returned. The [no] form refuses the same ids and succeeds without a
    request when the table is not imported. *)
Theorem import_table_arguments (n : string) (d w : option string) :
  let table_id := u32 (strtoul n) in
  let distance := match d with
                  | Some ds => as_int (u32 (strtoul ds))
                  | None => ZEBRA_TABLE_DISTANCE_DEFAULT
                  end in
  let r := ip_zebra_import_table_distance (import_argv n d w) in
  (is_zebra_valid_kernel_table table_id = false ->
   r = import_warning (msg_table_range table_id))
  /\ (is_zebra_valid_kernel_table table_id = true ->
      is_zebra_main_routing_table table_id = true ->
      r = import_warning (msg_table_main table_id))
  /\ (is_zebra_valid_kernel_table table_id = true ->
      is_zebra_main_routing_table table_id = false ->
      r = {| ir_ret := zebra_import_table AFI_IP table_id distance w 1;
             ir_out := [];
             ir_calls := [zebra_import_table_call AFI_IP table_id distance
                            w 1] |})
  /\ (forall argv,
        let id := u32 (strtoul (tok_arg (argv_at argv 3))) in
        let r := no_ip_zebra_import_table argv in
        (ir_calls r <> [] ->
         is_zebra_valid_kernel_table id = true
         /\ is_zebra_main_routing_table id = false
         /\ is_zebra_import_table_enabled AFI_IP id = true
         /\ ir_calls r = [zebra_import_table_call AFI_IP id 0 None 0])
        /\ (is_zebra_valid_kernel_table id = true ->
            is_zebra_main_routing_table id = false ->
            is_zebra_import_table_enabled AFI_IP id = false ->
            r = {| ir_ret := CMD_SUCCESS; ir_out := []; ir_calls := [] |})).
Proof.
  cbv zeta. split; [| split; [| split]].
  - intros Hv. unfold ip_zebra_import_table_distance.
    destruct d, w; cbn [import_argv app argv_at nth variable keyword tok_arg];
      now rewrite Hv.
  - intros Hv Hm. unfold ip_zebra_import_table_distance.
    destruct d, w; cbn [import_argv app argv_at nth variable keyword tok_arg];
      now rewrite Hv, Hm.
  - intros Hv Hm. unfold ip_zebra_import_table_distance.
    destruct d, w;
      cbn [import_argv app argv_at nth variable keyword tok_arg tok_text
           List.length Nat.sub];
      rewrite Hv, Hm; reflexivity.
  - intros argv. unfold no_ip_zebra_import_table, import_warning.
    destruct (is_zebra_valid_kernel_table _); cbn [negb ir_calls].
    + destruct (is_zebra_main_routing_table _); cbn [ir_calls].
      * split; [intros H; now contradiction H | discriminate].
      * destruct (is_zebra_import_table_enabled AFI_IP _); cbn [negb ir_calls].
        -- split; [intros _; auto | discriminate].
        -- split; [intros H; now contradiction H | reflexivity].
    + split; [intros H; now contradiction H | discriminate].
Qed.

End ImportTheorems.

(** ** The static route configuration writer *)

Lemma count_app {A : Type} (f : A -> bool) (l1 l2 : list A) :
  count f (l1 ++ l2) = count f l1 + count f l2.
Proof.
  induction l1 as [| x l1 IH]; cbn [app].
  - rewrite count_nil. lia.
  - rewrite !count_cons, IH. lia.
Qed.

(** A text with a blank in it is not the line end. *)
Lemma blank_not_newline (s t : string) :
  is_newline (Text (s ++ " " ++ t)) = false.
Proof.
  cbn [is_newline]. destruct s as [| c s]; [reflexivity |].
  cbn [append]. unfold nl. cbn [String.eqb].
  destruct (Ascii.eqb c (ascii_of_nat 10)); [| reflexivity].
  now destruct s.
Qed.

Lemma count_optional (b : bool) (it : vty_item) :
  is_newline it = false ->
  count is_newline (if b then [it] else []) = 0.
Proof.
  intros H. destruct b; [| reflexivity]. now rewrite count_cons, H.
Qed.

Section StaticConfigTheorems.
Context {K : zebra_consts} {E : zebra_env} {C : cli_env}.

Lemma static_config_nexthop_newlines (si : static_route) :
  count is_newline (static_config_nexthop si) = 0.
Proof.
  unfold static_config_nexthop.
  destruct (si_type si);
    try (apply (count_optional true); reflexivity).
  destruct (CHECK_FLAG (si_flags si) ZEBRA_FLAG_REJECT); reflexivity.
Qed.

(** Each static route is written as one line. *)
Lemma static_config_line_newlines (cmd : string) (zvrf : zebra_vrf)
    (rn : static_node) (si : static_route) :
  count is_newline (static_config_line cmd zvrf rn si) = 1.
Proof.
  unfold static_config_line. rewrite !count_app.
  rewrite static_config_nexthop_newlines.
  rewrite (count_cons is_newline (Text (cmd ++ " " ++ _))).
  rewrite blank_not_newline, count_nil.
  rewrite !count_optional by reflexivity.
  assert (Hflags :
            count is_newline
              (if negb (is_blackhole_type (si_type si))
               then (if CHECK_FLAG (si_flags si) ZEBRA_FLAG_REJECT
                     then [Text " reject"%string] else [])
                    ++ (if CHECK_FLAG (si_flags si) ZEBRA_FLAG_BLACKHOLE
                        then [Text " blackhole"%string] else [])
               else []) = 0).
  { destruct (negb _); [| reflexivity]. rewrite count_app.
    now rewrite !count_optional by reflexivity. }
  rewrite Hflags. reflexivity.
Qed.

Lemma static_config_line_not_nil (cmd : string) (zvrf : zebra_vrf)
    (rn : static_node) (si : static_route) :
  static_config_line cmd zvrf rn si <> [].
Proof. unfold static_config_line. discriminate. Qed.

Lemma static_config_routes_spec (cmd : string) (zvrf : zebra_vrf)
    (rn : static_node) (sis : list static_route) (write : Z) :
  fst (static_config_routes cmd zvrf rn sis write)
  = match sis with [] => write | _ :: _ => 1 end
  /\ count is_newline (snd (static_config_routes cmd zvrf rn sis write))
     = Z.of_nat (List.length sis)
  /\ (sis = [] -> snd (static_config_routes cmd zvrf rn sis write) = []).
Proof.
  revert write. induction sis as [| si sis IH]; intros write.
  - simpl. repeat split; reflexivity.
  - cbn [static_config_routes]. specialize (IH 1).
    destruct (static_config_routes cmd zvrf rn sis 1) as [w o].
    cbn [fst snd] in *. destruct IH as [Hw [Hc _]]. split; [| split].
    + rewrite Hw. now destruct sis.
    + rewrite count_app, static_config_line_newlines, Hc.
      cbn [List.length]. lia.
    + discriminate.
Qed.

Lemma static_config_nodes_spec (cmd : string) (zvrf : zebra_vrf)
    (nodes : list static_node) (write : Z) :
  let sis := flat_map sn_info nodes in
  fst (static_config_nodes cmd zvrf nodes write)
  = match sis with [] => write | _ :: _ => 1 end
  /\ count is_newline (snd (static_config_nodes cmd zvrf nodes write))
     = Z.of_nat (List.length sis)
  /\ (sis = [] -> snd (static_config_nodes cmd zvrf nodes write) = []).
Proof.
  cbv zeta. revert write. induction nodes as [| rn nodes IH]; intros write.
  - simpl. repeat split; reflexivity.
  - cbn [static_config_nodes flat_map].
    pose proof (static_config_routes_spec cmd zvrf rn (sn_info rn) write)
      as [Hw1 [Hc1 Hn1]].
    destruct (static_config_routes cmd zvrf rn (sn_info rn) write) as [w o].
    specialize (IH w).
    destruct (static_config_nodes cmd zvrf nodes w) as [w' o'].
    cbn [fst snd] in *. destruct IH as [Hw2 [Hc2 Hn2]].
    split; [| split].
    + rewrite Hw2, Hw1.
      destruct (sn_info rn); cbn [app]; [reflexivity |].
      now destruct (flat_map sn_info nodes).
    + rewrite count_app, Hc1, Hc2, length_app. lia.
    + intros Hnil. apply app_eq_nil in Hnil as [H1 H2].
      now rewrite (Hn1 H1), (Hn2 H2).
Qed.

Lemma static_config_vrfs_spec (afi : afi_t) (safi : safi_t) (cmd : string)
    (vrfs : list vrf) (write : Z) :
  let sis := configured_statics afi safi vrfs in
  fst (static_config_vrfs afi safi cmd vrfs write)
  = match sis with [] => write | _ :: _ => 1 end
  /\ count is_newline (snd (static_config_vrfs afi safi cmd vrfs write))
     = Z.of_nat (List.length sis)
  /\ (sis = [] -> snd (static_config_vrfs afi safi cmd vrfs write) = []).
Proof.
  cbv zeta. revert write. induction vrfs as [| v vrfs IH]; intros write.
  - simpl. repeat split; reflexivity.
  - cbn [static_config_vrfs]. unfold configured_statics. cbn [flat_map].
    fold (configured_statics afi safi vrfs). unfold vrf_statics.
    destruct (vrf_info v) as [zvrf |]; [| apply IH].
    destruct (zd_stable zvrf afi safi) as [stable |]; [| apply IH].
    pose proof (static_config_nodes_spec cmd (zd_zvrf zvrf) stable write)
      as [Hw1 [Hc1 Hn1]].
    destruct (static_config_nodes cmd (zd_zvrf zvrf) stable write) as [w o].
    specialize (IH w).
    destruct (static_config_vrfs afi safi cmd vrfs w) as [w' o'].
    cbn [fst snd] in *. destruct IH as [Hw2 [Hc2 Hn2]].
    split; [| split].
    + rewrite Hw2, Hw1.
      destruct (flat_map sn_info stable); cbn [app]; [reflexivity |].
      now destruct (configured_statics afi safi vrfs).
    + rewrite count_app, Hc1, Hc2, length_app. lia.
    + intros Hnil. apply app_eq_nil in Hnil as [H1 H2].
      now rewrite (Hn1 H1), (Hn2 H2).
Qed.

(** X18. The static route configuration writer writes one line for
    every static route of the address family, over all VRFs that are set
    up; it returns 1 when there is such a route and 0 when there is
    none, and it returns 0 exactly when it has written nothing. The
    writer of the IP node adds up the three families and the import
    table writer. *)
Theorem static_config_writes_each_route (afi : afi_t) (safi : safi_t)
    (cmd : string) :
  let sis := configured_statics afi safi vrfs_by_name in
  let r := static_config afi safi cmd in
  let any := fun a s => match configured_statics a s vrfs_by_name with
                        | [] => 0
                        | _ :: _ => 1
                        end in
  fst r = match sis with [] => 0 | _ :: _ => 1 end
  /\ count is_newline (snd r) = Z.of_nat (List.length sis)
  /\ (fst r = 0 <-> snd r = [])
  /\ fst zebra_ip_config
     = any AFI_IP SAFI_UNICAST + any AFI_IP SAFI_MULTICAST
       + any AFI_IP6 SAFI_UNICAST + fst zebra_import_table_config.
Proof.
  cbv zeta. unfold zebra_ip_config, static_config.
  pose proof (static_config_vrfs_spec afi safi cmd vrfs_by_name 0)
    as [Hw [Hc Hn]].
  split; [exact Hw | split; [exact Hc | split]].
  - rewrite Hw. destruct (configured_statics afi safi vrfs_by_name) eqn:Hs.
    + split; [intros _; now apply Hn | reflexivity].
    + split; [discriminate |]. intros Hnil. rewrite Hnil in Hc.
      rewrite count_nil in Hc. cbn [List.length] in Hc. lia.
  - pose proof (static_config_vrfs_spec AFI_IP SAFI_UNICAST "ip route"
                  vrfs_by_name 0) as [H1 _].
    pose proof (static_config_vrfs_spec AFI_IP SAFI_MULTICAST "ip mroute"
                  vrfs_by_name 0) as [H2 _].
    pose proof (static_config_vrfs_spec AFI_IP6 SAFI_UNICAST "ipv6 route"
                  vrfs_by_name 0) as [H3 _].
    destruct (static_config_vrfs AFI_IP SAFI_UNICAST "ip route"
                vrfs_by_name 0) as [w1 o1].
    destruct (static_config_vrfs AFI_IP SAFI_MULTICAST "ip mroute"
                vrfs_by_name 0) as [w2 o2].
    destruct (static_config_vrfs AFI_IP6 SAFI_UNICAST "ipv6 route"
                vrfs_by_name 0) as [w3 o3].
    destruct zebra_import_table_config as [w4 o4].
    cbn [fst] in *. rewrite H1, H2, H3. lia.
Qed.

End StaticConfigTheorems.

(** The sample VRFs hold two IPv4 static routes: the writer prints the
    gateway route and the reject route with its tag. *)
Example static_config_sample :
  static_config (K := sample_consts) (C := sample_cli) AFI_IP SAFI_UNICAST
    "ip route"
  = (1, [Text "ip route 10.0.0.0/8"; Text " 192.0.2.1"; Text nl;
         Text "ip route 10.0.0.0/8"; Text " reject"; Text " tag 7";
         Text nl]%string).
Proof. reflexivity. Qed.
